(** * Fantasy Football Metrics Weekly Report: [utils/report_tools.py]

    A shallow embedding of the week validation, the adapter selector, the
    per-player and per-team enrichment and the offline loader of game-time
    statuses, followed by the properties the specification states about
    them.  The lookup of the current week, the configuration dialogue
    ([get_valid_config], [create_config_from_template]) and [git_ls_remote]
    are embedded as well, with further properties read off the code.

    Python values are modelled as the code uses them: fantasy points,
    weights and TABBU are binary64 floats ([PrimFloat]); bad-boy points and
    offender counts are tallies ([N]); covid risk, weeks and seasons are
    integers ([Z]); loosely typed arguments (a week given as [None], an
    [int] or a [str]) are [pyval]s.  Effects (the confirmation prompt, the
    logger, the file system, the network, [sys.exit] and exceptions) are
    threaded through a state-and-exception monad over a [World]. *)

From Stdlib Require Import ZArith NArith List String Ascii Bool Lia Floats DecimalString
  DecimalPos.
Import ListNotations.

Set Warnings "-inexact-float".

Local Open Scope string_scope.
Local Open Scope Z_scope.

(** ** Python values and builtins *)

Inductive pyval : Type :=
| PNone
| PInt (z : Z)
| PFloat (f : float)
| PStr (s : string).

(** A file-system path, as the sequence of components joined by [/]. *)
Definition path := list string.

(** The exceptions the embedded functions raise or let through.
    [sys.exit(msg)] raises [SystemExit]. *)
Inductive exn : Type :=
| ValueError (msg : string)
| TypeError (msg : string)
| OverflowError (msg : string)
| AttributeError (msg : string)
| KeyError (msg : string)
| EOFError
| FileNotFoundError (p : path)
| ConnectionError (msg : string)
| SystemExit (msg : string).

Inductive outcome (A : Type) : Type :=
| Ok (a : A)
| Raise (e : exn).
Arguments Ok {A} a.
Arguments Raise {A} e.

(** Truth value of an object, as [if week:] tests it. *)
Definition truthy (v : pyval) : bool :=
  match v with
  | PNone => false
  | PInt z => negb (z =? 0)
  | PFloat f => negb (PrimFloat.eqb f 0%float)
  | PStr s => negb (String.eqb s "")
  end.

(** [v == s] for a string literal [s]: only a [str] equals a [str]. *)
Definition py_eq_str (v : pyval) (s : string) : bool :=
  match v with
  | PStr t => String.eqb t s
  | _ => false
  end.

(** [x in xs] on a list of strings. *)
Definition py_in (x : string) (xs : list string) : bool :=
  existsb (String.eqb x) xs.

(** *** [int(...)] *)

Definition is_space (c : ascii) : bool :=
  let n := nat_of_ascii c in
  ((9 <=? n) && (n <=? 13))%nat || (n =? 32)%nat.

Definition digit_of (c : ascii) : option Z :=
  let n := Z.of_nat (nat_of_ascii c) in
  if (48 <=? n) && (n <=? 57) then Some (n - 48) else None.

Fixpoint lstrip (l : list ascii) : list ascii :=
  match l with
  | c :: r => if is_space c then lstrip r else l
  | [] => []
  end.

Definition strip (l : list ascii) : list ascii :=
  rev (lstrip (rev (lstrip l))).

(** Decimal digits with single underscores between digits; [seen] tells
    whether the previous character was a digit. *)
Fixpoint digits_value (acc : Z) (seen : bool) (l : list ascii) : option Z :=
  match l with
  | [] => if seen then Some acc else None
  | c :: r =>
      match digit_of c with
      | Some d => digits_value (10 * acc + d) true r
      | None =>
          if Ascii.eqb c "_"%char
          then (if seen then digits_value acc false r else None)
          else None
      end
  end.

(** [int(s)] for a [str] in base 10: surrounding whitespace, an optional
    sign, digits (ASCII text; CPython also accepts the other Unicode
    spaces and decimal digits). *)
Definition int_of_string (s : string) : option Z :=
  match strip (list_ascii_of_string s) with
  | "-"%char :: r => option_map Z.opp (digits_value 0 false r)
  | "+"%char :: r => digits_value 0 false r
  | l => digits_value 0 false l
  end.

(** [int(f)] for a float: truncation towards zero. *)
Definition int_of_float (f : float) : outcome Z :=
  match Prim2SF f with
  | S754_nan => Raise (ValueError "cannot convert float NaN to integer")
  | S754_infinity _ => Raise (OverflowError "cannot convert float infinity to integer")
  | S754_zero _ => Ok 0
  | S754_finite s m e =>
      let a := if 0 <=? e then Zpos m * 2 ^ e else Zpos m / 2 ^ (- e) in
      Ok (if s then - a else a)
  end.

Definition py_int (v : pyval) : outcome Z :=
  match v with
  | PInt z => Ok z
  | PFloat f => int_of_float f
  | PStr s =>
      match int_of_string s with
      | Some z => Ok z
      | None => Raise (ValueError ("invalid literal for int() with base 10: '" ++ s ++ "'"))
      end
  | PNone => Raise (TypeError "int() argument must be a string, a bytes-like object or a real number, not 'NoneType'")
  end.

(** [str(n)] for an [int]. *)
Definition py_str_int (z : Z) : string :=
  NilZero.string_of_int (Z.to_int z).

(** *** [round(x, 2)] and [sum(...)] on floats *)

(** The integer nearest to [m * 2^e], ties to even. *)
Definition round_half_even (m e : Z) : Z :=
  if 0 <=? e then m * 2 ^ e
  else
    let d := 2 ^ (- e) in
    let q := m / d in
    let r := m mod d in
    match 2 * r ?= d with
    | Lt => q
    | Gt => q + 1
    | Eq => if Z.even q then q else q + 1
    end.

(** [round(x, 2)]: the exact binary value of [x] is rounded to two decimal
    places (ties to even) and the decimal result is read back as the
    nearest float; NaN, infinities and zeros round to themselves and the
    sign is kept. *)
Definition py_round2 (x : float) : float :=
  match Prim2SF x with
  | S754_finite s m e =>
      match round_half_even (100 * Zpos m) e with
      | Zpos n => SF2Prim (SFdiv prec emax (S754_finite s n 0) (S754_finite false 100 0))
      | _ => if s then neg_zero else zero
      end
  | _ => x
  end.

(** [sum(xs)]: the items added from left to right, starting from [0]
    (the sum of no items is the integer [0], which is the float [0.0]
    here). *)
Definition py_sum (xs : list float) : float :=
  fold_left PrimFloat.add xs 0%float.

Definition sumZ (xs : list Z) : Z := fold_left Z.add xs 0.
Definition sumN (xs : list N) : N := fold_left N.add xs 0%N.

(** [a != b] on floats. *)
Definition float_neq (a b : float) : bool := negb (PrimFloat.eqb a b).

(** ** The world the functions act on *)

Inductive log_level : Type := DEBUG | INFO | WARNING | ERROR.

(** An HTTP response, as far as the code reads it. *)
Record Response : Type := mkResponse {
  resp_url : string;
  resp_text : string;
  (** [response.json()]: the decoded object, or the error of decoding *)
  resp_json : outcome (list (string * pyval))
}.

(** The parsed document [BeautifulSoup(markup, "html.parser")] and its
    rendering [prettify()]; the parser is an external library, so a
    document is identified with the markup it was built from. *)
Record Soup : Type := mkSoup { soup_markup : string }.

Inductive log_msg : Type :=
| MsgTeamPointsMismatch (team_name : string) (retrieved calculated : float)
| MsgPlatformNotSupported (platform : string)
| MsgFileDoesNotExist (file_path : path)
| MsgRetrievingCurrentWeek
| MsgCurrentWeekUnavailable
| MsgOfflineCurrentWeek
| MsgResponseUrl (url : string)
| MsgResponseHtml (soup : Soup)
| MsgException (e : exn).

Record World : Type := mkWorld {
  (** lines still to be read by [input()] *)
  stdin : list string;
  (** prompts written by [input()], latest first *)
  prompts : list string;
  (** records handed to the logger, latest first *)
  log : list (log_level * log_msg);
  (** files and their contents, latest write first *)
  files : list (path * string);
  (** directories *)
  dirs : list path;
  (** [requests.get(url, params=...)] *)
  http_get : string -> list (string * string) -> outcome Response
}.

(** A computation: it reads and changes the world and returns or raises. *)
Definition M (A : Type) : Type := World -> outcome A * World.

Definition ret {A} (a : A) : M A := fun w => (Ok a, w).

Definition bind {A B} (c : M A) (k : A -> M B) : M B :=
  fun w =>
    match c w with
    | (Ok a, w') => k a w'
    | (Raise e, w') => (Raise e, w')
    end.

Definition raise {A} (e : exn) : M A := fun w => (Raise e, w).

Definition lift {A} (o : outcome A) : M A := fun w => (o, w).

(** [try: c except <handles>: h]: [h] runs, in the world [c] left, when
    [c] raises an exception that [handles] selects. *)
Definition try_except {A} (c : M A) (handles : exn -> bool) (h : exn -> M A) : M A :=
  fun w =>
    match c w with
    | (Raise e, w') => if handles e then h e w' else (Raise e, w')
    | r => r
    end.

Declare Scope monad_scope.
Delimit Scope monad_scope with monad.
Notation "x <- c ;; k" := (bind c (fun x => k))
  (at level 61, c at next level, right associativity) : monad_scope.
Notation "c ;;; k" := (bind c (fun _ => k))
  (at level 61, right associativity) : monad_scope.
Local Open Scope monad_scope.

Definition is_ValueError (e : exn) : bool :=
  match e with ValueError _ => true | _ => false end.

Definition is_KeyError_or_ValueError (e : exn) : bool :=
  match e with KeyError _ | ValueError _ => true | _ => false end.

Definition is_FileNotFoundError (e : exn) : bool :=
  match e with FileNotFoundError _ => true | _ => false end.

(** [logger.<level>(msg)] *)
Definition logger (lvl : log_level) (m : log_msg) : M unit :=
  fun w => (Ok tt, mkWorld (stdin w) (prompts w) ((lvl, m) :: log w)
                           (files w) (dirs w) (http_get w)).

(** [input(prompt)] *)
Definition input (prompt : string) : M string :=
  fun w =>
    match stdin w with
    | line :: rest =>
        (Ok line, mkWorld rest (prompt :: prompts w) (log w) (files w) (dirs w) (http_get w))
    | [] =>
        (Raise EOFError, mkWorld [] (prompt :: prompts w) (log w) (files w) (dirs w) (http_get w))
    end.

(** [sys.exit(msg)] *)
Definition sys_exit {A} (msg : string) : M A := raise (SystemExit msg).

Fixpoint path_eqb (p q : path) : bool :=
  match p, q with
  | [], [] => true
  | a :: p', b :: q' => String.eqb a b && path_eqb p' q'
  | _, _ => false
  end.

Fixpoint lookup_file (fs : list (path * string)) (p : path) : option string :=
  match fs with
  | [] => None
  | (q, c) :: fs' => if path_eqb q p then Some c else lookup_file fs' p
  end.

(** [open(p, "r").read()] *)
Definition read_file (p : path) : M string :=
  fun w =>
    match lookup_file (files w) p with
    | Some c => (Ok c, w)
    | None => (Raise (FileNotFoundError p), w)
    end.

(** [open(p, "w").write(c)] *)
Definition write_file (p : path) (c : string) : M unit :=
  fun w => (Ok tt, mkWorld (stdin w) (prompts w) (log w) ((p, c) :: files w)
                           (dirs w) (http_get w)).

(** [Path(d).exists()] *)
Definition path_exists (d : path) : M bool :=
  fun w => (Ok (existsb (path_eqb d) (dirs w)
                || match lookup_file (files w) d with Some _ => true | None => false end), w).

(** [os.makedirs(d)] *)
Definition makedirs (d : path) : M unit :=
  fun w => (Ok tt, mkWorld (stdin w) (prompts w) (log w) (files w)
                           (d :: dirs w) (http_get w)).

(** [requests.get(url, headers=..., params=...)] *)
Definition requests_get (url : string) (params : list (string * string)) : M Response :=
  fun w => (http_get w url params, w).

(** [d.get(key)] on a decoded JSON object *)
Fixpoint dict_get (d : list (string * pyval)) (key : string) : pyval :=
  match d with
  | [] => PNone
  | (k, v) :: d' => if String.eqb k key then v else dict_get d' key
  end.

(** ** Canonical model ([dao/base.py]) and collaborators *)

Record Player : Type := mkPlayer {
  first_name : string;
  last_name : string;
  full_name : string;
  nfl_team_abbr : string;
  primary_position : string;
  selected_position : string;
  points : float;
  bad_boy_crime : string;
  bad_boy_points : N;
  bad_boy_num_offenders : N;
  weight : float;
  tabbu : float;
  covid_risk : Z
}.

Record Team : Type := mkTeam {
  team_id : string;
  name : string;
  roster : list Player;
  team_points : float;
  home_field_advantage : float;
  bench_points : float;
  team_bad_boy_points : N;
  worst_offense : option string;
  num_offenders : N;
  worst_offense_score : N;
  total_weight : float;
  team_tabbu : float;
  total_covid_risk : Z;
  positions_filled_active : list string;
  coaching_efficiency : pyval;
  optimal_points : pyval;
  luck : pyval;
  weekly_overall_record : pyval;
  record : pyval
}.

Record League : Type := mkLeague {
  league_id : string;
  season : Z;
  data_dir : string;
  offline : bool;
  save_data : bool;
  bench_positions : list string
}.

(** The settings of [config.ini] the functions read. *)
Record Config : Type := mkConfig {
  (** [Settings] / [week_for_report] *)
  cfg_week_for_report : string;
  (** [Settings] / [current_week] *)
  cfg_current_week : string;
  (** [Report] / [league_bad_boy_rankings] *)
  league_bad_boy_rankings : bool;
  (** [Report] / [league_beef_rankings] *)
  league_beef_rankings : bool;
  (** [Report] / [league_covid_risk_rankings] *)
  league_covid_risk_rankings : bool
}.

(** Metrics providers ([calculate/]): lookups keyed by the player's
    identity; a miss is answered with the neutral value.  Bad-boy points
    are crime scores and offender numbers are counts, never negative. *)
Record BadBoyStats : Type := mkBadBoyStats {
  get_player_bad_boy_crime : string -> string -> string -> string -> string;
  get_player_bad_boy_points : string -> string -> string -> string -> N;
  get_player_bad_boy_num_offenders : string -> string -> string -> string -> N
}.

Record BeefStats : Type := mkBeefStats {
  get_player_weight : string -> string -> string -> float;
  get_player_tabbu : string -> string -> string -> float
}.

Record CovidRisk : Type := mkCovidRisk {
  get_player_covid_risk : string -> string -> string -> Z
}.

Record CoachingEfficiency : Type := mkCoachingEfficiency {
  execute_coaching_efficiency :
    string -> list Player -> float -> list string -> Z -> list string -> bool ->
    pyval * pyval
}.

Record LuckEntry : Type := mkLuckEntry {
  entry_luck : pyval;
  entry_luck_record : pyval
}.

(** The [metrics] dictionary. *)
Record Metrics : Type := mkMetrics {
  m_bad_boy_stats : BadBoyStats;
  m_beef_stats : BeefStats;
  m_covid_risk : CovidRisk;
  m_coaching_efficiency : CoachingEfficiency;
  (** [metrics.get("luck").get(team_id)] *)
  m_luck : string -> option LuckEntry;
  (** [metrics.get("records").get(team_id)], [None] when absent *)
  m_records : string -> pyval
}.

Record MetricsCalculator : Type := mkMetricsCalculator {
  decode_byte_string : string -> string
}.

(** The platform adapters ([dao/platforms/]): each entry stands for the
    construction of the adapter's [LeagueData] followed by
    [map_data_to_base(BaseLeague)], with the arguments in the order of the
    constructor. *)
Definition week_validation : Type := Config -> pyval -> pyval -> pyval -> M Z.
Definition current_week_lookup : Type := Config -> bool -> M pyval.

Record Platforms : Type := mkPlatforms {
  YahooLeagueData :
    pyval -> pyval -> string -> pyval -> Config -> string -> string ->
    week_validation -> bool -> bool -> M League;
  FleaflickerLeagueData :
    pyval -> string -> pyval -> pyval -> Config -> string ->
    week_validation -> current_week_lookup -> bool -> bool -> M League;
  SleeperLeagueData :
    pyval -> string -> pyval -> pyval -> Config -> string ->
    week_validation -> current_week_lookup -> bool -> bool -> M League;
  EspnLeagueData :
    pyval -> string -> pyval -> pyval -> Config -> string -> string ->
    week_validation -> bool -> bool -> M League
}.

(** ** [utils/report_tools.py] *)

Definition NFL_SEASON_LENGTH : Z := 18.

Definition quote : string := String (ascii_of_nat 34) EmptyString.

(** The texts of the prompts and errors, without the colour codes. *)
Definition first_week_prompt : string :=
  "The first week of the season is not yet complete. Are you sure you want to generate a report for an incomplete week? (y/n) -> ".

Definition incomplete_week_prompt : string :=
  "Are you sure you want to generate a report for an incomplete week? (y/n) -> ".

Definition msg_not_recommended : string :=
  "It is recommended that you NOT generate a report for an incomplete week.".

Definition msg_only_y_or_n : string :=
  "Please only select " ++ quote ++ "y" ++ quote ++ " or " ++ quote ++ "n" ++ quote
  ++ ". Try running the report generator again.".

Definition msg_week_choice : string :=
  "You must select either " ++ quote ++ "default" ++ quote
  ++ " or an integer from 1 to " ++ py_str_int NFL_SEASON_LENGTH ++ " for the chosen week.".

Definition msg_run_aborted : string := "...run aborted.".

Definition nfl_state_url : string := "https://api.sleeper.app/v1/state/nfl".
Definition injuries_url : string := "https://www.footballdb.com/transactions/injuries.html".

Section ReportTools.

(** Module-level state, computed once when the module is imported:
    [datetime.today()] and the modules found under [dao/platforms]. *)
Variable current_year : Z.
Variable current_month : Z.
Variable supported_platforms : list string.

(** [html_soup.prettify()] of the external parser. *)
Variable prettify : Soup -> string.

(** The body of the [try] block of [user_week_input_validation]; it
    yields the new value of [week_for_report]. *)
Definition validate_week (week_for_report retrieved_current_week : pyval) : M pyval :=
  let current_week := retrieved_current_week in
  if py_eq_str week_for_report "default" then
    cw <- lift (py_int current_week) ;;
    if cw - 1 >? 0 then
      cw' <- lift (py_int current_week) ;;
      ret (PStr (py_str_int (cw' - 1)))
    else
      first_week_incomplete <- input first_week_prompt ;;
      if String.eqb first_week_incomplete "y" then ret current_week
      else if String.eqb first_week_incomplete "n" then raise (ValueError msg_not_recommended)
      else raise (ValueError msg_only_y_or_n)
  else
    w <- lift (py_int week_for_report) ;;
    if (0 <? w) && (w <=? NFL_SEASON_LENGTH) then
      w' <- lift (py_int week_for_report) ;;
      complete <- (if 0 <? w' then
                     cw <- lift (py_int current_week) ;;
                     ret (w' <=? cw - 1)
                   else ret false) ;;
      if (complete : bool) then ret week_for_report
      else
        incomplete_week <- input incomplete_week_prompt ;;
        if String.eqb incomplete_week "y" then ret week_for_report
        else if String.eqb incomplete_week "n" then raise (ValueError msg_not_recommended)
        else raise (ValueError msg_only_y_or_n)
    else raise (ValueError msg_week_choice).

Definition user_week_input_validation
    (config : Config) (week retrieved_current_week season : pyval) : M Z :=
  let week_for_report :=
    if truthy week then week else PStr (cfg_week_for_report config) in
  s <- lift (py_int season) ;;
  week_for_report <-
    (if (current_year =? s) || ((current_year =? s + 1) && (current_month <? 9)) then
       try_except (validate_week week_for_report retrieved_current_week)
                  is_ValueError
                  (fun _ => raise (ValueError msg_week_choice))
     else ret week_for_report) ;;
  lift (py_int week_for_report).

Definition get_current_nfl_week (config : Config) (offline : bool) : M pyval :=
  current_nfl_week <- lift (py_int (PStr (cfg_current_week config))) ;;
  if negb offline then
    logger DEBUG MsgRetrievingCurrentWeek ;;;
    try_except
      (response <- requests_get nfl_state_url [] ;;
       nfl_weekly_info <- lift (resp_json response) ;;
       ret (dict_get nfl_weekly_info "week"))
      is_KeyError_or_ValueError
      (fun e =>
         logger WARNING MsgCurrentWeekUnavailable ;;;
         logger DEBUG (MsgException e) ;;;
         ret (PInt current_nfl_week))
  else
    logger DEBUG MsgOfflineCurrentWeek ;;;
    ret (PInt current_nfl_week).

Definition league_data_factory (dao : Platforms)
    (week_for_report : pyval) (platform league_id : string) (game_id season start_week : pyval)
    (config : Config) (base_dir data_dir : string) (save_data offline : bool)
    : M (option League) :=
  if py_in platform supported_platforms then
    if String.eqb platform "yahoo" then
      yahoo_league <- YahooLeagueData dao week_for_report start_week league_id game_id
                        config base_dir data_dir user_week_input_validation
                        save_data offline ;;
      ret (Some yahoo_league)
    else if String.eqb platform "fleaflicker" then
      fleaflicker_league <- FleaflickerLeagueData dao week_for_report league_id season
                              start_week config data_dir user_week_input_validation
                              get_current_nfl_week save_data offline ;;
      ret (Some fleaflicker_league)
    else if String.eqb platform "sleeper" then
      sleeper_league <- SleeperLeagueData dao week_for_report league_id season
                          start_week config data_dir user_week_input_validation
                          get_current_nfl_week save_data offline ;;
      ret (Some sleeper_league)
    else if String.eqb platform "espn" then
      espn_league <- EspnLeagueData dao week_for_report league_id season start_week
                       config base_dir data_dir user_week_input_validation
                       save_data offline ;;
      ret (Some espn_league)
    else ret None
  else
    logger ERROR (MsgPlatformNotSupported platform) ;;;
    sys_exit msg_run_aborted.

(** Attribute assignments on a player. *)
Definition set_bad_boy (p : Player) (crime : string) (pts offenders : N) : Player :=
  mkPlayer (first_name p) (last_name p) (full_name p) (nfl_team_abbr p)
           (primary_position p) (selected_position p) (points p)
           crime pts offenders (weight p) (tabbu p) (covid_risk p).

Definition set_beef (p : Player) (w t : float) : Player :=
  mkPlayer (first_name p) (last_name p) (full_name p) (nfl_team_abbr p)
           (primary_position p) (selected_position p) (points p)
           (bad_boy_crime p) (bad_boy_points p) (bad_boy_num_offenders p)
           w t (covid_risk p).

Definition set_covid_risk (p : Player) (r : Z) : Player :=
  mkPlayer (first_name p) (last_name p) (full_name p) (nfl_team_abbr p)
           (primary_position p) (selected_position p) (points p)
           (bad_boy_crime p) (bad_boy_points p) (bad_boy_num_offenders p)
           (weight p) (tabbu p) r.

(** [str()], [int()], [float()]: the neutral values. *)
Definition reset_report_stats (p : Player) : Player :=
  set_covid_risk (set_beef (set_bad_boy p "" 0%N 0%N) 0%float 0%float) 0.

(** [config.getboolean("Report", "league_covid_risk_rankings") and
    int(season) >= 2020]: the season is read only when the toggle is on. *)
Definition covid_risk_enabled (config : Config) (season : pyval) : M bool :=
  if league_covid_risk_rankings config then
    s <- lift (py_int season) ;;
    ret (2020 <=? s)
  else ret false.

Definition add_report_player_stats
    (config : Config) (season : pyval) (metrics : Metrics) (player : Player)
    (bench_positions : list string) : M Player :=
  let player := reset_report_stats player in
  if negb (py_in (selected_position player) bench_positions) then
    let player :=
      if league_bad_boy_rankings config then
        let bad_boy_stats := m_bad_boy_stats metrics in
        set_bad_boy player
          (get_player_bad_boy_crime bad_boy_stats
             (first_name player) (last_name player) (nfl_team_abbr player)
             (primary_position player))
          (get_player_bad_boy_points bad_boy_stats
             (first_name player) (last_name player) (nfl_team_abbr player)
             (primary_position player))
          (get_player_bad_boy_num_offenders bad_boy_stats
             (first_name player) (last_name player) (nfl_team_abbr player)
             (primary_position player))
      else player in
    let player :=
      if league_beef_rankings config then
        let beef_stats := m_beef_stats metrics in
        set_beef player
          (get_player_weight beef_stats
             (first_name player) (last_name player) (nfl_team_abbr player))
          (get_player_tabbu beef_stats
             (first_name player) (last_name player) (nfl_team_abbr player))
      else player in
    covid <- covid_risk_enabled config season ;;
    let player :=
      if (covid : bool) then
        set_covid_risk player
          (get_player_covid_risk (m_covid_risk metrics)
             (full_name player) (nfl_team_abbr player) (primary_position player))
      else player in
    ret player
  else ret player.

(** [for player in team.roster: add_report_player_stats(...)]: the players
    are updated in place, in roster order. *)
Fixpoint add_roster_player_stats
    (config : Config) (season : pyval) (metrics : Metrics)
    (roster : list Player) (bench_positions : list string) : M (list Player) :=
  match roster with
  | [] => ret []
  | player :: rest =>
      player' <- add_report_player_stats config season metrics player bench_positions ;;
      rest' <- add_roster_player_stats config season metrics rest bench_positions ;;
      ret (player' :: rest')
  end.

Definition is_bench (bench_positions : list string) (p : Player) : bool :=
  py_in (selected_position p) bench_positions.

Definition is_active (bench_positions : list string) (p : Player) : bool :=
  negb (py_in (selected_position p) bench_positions).

(** The running bad-boy totals of a team: [bad_boy_points],
    [worst_offense], [num_offenders], [worst_offense_score]. *)
Record BadBoyTotals : Type := mkBadBoyTotals {
  tot_bad_boy_points : N;
  tot_worst_offense : option string;
  tot_num_offenders : N;
  tot_worst_offense_score : N
}.

(** One iteration of [for p in team.roster:] of the bad-boy block. *)
Definition bad_boy_step (bench_positions : list string)
    (t : BadBoyTotals) (p : Player) : BadBoyTotals :=
  if negb (py_in (selected_position p) bench_positions) then
    if (0 <? bad_boy_points p)%N then
      let pts := (tot_bad_boy_points t + bad_boy_points p)%N in
      let offenders :=
        if String.eqb (selected_position p) "DEF"
        then (tot_num_offenders t + bad_boy_num_offenders p)%N
        else (tot_num_offenders t + 1)%N in
      if (tot_worst_offense_score t <? bad_boy_points p)%N then
        mkBadBoyTotals pts (Some (bad_boy_crime p)) offenders (bad_boy_points p)
      else
        mkBadBoyTotals pts (tot_worst_offense t) offenders (tot_worst_offense_score t)
    else t
  else t.

Definition bad_boy_totals (bench_positions : list string) (roster : list Player)
    : BadBoyTotals :=
  fold_left (bad_boy_step bench_positions) roster (mkBadBoyTotals 0%N None 0%N 0%N).

Definition add_report_team_stats
    (config : Config) (team : Team) (league : League) (week_counter season : pyval)
    (metrics_calculator : MetricsCalculator) (metrics : Metrics) (dq_ce : bool)
    (inactive_players : list string) : M Team :=
  let name_ := decode_byte_string metrics_calculator (name team) in
  let bench_positions := bench_positions league in
  roster_ <- add_roster_player_stats config season metrics (roster team) bench_positions ;;
  let starting_lineup_points :=
    py_round2 (py_sum (map points (filter (is_active bench_positions) roster_))) in
  (if float_neq (py_round2 (team_points team))
                (starting_lineup_points + home_field_advantage team)%float
   then logger WARNING
          (MsgTeamPointsMismatch name_ (py_round2 (team_points team)) starting_lineup_points)
   else ret tt) ;;;
  let bench_points_ :=
    py_round2 (py_sum (map points (filter (is_bench bench_positions) roster_))) in
  let bad_boy :=
    if league_bad_boy_rankings config then bad_boy_totals bench_positions roster_
    else mkBadBoyTotals (team_bad_boy_points team) (worst_offense team)
                        (num_offenders team) (worst_offense_score team) in
  let total_weight_ :=
    if league_beef_rankings config
    then py_sum (map weight (filter (is_active bench_positions) roster_))
    else total_weight team in
  let tabbu_ :=
    if league_beef_rankings config
    then py_sum (map tabbu (filter (is_active bench_positions) roster_))
    else team_tabbu team in
  covid <- covid_risk_enabled config season ;;
  let total_covid_risk_ :=
    if (covid : bool)
    then sumZ (map covid_risk (filter (is_active bench_positions) roster_))
    else total_covid_risk team in
  let positions_filled_active_ :=
    map selected_position (filter (is_active bench_positions) roster_) in
  week <- lift (py_int week_counter) ;;
  let '(coaching_efficiency_, optimal_points_) :=
    execute_coaching_efficiency (m_coaching_efficiency metrics)
      name_ roster_ (team_points team) positions_filled_active_ week
      inactive_players dq_ce in
  match m_luck metrics (team_id team) with
  | None => raise (AttributeError "'NoneType' object has no attribute 'get'")
  | Some entry =>
      ret (mkTeam (team_id team) name_ roster_ (team_points team)
                  (home_field_advantage team) bench_points_
                  (tot_bad_boy_points bad_boy) (tot_worst_offense bad_boy)
                  (tot_num_offenders bad_boy) (tot_worst_offense_score bad_boy)
                  total_weight_ tabbu_ total_covid_risk_ positions_filled_active_
                  coaching_efficiency_ optimal_points_
                  (entry_luck entry) (entry_luck_record entry)
                  (m_records metrics (team_id team)))
  end.

Definition BeautifulSoup (markup : string) : Soup := mkSoup markup.

Definition get_player_game_time_statuses (week : Z) (league : League) : M Soup :=
  let file_name := "week_" ++ py_str_int week ++ "-player_status_data.html" in
  let file_dir : path :=
    [data_dir league; py_str_int (season league); league_id league;
     "week_" ++ py_str_int week] in
  let file_path : path := app file_dir [file_name] in
  html_soup <-
    (if negb (offline league) then
       response <- requests_get injuries_url
                     [("yr", py_str_int (season league)); ("wk", py_str_int week);
                      ("type", "reg")] ;;
       let html_soup := BeautifulSoup (resp_text response) in
       logger DEBUG (MsgResponseUrl (resp_url response)) ;;;
       logger DEBUG (MsgResponseHtml html_soup) ;;;
       ret html_soup
     else
       try_except
         (data_in <- read_file file_path ;;
          ret (BeautifulSoup data_in))
         is_FileNotFoundError
         (fun _ =>
            logger ERROR (MsgFileDoesNotExist file_path) ;;;
            sys_exit msg_run_aborted)) ;;
  (if save_data league then
     present <- path_exists file_dir ;;
     (if negb present then makedirs file_dir else ret tt) ;;;
     write_file file_path (prettify html_soup)
   else ret tt) ;;;
  ret html_soup.

End ReportTools.

(** ** Notions used to state the properties *)

(** The seven attributes enrichment never assigns. *)
Definition same_identity (p p' : Player) : Prop :=
  first_name p' = first_name p /\ last_name p' = last_name p /\
  full_name p' = full_name p /\ nfl_team_abbr p' = nfl_team_abbr p /\
  primary_position p' = primary_position p /\
  selected_position p' = selected_position p /\ points p' = points p.

(** What one active player adds to [team.num_offenders]. *)
Definition offender_count (p : Player) : N :=
  if (0 <? bad_boy_points p)%N then
    if String.eqb (selected_position p) "DEF" then bad_boy_num_offenders p else 1%N
  else 0%N.

(** The highest individual bad-boy points among [ps] ([0] when empty). *)
Definition highest_points (ps : list Player) : N :=
  fold_right N.max 0%N (map bad_boy_points ps).

Definition first_with_points (v : N) (ps : list Player) : option Player :=
  find (fun p => (bad_boy_points p =? v)%N) ps.

(** The first player of [ps], in roster order, with the highest points. *)
Definition worst_offender (ps : list Player) : option Player :=
  first_with_points (highest_points ps) ps.

(** The covid-risk gate is not met: the toggle is off or the season is
    before 2020. *)
Definition covid_gate_closed (config : Config) (season : pyval) : Prop :=
  league_covid_risk_rankings config = false \/
  exists s, py_int season = Ok s /\ s < 2020.

(** [int(season)] succeeds wherever enrichment evaluates it. *)
Definition season_readable (config : Config) (season : pyval) : Prop :=
  league_covid_risk_rankings config = false \/ exists s, py_int season = Ok s.

(** The test guarding the discrepancy warning, on a team [t] and the
    bench set [bench]. *)
Definition points_mismatch (bench : list string) (t : Team) : bool :=
  float_neq (py_round2 (team_points t))
            (py_round2 (py_sum (map points (filter (is_active bench) (roster t))))
             + home_field_advantage t)%float.

(** The reported points and the recomputed lineup total plus the
    home-field advantage differ once both are rounded to 2 decimals. *)
Definition differ_at_2_decimals (bench : list string) (t : Team) : bool :=
  float_neq (py_round2 (team_points t))
            (py_round2 (py_sum (map points (filter (is_active bench) (roster t)))
                        + home_field_advantage t)%float).

Definition log_warning (m : log_msg) (w : World) : World :=
  snd (logger WARNING m w).

Definition log_error (m : log_msg) (w : World) : World :=
  snd (logger ERROR m w).

(** Computations whose outcome is determined by the answers waiting on
    [stdin], and that consume the same answers. *)
Definition answers_only {A} (c : M A) : Prop :=
  forall w1 w2, stdin w1 = stdin w2 ->
    fst (c w1) = fst (c w2) /\ stdin (snd (c w1)) = stdin (snd (c w2)).

(** Computations that leave the log, the files and the network alone. *)
Definition keeps_store {A} (c : M A) : Prop :=
  forall w, log (snd (c w)) = log w /\ files (snd (c w)) = files w /\
            dirs (snd (c w)) = dirs w /\ http_get (snd (c w)) = http_get w.

(** The world [w] with [answers] waiting on [stdin]. *)
Definition supply_answers (answers : list string) (w : World) : World :=
  mkWorld answers (prompts w) (log w) (files w) (dirs w) (http_get w).

(** The season [s] is neither the current year's nor last year's before
    September: the validation block is skipped. *)
Definition validation_skipped (current_year current_month s : Z) : Prop :=
  current_year <> s /\ ~ (current_year = s + 1 /\ current_month < 9).

(** The value [week_for_report] starts from. *)
Definition requested_week (config : Config) (week : pyval) : pyval :=
  if truthy week then week else PStr (cfg_week_for_report config).

(** [file_path] of [get_player_game_time_statuses]. *)
Definition player_status_path (week : Z) (league : League) : path :=
  [data_dir league; py_str_int (season league); league_id league;
   "week_" ++ py_str_int week;
   "week_" ++ py_str_int week ++ "-player_status_data.html"].

(** ** Sample data *)

Definition offline_net : string -> list (string * string) -> outcome Response :=
  fun _ _ => Raise (ConnectionError "no network").

Definition quiet_world : World := mkWorld [] [] [] [] [] offline_net.

(** The same world after an earlier, unrelated warning was logged and
    with the answer [y] waiting. *)
Definition answering_world (earlier : list (log_level * log_msg)) : World :=
  mkWorld ["y"] [] earlier [] [] offline_net.

Definition sample_config (bad_boy beef covid : bool) : Config :=
  mkConfig "default" "3" bad_boy beef covid.

Definition sample_player (last sel : string) (pts : float) : Player :=
  mkPlayer "Pat" last ("Pat " ++ last) "NE" sel sel pts "stale" 7%N 7%N 1%float 1%float 7.

(** A provider with a record for two players: points [5] for [Quincy]
    and points [12], three offenders, for the defense. *)
Definition sample_bad_boy_stats : BadBoyStats :=
  mkBadBoyStats
    (fun _ last _ _ => if String.eqb last "Quincy" then "DUI"
                       else if String.eqb last "Defense" then "Assault" else "")
    (fun _ last _ _ => if String.eqb last "Quincy" then 5%N
                       else if String.eqb last "Defense" then 12%N else 0%N)
    (fun _ last _ _ => if String.eqb last "Quincy" then 1%N
                       else if String.eqb last "Defense" then 3%N else 0%N).

Definition sample_metrics : Metrics :=
  mkMetrics sample_bad_boy_stats
            (mkBeefStats (fun _ _ _ => 250%float) (fun _ _ _ => 0.5%float))
            (mkCovidRisk (fun _ _ _ => 3))
            (mkCoachingEfficiency (fun _ _ pts _ _ _ _ => (PFloat 1, PFloat pts)))
            (fun _ => Some (mkLuckEntry (PFloat 0) (PStr "1-0")))
            (fun _ => PStr "1-0-0").

Definition sample_calculator : MetricsCalculator := mkMetricsCalculator (fun s => s).

Definition sample_league : League :=
  mkLeague "1234" 2021 "data" true false ["BN"; "IR"].

Definition sample_team (pts hfa : float) (players : list Player) : Team :=
  mkTeam "1" "Team" players pts hfa 0%float 0%N None 0%N 0%N 0%float 0%float 0 []
         PNone PNone PNone PNone PNone.

(** One starter with 12.5 points, one benched player with 30 points. *)
Definition bench_scenario_roster : list Player :=
  [sample_player "Quincy" "QB" 12.5%float; sample_player "Bench" "BN" 30%float].

(** Two starters: a quarterback and a defense. *)
Definition bad_boy_scenario_roster : list Player :=
  [sample_player "Quincy" "QB" 10%float; sample_player "Defense" "DEF" 8%float].

(** One starter with 63.01 points in a league with a home-field advantage
    of 1 point; the platform reports 64.01 points for the team. *)
Definition home_field_team : Team :=
  sample_team 64.01%float 1%float [sample_player "Quincy" "QB" 63.01%float].

Definition sample_platforms : Platforms :=
  mkPlatforms (fun _ _ _ _ _ _ _ _ _ _ => ret sample_league)
              (fun _ _ _ _ _ _ _ _ _ _ => ret sample_league)
              (fun _ _ _ _ _ _ _ _ _ _ => ret sample_league)
              (fun _ _ _ _ _ _ _ _ _ _ => ret sample_league).

Definition sample_prettify : Soup -> string := soup_markup.

(** ** The offender count in the words of the specification *)

(** What one active player adds to [team.num_offenders] as the
    specification words it: a [DEF] its own count, any other position [1]
    when its bad-boy points are above [0]. *)
Definition claimed_offender_count (p : Player) : N :=
  if String.eqb (selected_position p) "DEF" then bad_boy_num_offenders p
  else if (0 <? bad_boy_points p)%N then 1%N else 0%N.

(** A provider that knows the defense for three offenders and no points. *)
Definition idle_defense_stats : BadBoyStats :=
  mkBadBoyStats
    (fun _ _ _ _ => "")
    (fun _ _ _ _ => 0%N)
    (fun _ last _ _ => if String.eqb last "Defense" then 3%N else 0%N).

Definition idle_defense_metrics : Metrics :=
  mkMetrics idle_defense_stats (m_beef_stats sample_metrics) (m_covid_risk sample_metrics)
            (m_coaching_efficiency sample_metrics) (m_luck sample_metrics)
            (m_records sample_metrics).

(** A team whose one starter is the defense. *)
Definition idle_defense_team : Team :=
  sample_team 8%float 0%float [sample_player "Defense" "DEF" 8%float].

(** A configuration whose [week_for_report] is week 5. *)
Definition week_5_config : Config := mkConfig "5" "3" false false false.

(** ** Notions used by the further properties *)

(** The value of a decimal numeral read from the left, after [acc]. *)
Fixpoint uint_value (d : Decimal.uint) (acc : Z) : Z :=
  match d with
  | Decimal.Nil => acc
  | Decimal.D0 d => uint_value d (10 * acc)
  | Decimal.D1 d => uint_value d (10 * acc + 1)
  | Decimal.D2 d => uint_value d (10 * acc + 2)
  | Decimal.D3 d => uint_value d (10 * acc + 3)
  | Decimal.D4 d => uint_value d (10 * acc + 4)
  | Decimal.D5 d => uint_value d (10 * acc + 5)
  | Decimal.D6 d => uint_value d (10 * acc + 6)
  | Decimal.D7 d => uint_value d (10 * acc + 7)
  | Decimal.D8 d => uint_value d (10 * acc + 8)
  | Decimal.D9 d => uint_value d (10 * acc + 9)
  end.

Definition no_space (l : list ascii) : Prop := Forall (fun c => is_space c = false) l.

(** The season [s] is the current year's, or last year's before
    September: the validation block runs. *)
Definition validation_applies (current_year current_month s : Z) : Prop :=
  current_year = s \/ (current_year = s + 1 /\ current_month < 9).

(** The world after [input(prompt)] has read one answer. *)
Definition after_prompt (prompt : string) (w : World) : World :=
  snd (input prompt w).

(** A decoded JSON object without the key [key]. *)
Definition lacks_key (d : list (string * pyval)) (key : string) : Prop :=
  forall v, ~ In (key, v) d.

(** The world answering every request with [r]. *)
Definition with_http (r : outcome Response) (w : World) : World :=
  mkWorld (stdin w) (prompts w) (log w) (files w) (dirs w) (fun _ _ => r).

Definition log_debug (m : log_msg) (w : World) : World :=
  snd (logger DEBUG m w).

(** The query of [get_player_game_time_statuses]. *)
Definition injuries_params (week : Z) (league : League) : list (string * string) :=
  [("yr", py_str_int (season league)); ("wk", py_str_int week); ("type", "reg")].

(** The league [league] run offline and without saving. *)
Definition replayed (league : League) : League :=
  mkLeague (league_id league) (season league) (data_dir league) true false
           (bench_positions league).

(** The sample league run online with [save_data] set, and a world whose
    network answers with one page. *)
Definition saving_league : League :=
  mkLeague "1234" 2021 "data" false true ["BN"; "IR"].

Definition injuries_page : Response :=
  mkResponse injuries_url "<html>injuries</html>"
             (Raise (ValueError "Expecting value")).

Definition online_world : World := with_http (Ok injuries_page) quiet_world.

(** The providers' answers for a player, looked up by identity. *)
Definition provider_bad_boy_points (metrics : Metrics) (p : Player) : N :=
  get_player_bad_boy_points (m_bad_boy_stats metrics)
    (first_name p) (last_name p) (nfl_team_abbr p) (primary_position p).

Definition provider_weight (metrics : Metrics) (p : Player) : float :=
  get_player_weight (m_beef_stats metrics)
    (first_name p) (last_name p) (nfl_team_abbr p).

Definition provider_tabbu (metrics : Metrics) (p : Player) : float :=
  get_player_tabbu (m_beef_stats metrics)
    (first_name p) (last_name p) (nfl_team_abbr p).

Definition provider_covid_risk (metrics : Metrics) (p : Player) : Z :=
  get_player_covid_risk (m_covid_risk metrics)
    (full_name p) (nfl_team_abbr p) (primary_position p).

(** The covid-risk gate is met: the toggle is on and the season is 2020 or
    later. *)
Definition covid_gate_open (config : Config) (season : pyval) : Prop :=
  league_covid_risk_rankings config = true /\
  exists s, py_int season = Ok s /\ 2020 <= s.

(** What enrichment gives one player, as far as the team totals read it. *)
Definition enriched_from
    (config : Config) (season : pyval) (metrics : Metrics) (bench : list string)
    (p p' : Player) : Prop :=
  same_identity p p'
  /\ (is_active bench p = true ->
      (league_bad_boy_rankings config = true ->
       bad_boy_points p' = provider_bad_boy_points metrics p)
      /\ (league_beef_rankings config = true ->
          weight p' = provider_weight metrics p /\ tabbu p' = provider_tabbu metrics p)
      /\ (covid_gate_open config season ->
          covid_risk p' = provider_covid_risk metrics p)).

(** ** [git_ls_remote] *)

(** [s.split(sep)] for a one-character separator: the pieces between the
    occurrences of [sep], empty pieces included. *)
Fixpoint split_on (sep : ascii) (s : string) : list string :=
  match s with
  | EmptyString => [EmptyString]
  | String c r =>
      if Ascii.eqb c sep then EmptyString :: split_on sep r
      else
        match split_on sep r with
        | piece :: pieces => String c piece :: pieces
        | [] => [String c EmptyString]
        end
  end.

(** [sep.join(parts)] *)
Fixpoint join (sep : ascii) (parts : list string) : string :=
  match parts with
  | [] => EmptyString
  | [part] => part
  | part :: rest => part ++ String sep (join sep rest)
  end.

Definition tab : ascii := ascii_of_nat 9.
Definition newline : ascii := ascii_of_nat 10.

(** [d[key] = value] on a dictionary kept in insertion order. *)
Fixpoint dict_set (d : list (string * string)) (key value : string)
    : list (string * string) :=
  match d with
  | [] => [(key, value)]
  | (k, v) :: d' =>
      if String.eqb k key then (key, value) :: d'
      else (k, v) :: dict_set d' key value
  end.

Fixpoint dict_lookup (d : list (string * string)) (key : string) : option string :=
  match d with
  | [] => None
  | (k, v) :: d' => if String.eqb k key then Some v else dict_lookup d' key
  end.

(** The loop of [git_ls_remote] over the lines of the command's output;
    [None] stands for the [IndexError] of [hash_ref_list[1]]. *)
Fixpoint git_ls_remote_loop (lines : list string) (remote_refs : list (string * string))
    : option (list (string * string)) :=
  match lines with
  | [] => Some remote_refs
  | ref :: rest =>
      match split_on tab ref with
      | hash :: name :: _ => git_ls_remote_loop rest (dict_set remote_refs name hash)
      | _ => None
      end
  end.

(** [git_ls_remote(url)], as a function of what [g.ls_remote(url)]
    returned. *)
Definition git_ls_remote (ls_remote_output : string) : option (list (string * string)) :=
  git_ls_remote_loop (split_on newline ls_remote_output) [].

(** The character [c] occurs in [s]. *)
Fixpoint occurs (c : ascii) (s : string) : bool :=
  match s with
  | EmptyString => false
  | String a r => Ascii.eqb a c || occurs c r
  end.

(** One line of [git ls-remote]: the hash, a tab, the ref. *)
Definition ls_remote_line (entry : string * string) : string :=
  fst entry ++ String tab (snd entry).

Definition plain (s : string) : Prop := occurs tab s = false /\ occurs newline s = false.

(** ** Creating and checking [config.ini] *)

(** A configuration as [AppConfigParser] holds it: the sections in order,
    each with its options in order.  Files are taken to be well formed and
    without a [DEFAULT] section, and a configuration file is identified with
    the configuration it parses to. *)
Definition Ini : Type := list (string * list (string * string)).

Inductive setup_msg : Type :=
| MsgCreatingConfig
| MsgGetting
| MsgSelectPlatform (supported : list string)
| MsgRetrievedPlatform (platform : string)
| MsgRetrievedLeagueId (league_id : string)
| MsgFutureSeason
| MsgEspnSeason
| MsgInvalidYear
| MsgRetrievedSeason (season : string)
| MsgInvalidWeek (current_week : string)
| MsgInvalidWeekInteger
| MsgRetrievedWeek (current_week : string)
| MsgConfigAvailable
| MsgMissingSections (sections : list string)
| MsgAllSectionsPresent
| MsgMissingKeys (keys : list (string * list string))
| MsgAllKeysPresent
| MsgConfigNotAccessible
| MsgConfigNotFound
| MsgConfigMustExist
| MsgOnlyYOrN.

(** The machine the dialogue runs on.  [h_config] is the content of the
    parser object [config]: the calls of [create_config_from_template] all
    work on the one object they are handed, and hand it back. *)
Record Host : Type := mkHost {
  h_stdin : list string;
  h_prompts : list string;
  h_log : list (log_level * setup_msg);
  h_files : list (path * Ini);
  (** [os.access(p, os.R_OK)] *)
  h_readable : path -> bool;
  h_config : Ini
}.

(** How a call can fail: with an exception of [exn], with
    [configparser.NoSectionError] or [configparser.InterpolationError], with
    [IndexError], with [shutil.SameFileError]; [OutOfFuel] is the model's own
    and is shown not to occur. *)
Inductive failure : Type :=
| Raised (e : exn)
| NoSectionError (section : string)
| InterpolationError
| IndexError
| SameFileError
| OutOfFuel.

Inductive result (A : Type) : Type :=
| Done (a : A)
| Failed (f : failure).
Arguments Done {A} a.
Arguments Failed {A} f.

Definition Setup (A : Type) : Type := Host -> result A * Host.

Definition sret {A} (a : A) : Setup A := fun h => (Done a, h).

Definition sbind {A B} (c : Setup A) (k : A -> Setup B) : Setup B :=
  fun h =>
    match c h with
    | (Done a, h') => k a h'
    | (Failed f, h') => (Failed f, h')
    end.

Definition sfail {A} (f : failure) : Setup A := fun h => (Failed f, h).

Notation "x <-- c ;; k" := (sbind c (fun x => k))
  (at level 61, c at next level, right associativity) : monad_scope.
Notation "c ;;;; k" := (sbind c (fun _ => k))
  (at level 61, right associativity) : monad_scope.

(** [try: c except ValueError: h] *)
Definition stry_ValueError {A} (c : Setup A) (h : Setup A) : Setup A :=
  fun host =>
    match c host with
    | (Failed (Raised (ValueError _)), host') => h host'
    | r => r
    end.

Definition slog (lvl : log_level) (m : setup_msg) : Setup unit :=
  fun h => (Done tt, mkHost (h_stdin h) (h_prompts h) ((lvl, m) :: h_log h)
                            (h_files h) (h_readable h) (h_config h)).

Definition sinput (prompt : string) : Setup string :=
  fun h =>
    match h_stdin h with
    | line :: rest =>
        (Done line, mkHost rest (prompt :: h_prompts h) (h_log h) (h_files h)
                           (h_readable h) (h_config h))
    | [] =>
        (Failed (Raised EOFError),
         mkHost [] (prompt :: h_prompts h) (h_log h) (h_files h) (h_readable h)
                (h_config h))
    end.

Definition sexit {A} (msg : string) : Setup A := sfail (Raised (SystemExit msg)).

Fixpoint lookup_ini (fs : list (path * Ini)) (p : path) : option Ini :=
  match fs with
  | [] => None
  | (q, c) :: fs' => if path_eqb q p then Some c else lookup_ini fs' p
  end.

(** [int(s)] on a string, inside the dialogue. *)
Definition sint (s : string) : Setup Z :=
  match py_int (PStr s) with
  | Ok z => sret z
  | Raise e => sfail (Raised e)
  end.

(** [p.is_file()] *)
Definition is_file (p : path) : Setup bool :=
  fun h => (Done match lookup_ini (h_files h) p with Some _ => true | None => false end, h).

(** [os.access(p, mode=os.R_OK)] *)
Definition os_access (p : path) : Setup bool :=
  fun h => (Done (h_readable h p), h).

(** [shutil.copyfile(src, dst)] *)
Definition copyfile (src dst : path) : Setup unit :=
  fun h =>
    match lookup_ini (h_files h) src with
    | None => (Failed (Raised (FileNotFoundError src)), h)
    | Some c =>
        if path_eqb src dst then (Failed SameFileError, h)
        else (Done tt, mkHost (h_stdin h) (h_prompts h) (h_log h)
                              ((dst, c) :: h_files h) (h_readable h) (h_config h))
    end.

(** *** The parser's operations

    [AppConfigParser] is taken to be [configparser.ConfigParser] as far as
    [read], [set], [sections], [items] and [write] go. *)

Fixpoint option_set (options : list (string * string)) (key value : string)
    : list (string * string) :=
  match options with
  | [] => [(key, value)]
  | (k, v) :: options' =>
      if String.eqb k key then (key, value) :: options'
      else (k, v) :: option_set options' key value
  end.

Fixpoint option_get (options : list (string * string)) (key : string) : option string :=
  match options with
  | [] => None
  | (k, v) :: options' => if String.eqb k key then Some v else option_get options' key
  end.

Fixpoint section_get (config : Ini) (section : string)
    : option (list (string * string)) :=
  match config with
  | [] => None
  | (s, options) :: config' =>
      if String.eqb s section then Some options else section_get config' section
  end.

(** The value stored for [key] in [section], [None] when either is absent *)
Definition ini_get (config : Ini) (section key : string) : option string :=
  match section_get config section with
  | Some options => option_get options key
  | None => None
  end.

(** The options [new] written over the section [section], added at the
    end when the section is absent. *)
Fixpoint section_update (config : Ini) (section : string) (new : list (string * string))
    : Ini :=
  match config with
  | [] => [(section, fold_left (fun o kv => option_set o (fst kv) (snd kv)) new [])]
  | (s, options) :: config' =>
      if String.eqb s section
      then (s, fold_left (fun o kv => option_set o (fst kv) (snd kv)) new options) :: config'
      else (s, options) :: section_update config' section new
  end.

(** What reading a file does to the content of a parser. *)
Definition ini_merge (config file : Ini) : Ini :=
  fold_left (fun c entry => section_update c (fst entry) (snd entry)) file config.

(** [config.sections()] *)
Definition sections (config : Ini) : list string := map fst config.

(** The keys of [config.items(section)] *)
Definition option_keys (config : Ini) (section : string) : list string :=
  match section_get config section with
  | Some options => map fst options
  | None => []
  end.

(** [config = AppConfigParser()] *)
Definition new_config : Setup unit :=
  fun h => (Done tt, mkHost (h_stdin h) (h_prompts h) (h_log h) (h_files h)
                            (h_readable h) []).

(** [config.read(p)]: a file that cannot be opened is skipped. *)
Definition config_read (p : path) : Setup unit :=
  fun h =>
    match lookup_ini (h_files h) p with
    | Some file =>
        (Done tt, mkHost (h_stdin h) (h_prompts h) (h_log h) (h_files h)
                         (h_readable h) (ini_merge (h_config h) file))
    | None => (Done tt, h)
    end.

(** What a parser of its own holds after reading [file]. *)
Definition parsed (file : Ini) : Ini := ini_merge [] file.

(** A parser of its own, read from [p]:
    [config_template = AppConfigParser(); config_template.read(p)] *)
Definition read_parser (p : path) : Setup Ini :=
  fun h =>
    match lookup_ini (h_files h) p with
    | Some file => (Done (parsed file), h)
    | None => (Done [], h)
    end.

(** [with open(p, "w") as cf: config.write(cf)] *)
Definition write_config (p : path) : Setup unit :=
  fun h => (Done tt, mkHost (h_stdin h) (h_prompts h) (h_log h)
                            ((p, h_config h) :: h_files h) (h_readable h) (h_config h)).

(** The content of [config], as it is when the object is handed back. *)
Definition the_config : Setup Ini := fun h => (Done (h_config h), h).

(** [not x] for an argument that is [None] or a [str] *)
Definition unset (x : option string) : bool :=
  match x with
  | None => true
  | Some s => String.eqb s ""
  end.

Definition given (x : option string) : string :=
  match x with
  | Some s => s
  | None => ""
  end.

Definition config_template_ini : string := "config.template.ini".

Definition league_id_prompt : string := "What is your league ID? -> ".

Definition season_prompt : string :=
  "For which NFL season (starting year of season) are you generating reports? -> ".

Definition current_week_prompt : string :=
  "What is the current week of the NFL season? (week following the last complete week) -> ".

Definition create_config_prompt : string :=
  "Configuration file " ++ quote ++ "config.ini" ++ quote
  ++ " not found. Do you wish to create one? (y/n) -> ".

Section ConfigSetup.

(** Module-level state, and the installation directory
    [Path(__file__).parent.parent]. *)
Variable current_year : Z.
Variable supported_platforms : list string.
Variable root_directory : path.

(** The parser's interpolation: [refuses value] is the message of the
    [ValueError] with which [config.set] refuses a value (some values
    containing [%]), [None] for a value it takes; [expands config section]
    tells whether [config.items(section)] can expand every value of the
    section. *)
Variable refuses : string -> option string.
Variable expands : Ini -> string -> bool.

(** [if value: value = self._interpolation.before_set(...)] *)
Definition before_set (value : string) : option string :=
  if String.eqb value "" then None else refuses value.

(** [config.set(section, key, value)]: the value is looked at before the
    section is. *)
Definition config_set (section key value : string) : Setup unit :=
  fun h =>
    match before_set value with
    | Some msg => (Failed (Raised (ValueError msg)), h)
    | None =>
        match section_get (h_config h) section with
        | None => (Failed (NoSectionError section), h)
        | Some _ =>
            (Done tt, mkHost (h_stdin h) (h_prompts h) (h_log h) (h_files h)
                             (h_readable h)
                             (section_update (h_config h) section [(key, value)]))
        end
    end.

Definition platform_prompt : string :=
  "For which fantasy football platform are you generating a report? ("
  ++ join "/"%char supported_platforms ++ ") -> ".

(** The warning naming the supported platforms; its text takes
    [supported_platforms[-1]]. *)
Definition warn_select_platform : Setup unit :=
  match supported_platforms with
  | [] => sfail IndexError
  | _ => slog WARNING (MsgSelectPlatform supported_platforms)
  end.

Definition create_config_call : Type :=
  path -> option string -> option string -> option string -> option string -> Setup Ini.

(** The body of [create_config_from_template], with [again] for its calls
    of itself; [config] and [root_directory] are passed along unchanged, and
    what a call of itself returns is [config] again. *)
Definition create_config_body (again : create_config_call) (config_file_path : path)
    (platform league_id season current_week : option string) : Setup Ini :=
  slog DEBUG MsgCreatingConfig ;;;;
  let config_template_file := app root_directory [config_template_ini] in
  copyfile config_template_file config_file_path ;;;;
  config_read config_file_path ;;;;
  platform <--
    (if unset platform then
       slog DEBUG MsgGetting ;;;;
       platform <-- sinput platform_prompt ;;
       (if negb (py_in platform supported_platforms) then
          warn_select_platform ;;;;
          again config_file_path None None None None ;;;;
          sret tt
        else sret tt) ;;;;
       slog DEBUG (MsgRetrievedPlatform platform) ;;;;
       sret platform
     else sret (given platform)) ;;
  config_set "Settings" "platform" platform ;;;;
  league_id <--
    (if unset league_id then
       league_id <-- sinput league_id_prompt ;;
       slog DEBUG (MsgRetrievedLeagueId league_id) ;;;;
       sret league_id
     else sret (given league_id)) ;;
  config_set "Settings" "league_id" league_id ;;;;
  season <--
    (if unset season then
       season <-- sinput season_prompt ;;
       stry_ValueError
         (year <-- sint season ;;
          if year >? current_year then
            slog WARNING MsgFutureSeason ;;;;
            again config_file_path (Some platform) (Some league_id) None None ;;;;
            sret tt
          else
            year' <-- sint season ;;
            if (year' <? 2019) && String.eqb platform "espn" then
              slog WARNING MsgEspnSeason ;;;;
              again config_file_path (Some platform) (Some league_id) None None ;;;;
              sret tt
            else sret tt)
         (slog WARNING MsgInvalidYear ;;;;
          again config_file_path (Some platform) (Some league_id) None None ;;;;
          sret tt) ;;;;
       slog DEBUG (MsgRetrievedSeason season) ;;;;
       sret season
     else sret (given season)) ;;
  config_set "Settings" "season" season ;;;;
  current_week <--
    (if unset current_week then
       current_week <-- sinput current_week_prompt ;;
       stry_ValueError
         (week <-- sint current_week ;;
          below <-- (if week <? 0 then sret true
                     else week' <-- sint current_week ;; sret (week' >? NFL_SEASON_LENGTH)) ;;
          if (below : bool) then
            slog WARNING (MsgInvalidWeek current_week) ;;;;
            again config_file_path (Some platform) (Some league_id) (Some season) None ;;;;
            sret tt
          else sret tt)
         (slog WARNING MsgInvalidWeekInteger ;;;;
          again config_file_path (Some platform) (Some league_id) (Some season) None ;;;;
          sret tt) ;;;;
       slog DEBUG (MsgRetrievedWeek current_week) ;;;;
       sret current_week
     else sret (given current_week)) ;;
  config_set "Settings" "current_week" current_week ;;;;
  write_config config_file_path ;;;;
  the_config.

(** [fuel] bounds the depth of the calls; every call of itself comes after
    an [input()], so the answers waiting on [stdin] bound it. *)
Fixpoint create_config_fuel (fuel : nat) : create_config_call :=
  match fuel with
  | O => fun _ _ _ _ _ => sfail OutOfFuel
  | S fuel' => create_config_body (create_config_fuel fuel')
  end.

Definition create_config_from_template (config_file_path : path)
    (platform league_id season current_week : option string) : Setup Ini :=
  fun h =>
    create_config_fuel (S (List.length (h_stdin h))) config_file_path
                       platform league_id season current_week h.

(** The sections of the template that [config] lacks, and for the others
    the keys it lacks. *)
Definition missing_sections (config_template config : Ini) : list string :=
  filter (fun section => negb (py_in section (sections config))) (sections config_template).

Definition missing_keys (config_template config : Ini) : list (string * list string) :=
  filter (fun entry => match snd entry with [] => false | _ => true end)
    (map (fun section =>
            (section,
             filter (fun k => negb (py_in k (option_keys config section)))
                    (option_keys config_template section)))
         (filter (fun section => py_in section (sections config))
                 (sections config_template))).

(** The two loops over [items(section)]: every section of [config], then
    the sections of the template that [config] has. *)
Definition items_expand (config_template config : Ini) : bool :=
  forallb (expands config) (sections config)
  && forallb (expands config_template)
       (filter (fun section => py_in section (sections config)) (sections config_template)).

Definition get_valid_config_body (again : string -> Setup (option Ini))
    (config_file : string) : Setup (option Ini) :=
  new_config ;;;;
  let config_file_path := app root_directory [config_file] in
  present <-- is_file config_file_path ;;
  if (present : bool) then
    readable <-- os_access config_file_path ;;
    if (readable : bool) then
      slog DEBUG MsgConfigAvailable ;;;;
      config_template <-- read_parser (app root_directory [config_template_ini]) ;;
      config_read config_file_path ;;;;
      config <-- the_config ;;
      match missing_sections config_template config with
      | _ :: _ =>
          slog ERROR (MsgMissingSections (missing_sections config_template config)) ;;;;
          sexit msg_run_aborted
      | [] =>
          slog DEBUG MsgAllSectionsPresent ;;;;
          if items_expand config_template config then
            match missing_keys config_template config with
            | _ :: _ =>
                slog ERROR (MsgMissingKeys (missing_keys config_template config)) ;;;;
                sexit msg_run_aborted
            | [] =>
                slog DEBUG MsgAllKeysPresent ;;;;
                sret (Some config)
            end
          else sfail InterpolationError
      end
    else
      slog ERROR MsgConfigNotAccessible ;;;;
      sexit msg_run_aborted
  else
    slog DEBUG MsgConfigNotFound ;;;;
    create_config <-- sinput create_config_prompt ;;
    if String.eqb create_config "y" then
      created <-- create_config_from_template config_file_path None None None None ;;
      sret (Some created)
    else if String.eqb create_config "n" then
      slog ERROR MsgConfigMustExist ;;;;
      sexit msg_run_aborted
    else
      slog WARNING MsgOnlyYOrN ;;;;
      again config_file ;;;;
      sret None.

Fixpoint get_valid_config_fuel (fuel : nat) : string -> Setup (option Ini) :=
  match fuel with
  | O => fun _ => sfail OutOfFuel
  | S fuel' => get_valid_config_body (get_valid_config_fuel fuel')
  end.

Definition get_valid_config (config_file : string) : Setup (option Ini) :=
  fun h => get_valid_config_fuel (S (List.length (h_stdin h))) config_file h.

End ConfigSetup.

(** Two computations that do the same, never run out of fuel and read
    answers without adding any, on every host with at most [k] answers
    waiting. *)
Definition agree {A} (k : nat) (c c' : Setup A) : Prop :=
  forall h, (List.length (h_stdin h) <= k)%nat ->
    c h = c' h
    /\ fst (c h) <> Failed OutOfFuel
    /\ (List.length (h_stdin (snd (c h))) <= List.length (h_stdin h))%nat.

(** A computation that never runs out of fuel and leaves [stdin] alone. *)
Definition steady {A} (c : Setup A) : Prop :=
  forall h, fst (c h) <> Failed OutOfFuel /\ h_stdin (snd (c h)) = h_stdin h.

(** From a host satisfying [P], [c] leaves a host satisfying [Q] when it
    returns, and one satisfying [E] when it raises [ValueError]. *)
Definition ensures {A} (P : Host -> Prop) (c : Setup A) (Q : A -> Host -> Prop)
    (E : Host -> Prop) : Prop :=
  forall h, P h ->
    match c h with
    | (Done a, h') => Q a h'
    | (Failed (Raised (ValueError _)), h') => E h'
    | _ => True
    end.

(** [config] has [platform] as its platform. *)
Definition has_platform (platform : string) (h : Host) : Prop :=
  ini_get (h_config h) "Settings" "platform" = Some platform.

(** The configuration returned has [platform] as its platform, and it is
    what the file at [config_file_path] holds. *)
Definition platform_kept (platform : string) (config_file_path : path)
    (config : Ini) (h : Host) : Prop :=
  ini_get config "Settings" "platform" = Some platform
  /\ lookup_ini (h_files h) config_file_path = Some config.

(** A computation that leaves [config] as it is, however it ends. *)
Definition still {A} (c : Setup A) : Prop :=
  forall h, h_config (snd (c h)) = h_config h.

(** A computation that never raises [ValueError]. *)
Definition mute {A} (c : Setup A) : Prop :=
  forall h m, fst (c h) <> Failed (Raised (ValueError m)).

(** [config] has every section of the template, and in each every key of
    the template. *)
Definition complete (config_template config : Ini) : Prop :=
  (forall section, In section (sections config_template) -> In section (sections config))
  /\ (forall section key, ini_get config_template section key <> None ->
                          ini_get config section key <> None).

(** [config] with the four settings of the dialogue written over it. *)
Definition with_settings (config : Ini) (platform league_id season current_week : string)
    : Ini :=
  section_update config "Settings"
    [("platform", platform); ("league_id", league_id); ("season", season);
     ("current_week", current_week)].

(** What is on disk for a path, the parser content of a file that is not
    there being empty. *)
Definition parsed_at (h : Host) (p : path) : Ini :=
  match lookup_ini (h_files h) p with
  | Some file => parsed file
  | None => []
  end.

(** *** A sample installation *)

Definition sample_template : Ini :=
  [("Settings",
    [("platform", "yahoo"); ("league_id", "0"); ("season", "2020"); ("current_week", "1");
     ("week_for_report", "default")]);
   ("Report", [("league_bad_boy_rankings", "True")])].

Definition sample_root : path := ["app"].

(** A console with [answers] waiting, on a disk holding [files]. *)
Definition sample_console (answers : list string) (files : list (path * Ini)) : Host :=
  mkHost answers [] [] files (fun _ => true) [].

Definition fresh_install : list (path * Ini) :=
  [(["app"; "config.template.ini"], sample_template)].

Definition configured_install (config : Ini) : list (path * Ini) :=
  [(["app"; "config.ini"], config); (["app"; "config.template.ini"], sample_template)].

Definition sample_supported : list string := ["espn"; "fleaflicker"; "sleeper"; "yahoo"].

(** * Properties *)

(** ** Sums and the bad-boy accumulation *)

Lemma fold_left_Nadd_acc (xs : list N) (a : N) :
  fold_left N.add xs a = (a + fold_left N.add xs 0)%N.
Proof.
  revert a; induction xs as [|x xs IH]; intro a; simpl.
  - lia.
  - rewrite (IH (a + x)%N), (IH x). lia.
Qed.

Lemma sumN_cons (x : N) (xs : list N) : sumN (x :: xs) = (x + sumN xs)%N.
Proof. unfold sumN; simpl. apply fold_left_Nadd_acc. Qed.

Lemma highest_points_cons p ps :
  highest_points (p :: ps) = N.max (bad_boy_points p) (highest_points ps).
Proof. reflexivity. Qed.

Lemma first_with_points_cons v p ps :
  first_with_points v (p :: ps)
  = if (bad_boy_points p =? v)%N then Some p else first_with_points v ps.
Proof. reflexivity. Qed.

(** Some player reaches the highest points as soon as they are positive. *)
Lemma worst_offender_exists ps :
  (0 < highest_points ps)%N ->
  exists p, worst_offender ps = Some p /\ In p ps /\
            bad_boy_points p = highest_points ps.
Proof.
  unfold worst_offender.
  assert (Hfind : forall v qs, (0 < v)%N -> (v <= highest_points qs)%N ->
            (forall q, In q qs -> (bad_boy_points q <= v)%N) ->
            exists p, first_with_points v qs = Some p /\ In p qs /\ bad_boy_points p = v).
  { intros v qs Hv. induction qs as [|q qs IH]; intros Hle Hall.
    - cbn in Hle. lia.
    - rewrite first_with_points_cons. rewrite highest_points_cons in Hle.
      destruct (N.eqb_spec (bad_boy_points q) v) as [Heq|Hne].
      + exists q. repeat split; [left; reflexivity | exact Heq].
      + assert (Hq : (bad_boy_points q <= v)%N) by (apply Hall; left; reflexivity).
        destruct IH as (p & Hp & Hin & Hv'); [lia | intros; apply Hall; right; assumption|].
        exists p. repeat split; [exact Hp | right; exact Hin | exact Hv']. }
  intro Hpos. apply Hfind; [exact Hpos | lia |].
  induction ps as [|q ps IH]; intros p [].
  - subst. rewrite highest_points_cons. lia.
  - rewrite highest_points_cons.
    destruct (N.eq_dec (highest_points ps) 0) as [Hz|Hnz].
    + assert (Hp : (bad_boy_points p <= highest_points ps)%N).
      { clear -H. induction ps as [|r ps IHps]; [contradiction|].
        rewrite highest_points_cons. destruct H; [subst; lia|]. specialize (IHps H). lia. }
      lia.
    + specialize (IH ltac:(lia) p H). lia.
Qed.

Section BadBoy.
Variable bench : list string.

Let active := filter (is_active bench).

Lemma bad_boy_fold_points ps t :
  tot_bad_boy_points (fold_left (bad_boy_step bench) ps t)
  = (tot_bad_boy_points t + sumN (map bad_boy_points (active ps)))%N.
Proof.
  revert t; induction ps as [|p ps IH]; intro t; simpl.
  - unfold sumN; simpl; lia.
  - rewrite IH. unfold bad_boy_step, active, is_active; simpl.
    destruct (negb (py_in (selected_position p) bench)); simpl; [|reflexivity].
    rewrite sumN_cons.
    destruct (N.ltb_spec 0 (bad_boy_points p)).
    + destruct (tot_worst_offense_score t <? bad_boy_points p)%N;
        cbn [tot_bad_boy_points]; lia.
    + lia.
Qed.

Lemma bad_boy_fold_offenders ps t :
  tot_num_offenders (fold_left (bad_boy_step bench) ps t)
  = (tot_num_offenders t + sumN (map offender_count (active ps)))%N.
Proof.
  revert t; induction ps as [|p ps IH]; intro t; simpl.
  - unfold sumN; simpl; lia.
  - rewrite IH. unfold bad_boy_step, active, is_active, offender_count; simpl.
    destruct (negb (py_in (selected_position p) bench)); simpl; [|reflexivity].
    rewrite sumN_cons.
    destruct (0 <? bad_boy_points p)%N; [|simpl; lia].
    destruct (tot_worst_offense_score t <? bad_boy_points p)%N;
      destruct (String.eqb (selected_position p) "DEF");
      cbn [tot_num_offenders]; lia.
Qed.

Lemma bad_boy_fold_score ps t :
  tot_worst_offense_score (fold_left (bad_boy_step bench) ps t)
  = N.max (tot_worst_offense_score t) (highest_points (active ps)).
Proof.
  revert t; induction ps as [|p ps IH]; intro t.
  - unfold highest_points; simpl; lia.
  - cbn [fold_left]. rewrite IH. unfold bad_boy_step, active, is_active.
    cbn [filter].
    destruct (negb (py_in (selected_position p) bench)); cbn [negb]; [|reflexivity].
    rewrite highest_points_cons.
    destruct (N.ltb_spec 0 (bad_boy_points p)).
    + destruct (N.ltb_spec (tot_worst_offense_score t) (bad_boy_points p));
        cbn [tot_worst_offense_score]; lia.
    + lia.
Qed.

Lemma bad_boy_fold_offense ps t :
  tot_worst_offense (fold_left (bad_boy_step bench) ps t)
  = if (tot_worst_offense_score t <? highest_points (active ps))%N
    then option_map bad_boy_crime (worst_offender (active ps))
    else tot_worst_offense t.
Proof.
  revert t; induction ps as [|p ps IH]; intro t.
  - unfold active, highest_points; cbn [filter map fold_right fold_left].
    destruct (N.ltb_spec (tot_worst_offense_score t) 0); [lia|reflexivity].
  - cbn [fold_left]. rewrite IH. unfold bad_boy_step, active, is_active.
    cbn [filter].
    destruct (negb (py_in (selected_position p) bench)); cbn [negb]; [|reflexivity].
    unfold worst_offender.
    rewrite highest_points_cons, first_with_points_cons.
    set (M := highest_points (filter _ ps)).
    destruct (N.ltb_spec 0 (bad_boy_points p)) as [Hpos|Hzero].
    + destruct (N.ltb_spec (tot_worst_offense_score t) (bad_boy_points p)) as [Hlt|Hge];
        cbn [tot_worst_offense tot_worst_offense_score].
      * destruct (N.ltb_spec (tot_worst_offense_score t) (N.max (bad_boy_points p) M)); [|lia].
        destruct (N.ltb_spec (bad_boy_points p) M);
          destruct (N.eqb_spec (bad_boy_points p) (N.max (bad_boy_points p) M)); try lia.
        -- replace (N.max (bad_boy_points p) M) with M by lia. reflexivity.
        -- reflexivity.
      * destruct (N.ltb_spec (tot_worst_offense_score t) M);
          destruct (N.ltb_spec (tot_worst_offense_score t) (N.max (bad_boy_points p) M));
          try lia; [|reflexivity].
        destruct (N.eqb_spec (bad_boy_points p) (N.max (bad_boy_points p) M)); [lia|].
        replace (N.max (bad_boy_points p) M) with M by lia. reflexivity.
    + replace (N.max (bad_boy_points p) M) with M by lia.
      destruct (N.ltb_spec (tot_worst_offense_score t) M); [|reflexivity].
      destruct (N.eqb_spec (bad_boy_points p) M); [lia|reflexivity].
Qed.

(** The totals of a whole roster, in closed form. *)
Lemma bad_boy_totals_spec ps :
  bad_boy_totals bench ps
  = mkBadBoyTotals
      (sumN (map bad_boy_points (active ps)))
      (if (0 <? highest_points (active ps))%N
       then option_map bad_boy_crime (worst_offender (active ps)) else None)
      (sumN (map offender_count (active ps)))
      (highest_points (active ps)).
Proof.
  unfold bad_boy_totals.
  pose proof (bad_boy_fold_points ps (mkBadBoyTotals 0 None 0 0)) as H1.
  pose proof (bad_boy_fold_offense ps (mkBadBoyTotals 0 None 0 0)) as H2.
  pose proof (bad_boy_fold_offenders ps (mkBadBoyTotals 0 None 0 0)) as H3.
  pose proof (bad_boy_fold_score ps (mkBadBoyTotals 0 None 0 0)) as H4.
  destruct (fold_left _ ps _) as [a b c d].
  cbn [tot_bad_boy_points tot_worst_offense tot_num_offenders tot_worst_offense_score] in *.
  rewrite H1, H2, H3, H4. f_equal; lia.
Qed.
End BadBoy.

(** ** Enrichment of players and teams *)

Section Enrichment.
Variables (config : Config) (season : pyval) (metrics : Metrics) (bench : list string).

Lemma covid_risk_enabled_run w :
  exists r, covid_risk_enabled config season w = (r, w).
Proof.
  unfold covid_risk_enabled, bind, lift, ret.
  destruct (league_covid_risk_rankings config); [|eauto].
  destruct (py_int season); eauto.
Qed.

Lemma covid_risk_enabled_closed w :
  covid_gate_closed config season ->
  covid_risk_enabled config season w = (Ok false, w).
Proof.
  unfold covid_risk_enabled, bind, lift, ret.
  intros [Hoff | [s [Hs Hlt]]].
  - rewrite Hoff; reflexivity.
  - rewrite Hs. destruct (league_covid_risk_rankings config); [|reflexivity].
    destruct (Z.leb_spec 2020 s); [lia|reflexivity].
Qed.

Lemma add_report_player_stats_bench player w :
  is_bench bench player = true ->
  add_report_player_stats config season metrics player bench w
  = (Ok (reset_report_stats player), w).
Proof.
  unfold is_bench, add_report_player_stats. cbn [reset_report_stats selected_position set_covid_risk set_beef set_bad_boy].
  intros ->. reflexivity.
Qed.

Lemma add_report_player_stats_inv player w p' w' :
  add_report_player_stats config season metrics player bench w = (Ok p', w') ->
  w' = w /\ same_identity player p'.
Proof.
  unfold add_report_player_stats, bind, ret.
  destruct (negb _).
  - destruct (covid_risk_enabled_run w) as [r ->].
    destruct r as [g|e]; [|discriminate].
    intros [= <- <-]. split; [reflexivity|].
    destruct (league_bad_boy_rankings config), (league_beef_rankings config), g;
      repeat split.
  - intros [= <- <-]. repeat split.
Qed.

Lemma add_report_player_stats_covid_closed player w p' w' :
  covid_gate_closed config season ->
  add_report_player_stats config season metrics player bench w = (Ok p', w') ->
  covid_risk p' = 0.
Proof.
  intro Hgate. unfold add_report_player_stats, bind, ret.
  destruct (negb _).
  - rewrite (covid_risk_enabled_closed w Hgate).
    intros [= <- <-].
    destruct (league_bad_boy_rankings config), (league_beef_rankings config); reflexivity.
  - intros [= <- <-]. reflexivity.
Qed.

Lemma add_roster_player_stats_inv roster w ps w' :
  add_roster_player_stats config season metrics roster bench w = (Ok ps, w') ->
  w' = w /\
  Forall2 (fun p p' =>
             add_report_player_stats config season metrics p bench w = (Ok p', w))
          roster ps.
Proof.
  revert ps w'; induction roster as [|p roster IH]; intros ps w'; cbn [add_roster_player_stats].
  - intros [= <- <-]. split; constructor.
  - unfold bind at 1.
    destruct (add_report_player_stats config season metrics p bench w) as [[p'|e] w1] eqn:Hp;
      [|discriminate].
    destruct (add_report_player_stats_inv _ _ _ _ Hp) as [-> _].
    unfold bind at 1.
    destruct (add_roster_player_stats config season metrics roster bench w) as [[ps'|e] w2] eqn:Hr;
      [|discriminate].
    destruct (IH _ _ eq_refl) as [-> Hall].
    unfold ret. intros [= <- <-]. split; [reflexivity|]. constructor; assumption.
Qed.

Lemma enriched_bench_points roster ps w :
  Forall2 (fun p p' =>
             add_report_player_stats config season metrics p bench w = (Ok p', w))
          roster ps ->
  map points (filter (is_bench bench) ps) = map points (filter (is_bench bench) roster).
Proof.
  induction 1 as [|p p' roster ps Hp _ IH]; [reflexivity|].
  destruct (add_report_player_stats_inv _ _ _ _ Hp) as [_ (_ & _ & _ & _ & _ & Hsel & Hpts)].
  assert (Hb : is_bench bench p' = is_bench bench p)
    by (unfold is_bench; rewrite Hsel; reflexivity).
  cbn [filter]. rewrite Hb.
  destruct (is_bench bench p); cbn [map]; rewrite ?Hpts, IH; reflexivity.
Qed.
Lemma add_report_player_stats_total player w :
  season_readable config season ->
  exists p', add_report_player_stats config season metrics player bench w = (Ok p', w).
Proof.
  intro Hs. unfold add_report_player_stats, bind, ret, covid_risk_enabled, lift.
  destruct (negb _); [|eexists; reflexivity].
  destruct Hs as [-> | [s ->]]; [eexists; reflexivity|].
  destruct (league_covid_risk_rankings config); eexists; reflexivity.
Qed.

Lemma add_roster_player_stats_total roster w :
  season_readable config season ->
  exists ps, add_roster_player_stats config season metrics roster bench w = (Ok ps, w).
Proof.
  intro Hs. induction roster as [|p roster [ps IH]]; cbn [add_roster_player_stats].
  - eexists; reflexivity.
  - destruct (add_report_player_stats_total p w Hs) as [p' Hp].
    unfold bind. rewrite Hp, IH. eexists; reflexivity.
Qed.
End Enrichment.

Section TeamEnrichment.
Variables (config : Config) (team : Team) (league : League) (week_counter season : pyval)
          (metrics_calculator : MetricsCalculator) (metrics : Metrics) (dq_ce : bool)
          (inactive_players : list string).

Let bench := bench_positions league.

Lemma add_report_team_stats_inv w t' w' :
  add_report_team_stats config team league week_counter season metrics_calculator
                        metrics dq_ce inactive_players w = (Ok t', w') ->
  add_roster_player_stats config season metrics (roster team) bench w = (Ok (roster t'), w)
  /\ team_points t' = team_points team
  /\ home_field_advantage t' = home_field_advantage team
  /\ name t' = decode_byte_string metrics_calculator (name team)
  /\ bench_points t' = py_round2 (py_sum (map points (filter (is_bench bench) (roster t'))))
  /\ (league_bad_boy_rankings config = true ->
      mkBadBoyTotals (team_bad_boy_points t') (worst_offense t') (num_offenders t')
                     (worst_offense_score t')
      = bad_boy_totals bench (roster t'))
  /\ (covid_gate_closed config season -> total_covid_risk t' = total_covid_risk team)
  /\ w' = if points_mismatch bench t'
          then log_warning
                 (MsgTeamPointsMismatch (name t') (py_round2 (team_points t'))
                    (py_round2 (py_sum (map points (filter (is_active bench) (roster t'))))))
                 w
          else w.
Proof.
  unfold add_report_team_stats. fold bench.
  unfold bind at 1.
  destruct (add_roster_player_stats config season metrics (roster team) bench w)
    as [[ps|e] w1] eqn:Hroster; [|discriminate].
  destruct (add_roster_player_stats_inv _ _ _ _ _ _ _ _ Hroster) as [-> _].
  set (lineup := py_round2 (py_sum (map points (filter (is_active bench) ps)))).
  set (warn := float_neq (py_round2 (team_points team)) (lineup + home_field_advantage team)%float).
  set (msg := MsgTeamPointsMismatch _ _ _).
  unfold bind at 1.
  assert (Hlog : exists w1, (if warn then logger WARNING msg else ret tt) w = (Ok tt, w1)
                            /\ w1 = if warn then log_warning msg w else w).
  { destruct warn; eexists; split; reflexivity. }
  destruct Hlog as [w1 [-> Hw1]].
  unfold bind at 1.
  destruct (covid_risk_enabled_run config season w1) as [r Hcov]. rewrite Hcov.
  destruct r as [g|e]; [|discriminate].
  unfold bind at 1, lift.
  destruct (py_int week_counter) as [week|e]; [|discriminate].
  destruct (execute_coaching_efficiency _ _ _ _ _ _ _ _) as [ce op].
  destruct (m_luck metrics (team_id team)) as [entry|]; [|discriminate].
  unfold ret. intros [= <- <-]. cbn [roster team_points home_field_advantage name bench_points
    team_bad_boy_points worst_offense num_offenders worst_offense_score total_covid_risk].
  unfold points_mismatch. cbn [roster team_points home_field_advantage].
  fold lineup. fold warn.
  repeat split; try assumption.
  - intros ->. destruct (bad_boy_totals bench ps); reflexivity.
  - intro Hclosed. rewrite (covid_risk_enabled_closed _ _ w1 Hclosed) in Hcov.
    injection Hcov as <-. reflexivity.
Qed.

Lemma add_report_team_stats_returns w week entry :
  season_readable config season ->
  py_int week_counter = Ok week ->
  m_luck metrics (team_id team) = Some entry ->
  exists t' w',
    add_report_team_stats config team league week_counter season metrics_calculator
                          metrics dq_ce inactive_players w = (Ok t', w').
Proof.
  intros Hs Hweek Hluck. unfold add_report_team_stats. fold bench.
  destruct (add_roster_player_stats_total config season metrics bench (roster team) w Hs)
    as [ps Hps].
  unfold bind at 1. rewrite Hps.
  unfold bind at 1.
  match goal with
  | |- context [if ?c then logger ?l ?m else ret tt] =>
      assert (Hlog : exists w1, (if c then logger l m else ret tt) w = (Ok tt, w1))
        by (destruct c; eexists; reflexivity)
  end.
  destruct Hlog as [w1 ->].
  assert (Hcov : exists g, covid_risk_enabled config season w1 = (Ok g, w1)).
  { unfold covid_risk_enabled, bind, lift, ret.
    destruct Hs as [-> | [s ->]]; [eexists; reflexivity|].
    destruct (league_covid_risk_rankings config); eexists; reflexivity. }
  destruct Hcov as [g Hcov].
  unfold bind at 1. rewrite Hcov.
  unfold bind at 1, lift. rewrite Hweek.
  destruct (execute_coaching_efficiency _ _ _ _ _ _ _ _) as [ce op].
  rewrite Hluck. unfold ret. eauto.
Qed.
End TeamEnrichment.

(** ** Effects of the week validation *)

Lemma answers_only_ret {A} (a : A) : answers_only (ret a).
Proof. intros w1 w2 H; split; [reflexivity|exact H]. Qed.

Lemma answers_only_raise {A} (e : exn) : answers_only (@raise A e).
Proof. intros w1 w2 H; split; [reflexivity|exact H]. Qed.

Lemma answers_only_lift {A} (o : outcome A) : answers_only (lift o).
Proof. intros w1 w2 H; split; [reflexivity|exact H]. Qed.

Lemma answers_only_input prompt : answers_only (input prompt).
Proof.
  intros w1 w2 H. unfold input. rewrite H.
  destruct (stdin w2); split; reflexivity.
Qed.

Lemma answers_only_bind {A B} (c : M A) (k : A -> M B) :
  answers_only c -> (forall a, answers_only (k a)) -> answers_only (bind c k).
Proof.
  intros Hc Hk w1 w2 H. unfold bind.
  destruct (Hc w1 w2 H) as [Hr Hs].
  destruct (c w1) as [[a1|e1] w1'], (c w2) as [[a2|e2] w2']; cbn [fst snd] in *;
    try discriminate.
  - injection Hr as ->. apply Hk; exact Hs.
  - injection Hr as ->. split; [reflexivity|exact Hs].
Qed.

Lemma answers_only_try_except {A} (c : M A) handles h :
  answers_only c -> (forall e, answers_only (h e)) -> answers_only (try_except c handles h).
Proof.
  intros Hc Hh w1 w2 H. unfold try_except.
  destruct (Hc w1 w2 H) as [Hr Hs].
  destruct (c w1) as [[a1|e1] w1'], (c w2) as [[a2|e2] w2']; cbn [fst snd] in *;
    try discriminate.
  - split; assumption.
  - injection Hr as ->. destruct (handles e2); [apply Hh; exact Hs | split; [reflexivity|exact Hs]].
Qed.

Lemma keeps_store_ret {A} (a : A) : keeps_store (ret a).
Proof. intro w; repeat split. Qed.

Lemma keeps_store_raise {A} (e : exn) : keeps_store (@raise A e).
Proof. intro w; repeat split. Qed.

Lemma keeps_store_lift {A} (o : outcome A) : keeps_store (lift o).
Proof. intro w; repeat split. Qed.

Lemma keeps_store_input prompt : keeps_store (input prompt).
Proof. intro w; unfold input; destruct (stdin w); repeat split. Qed.

Lemma keeps_store_bind {A B} (c : M A) (k : A -> M B) :
  keeps_store c -> (forall a, keeps_store (k a)) -> keeps_store (bind c k).
Proof.
  intros Hc Hk w. unfold bind. specialize (Hc w).
  destruct (c w) as [[a|e] w1]; cbn [snd] in *; [|exact Hc].
  destruct (Hk a w1) as (H1 & H2 & H3 & H4), Hc as (G1 & G2 & G3 & G4).
  repeat split; congruence.
Qed.

Lemma keeps_store_try_except {A} (c : M A) handles h :
  keeps_store c -> (forall e, keeps_store (h e)) -> keeps_store (try_except c handles h).
Proof.
  intros Hc Hh w. unfold try_except. specialize (Hc w).
  destruct (c w) as [[a|e] w1]; cbn [snd] in *; [exact Hc|].
  destruct (handles e); [|exact Hc].
  destruct (Hh e w1) as (H1 & H2 & H3 & H4), Hc as (G1 & G2 & G3 & G4).
  repeat split; congruence.
Qed.

Create HintDb effects.
#[local] Hint Resolve answers_only_ret answers_only_raise answers_only_lift answers_only_input
  keeps_store_ret keeps_store_raise keeps_store_lift keeps_store_input : effects.

Ltac effects :=
  repeat first
    [ progress auto with effects
    | apply answers_only_bind; [|intro]
    | apply keeps_store_bind; [|intro]
    | apply answers_only_try_except; [|intro]
    | apply keeps_store_try_except; [|intro]
    | match goal with
      | |- answers_only (if ?c then _ else _) => destruct c
      | |- keeps_store (if ?c then _ else _) => destruct c
      end ].

Section WeekValidation.
Variables current_year current_month : Z.

Lemma validate_week_answers_only wfr cw : answers_only (validate_week wfr cw).
Proof. unfold validate_week; cbv zeta; effects. Qed.

Lemma validate_week_keeps_store wfr cw : keeps_store (validate_week wfr cw).
Proof. unfold validate_week; cbv zeta; effects. Qed.

Lemma user_week_input_validation_answers_only config week cw season :
  answers_only (user_week_input_validation current_year current_month config week cw season).
Proof.
  unfold user_week_input_validation; cbv zeta; effects; apply validate_week_answers_only.
Qed.

Lemma user_week_input_validation_keeps_store config week cw season :
  keeps_store (user_week_input_validation current_year current_month config week cw season).
Proof.
  unfold user_week_input_validation; cbv zeta; effects; apply validate_week_keeps_store.
Qed.

Lemma validation_skipped_gate s :
  validation_skipped current_year current_month s ->
  (current_year =? s) || ((current_year =? s + 1) && (current_month <? 9)) = false.
Proof.
  intros [H1 H2].
  destruct (Z.eqb_spec current_year s); [contradiction|].
  destruct (Z.eqb_spec current_year (s + 1)); [|reflexivity].
  destruct (Z.ltb_spec current_month 9); [exfalso; auto|reflexivity].
Qed.

End WeekValidation.

(** ** Adding a zero home-field advantage *)

(** [x + 0] is [x], except that [-0.0 + 0] is [0.0]. *)
Lemma float_add_zero (x : float) :
  (x + 0 = x)%float \/ (Prim2SF x = S754_zero true /\ (x + 0 = 0)%float).
Proof.
  pose proof (add_spec x 0%float) as Hadd.
  change (Prim2SF 0%float) with (S754_zero false) in Hadd.
  destruct (Prim2SF x) as [[|]| s | | s m e] eqn:Hx; cbn in Hadd.
  - right. split; [reflexivity|]. apply Prim2SF_inj. rewrite Hadd. reflexivity.
  - left. apply Prim2SF_inj. congruence.
  - left. apply Prim2SF_inj. congruence.
  - left. apply Prim2SF_inj. congruence.
  - left. apply Prim2SF_inj. congruence.
Qed.

Lemma float_eqb_add_zero (a x : float) :
  PrimFloat.eqb a (x + 0)%float = PrimFloat.eqb a x.
Proof.
  destruct (float_add_zero x) as [-> | [Hx ->]]; [reflexivity|].
  rewrite !FloatAxioms.eqb_spec, Hx.
  change (Prim2SF 0%float) with (S754_zero false).
  destruct (Prim2SF a) as [sa | sa | | sa ma ea]; reflexivity.
Qed.

Lemma py_round2_add_zero (a x : float) :
  PrimFloat.eqb a (py_round2 (x + 0)%float) = PrimFloat.eqb a (py_round2 x).
Proof.
  destruct (float_add_zero x) as [-> | [Hx Hz]]; [reflexivity|].
  rewrite Hz. unfold py_round2 at 2. rewrite Hx.
  change (py_round2 0%float) with 0%float.
  rewrite <- Hz. apply float_eqb_add_zero.
Qed.

(** Without a home-field advantage the guard of the warning is the
    comparison at 2 decimals. *)
Lemma points_mismatch_without_advantage bench t :
  home_field_advantage t = 0%float ->
  points_mismatch bench t = differ_at_2_decimals bench t.
Proof.
  intro H0. unfold points_mismatch, differ_at_2_decimals, float_neq. rewrite H0.
  rewrite float_eqb_add_zero, py_round2_add_zero. reflexivity.
Qed.

(** ** The claims *)

(** C1. After [add_report_team_stats], [team.bench_points] is the sum of the
    points of the roster's players whose [selected_position] is one of the
    league's [bench_positions], rounded to 2 decimal places; enrichment
    changes neither the points nor the positions, so the sum is the same
    over the roster as it was handed in. *)
Theorem bench_points_recomputed
    config team league week_counter season metrics_calculator metrics dq_ce
    inactive_players w t' w' :
  add_report_team_stats config team league week_counter season metrics_calculator
                        metrics dq_ce inactive_players w = (Ok t', w') ->
  bench_points t'
  = py_round2 (py_sum (map points
                 (filter (is_bench (bench_positions league)) (roster t'))))
  /\ bench_points t'
     = py_round2 (py_sum (map points
                    (filter (is_bench (bench_positions league)) (roster team)))).
Proof.
  intro Hrun.
  destruct (add_report_team_stats_inv _ _ _ _ _ _ _ _ _ _ _ _ Hrun)
    as (Hroster & _ & _ & _ & Hbench & _).
  split; [exact Hbench|].
  rewrite Hbench.
  destruct (add_roster_player_stats_inv _ _ _ _ _ _ _ _ Hroster) as [_ Hall].
  rewrite (enriched_bench_points _ _ _ _ _ _ _ Hall). reflexivity.
Qed.

Lemma bench_points_recomputed_witness :
  exists t' w',
    add_report_team_stats (sample_config true true true)
      (sample_team 12.5%float 0%float bench_scenario_roster) sample_league
      (PInt 3) (PInt 2021) sample_calculator sample_metrics false [] quiet_world
    = (Ok t', w')
    /\ bench_points t' = 30%float.
Proof.
  destruct (add_report_team_stats (sample_config true true true)
      (sample_team 12.5%float 0%float bench_scenario_roster) sample_league
      (PInt 3) (PInt 2021) sample_calculator sample_metrics false [] quiet_world)
    as [[t'|e] w'] eqn:Hrun.
  - exists t', w'. split; [reflexivity|].
    destruct (bench_points_recomputed _ _ _ _ _ _ _ _ _ _ _ _ Hrun) as [_ ->].
    vm_compute. reflexivity.
  - vm_compute in Hrun. discriminate.
Defined.

(** C2. A player whose [selected_position] is one of the league's
    [bench_positions] leaves [add_report_player_stats] with every enrichment
    field at its neutral default, whatever the providers would answer,
    whatever the toggles and whatever the season. *)
Theorem bench_player_keeps_defaults
    config season metrics player bench_positions w :
  py_in (selected_position player) bench_positions = true ->
  exists p',
    add_report_player_stats config season metrics player bench_positions w = (Ok p', w)
    /\ bad_boy_crime p' = ""
    /\ bad_boy_points p' = 0%N
    /\ bad_boy_num_offenders p' = 0%N
    /\ weight p' = 0%float
    /\ tabbu p' = 0%float
    /\ covid_risk p' = 0
    /\ same_identity player p'.
Proof.
  intro Hbench. exists (reset_report_stats player).
  split; [apply add_report_player_stats_bench; exact Hbench|].
  repeat split.
Qed.

Lemma bench_player_keeps_defaults_witness :
  exists p',
    add_report_player_stats (sample_config true true true) (PInt 2021) sample_metrics
      (sample_player "Defense" "BN" 30%float) ["BN"; "IR"] quiet_world = (Ok p', quiet_world)
    /\ bad_boy_crime p' = ""
    /\ bad_boy_points p' = 0%N
    /\ bad_boy_num_offenders p' = 0%N
    /\ weight p' = 0%float
    /\ tabbu p' = 0%float
    /\ covid_risk p' = 0
    /\ same_identity (sample_player "Defense" "BN" 30%float) p'.
Proof.
  apply (bench_player_keeps_defaults (sample_config true true true) (PInt 2021)
           sample_metrics (sample_player "Defense" "BN" 30%float) ["BN"; "IR"] quiet_world).
  reflexivity.
Defined.

(** C3 (as amended). With bad-boy rankings enabled, after
    [add_report_team_stats] and over the active (non-bench) players of the
    roster: [team.bad_boy_points] is the sum of their [bad_boy_points];
    [team.num_offenders] is the sum, over those with [bad_boy_points > 0],
    of the player's own [bad_boy_num_offenders] when its
    [selected_position] is ["DEF"] and of [1] otherwise, a player without
    bad-boy points adding nothing, a [DEF] included;
    [team.worst_offense_score] is the highest individual
    [bad_boy_points]; and [team.worst_offense] is the crime of the first
    player reaching that score, or stays [None] when nobody has points.
    In particular two active players with 5 points and 12 points, the second
    a [DEF] with 3 offenders, give 17 points, 4 offenders and a worst
    offense score of 12. *)
Theorem bad_boy_team_totals
    config team league week_counter season metrics_calculator metrics dq_ce
    inactive_players w t' w' :
  league_bad_boy_rankings config = true ->
  add_report_team_stats config team league week_counter season metrics_calculator
                        metrics dq_ce inactive_players w = (Ok t', w') ->
  let active := filter (is_active (bench_positions league)) (roster t') in
  team_bad_boy_points t' = sumN (map bad_boy_points active)
  /\ num_offenders t' = sumN (map offender_count active)
  /\ worst_offense_score t' = highest_points active
  /\ (highest_points active = 0%N -> worst_offense t' = None)
  /\ ((0 < highest_points active)%N ->
      exists p, worst_offender active = Some p /\ In p active
                /\ bad_boy_points p = highest_points active
                /\ worst_offense t' = Some (bad_boy_crime p))
  /\ (forall p1 p2,
        active = [p1; p2] ->
        bad_boy_points p1 = 5%N -> selected_position p1 <> "DEF" ->
        bad_boy_points p2 = 12%N -> selected_position p2 = "DEF" ->
        bad_boy_num_offenders p2 = 3%N ->
        team_bad_boy_points t' = 17%N /\ num_offenders t' = 4%N
        /\ worst_offense_score t' = 12%N
        /\ worst_offense t' = Some (bad_boy_crime p2)).
Proof.
  intros Hon Hrun active.
  destruct (add_report_team_stats_inv _ _ _ _ _ _ _ _ _ _ _ _ Hrun)
    as (_ & _ & _ & _ & _ & Htot & _).
  specialize (Htot Hon). rewrite bad_boy_totals_spec in Htot. fold active in Htot.
  injection Htot as Hpts Hoff Hnum Hscore.
  split; [exact Hpts|]. split; [exact Hnum|]. split; [exact Hscore|].
  split; [|split].
  - intro Hz. rewrite Hoff, Hz. reflexivity.
  - intro Hpos. destruct (worst_offender_exists active Hpos) as (p & Hp & Hin & Hv).
    exists p. repeat split; try assumption.
    rewrite Hoff. destruct (N.ltb_spec 0 (highest_points active)); [|lia].
    rewrite Hp. reflexivity.
  - intros p1 p2 Hact H5 Hnd H12 Hdef H3.
    rewrite Hpts, Hnum, Hscore, Hoff, Hact.
    unfold worst_offender, first_with_points, highest_points, sumN, offender_count.
    cbn [map fold_right fold_left find].
    apply String.eqb_neq in Hnd. rewrite H5, H12, Hdef, H3, Hnd.
    repeat split.
Qed.

Lemma bad_boy_team_totals_witness :
  exists t' w',
    add_report_team_stats (sample_config true false false)
      (sample_team 18%float 0%float bad_boy_scenario_roster) sample_league
      (PInt 3) (PInt 2021) sample_calculator sample_metrics false [] quiet_world
    = (Ok t', w')
    /\ team_bad_boy_points t' = 17%N /\ num_offenders t' = 4%N
    /\ worst_offense_score t' = 12%N /\ worst_offense t' = Some "Assault".
Proof.
  eexists; eexists. split; [vm_compute; reflexivity|].
  refine ((fun H => _)
            (bad_boy_team_totals (sample_config true false false)
               (sample_team 18%float 0%float bad_boy_scenario_roster) sample_league
               (PInt 3) (PInt 2021) sample_calculator sample_metrics false []
               quiet_world _ _ eq_refl ltac:(vm_compute; reflexivity))).
  destruct H as (_ & _ & _ & _ & _ & H).
  refine (H _ _ eq_refl eq_refl _ eq_refl eq_refl eq_refl).
  discriminate.
Defined.

(** C3 as stated fails for a [DEF] without bad-boy points.  The claim has a
    [DEF] add its own [bad_boy_num_offenders] whatever its points; the code
    looks at the position only for a player whose [bad_boy_points] are above
    [0].  An active defense for which the provider answers three offenders
    and no points leaves [team.num_offenders] at [0], where the claim's
    count is [3]. *)
Lemma idle_defense_adds_no_offenders :
  (exists t' w',
     add_report_team_stats (sample_config true false false) idle_defense_team
       sample_league (PInt 3) (PInt 2021) sample_calculator idle_defense_metrics
       false [] quiet_world
     = (Ok t', w')
     /\ map selected_position
          (filter (is_active (bench_positions sample_league)) (roster t')) = ["DEF"]
     /\ map bad_boy_points
          (filter (is_active (bench_positions sample_league)) (roster t')) = [0%N]
     /\ map bad_boy_num_offenders
          (filter (is_active (bench_positions sample_league)) (roster t')) = [3%N]
     /\ num_offenders t' = 0%N
     /\ sumN (map claimed_offender_count
                (filter (is_active (bench_positions sample_league)) (roster t'))) = 3%N)
  /\ ~ (forall config team league week_counter season metrics_calculator metrics dq_ce
               inactive_players w t' w',
          league_bad_boy_rankings config = true ->
          add_report_team_stats config team league week_counter season
                                metrics_calculator metrics dq_ce inactive_players w
          = (Ok t', w') ->
          num_offenders t'
          = sumN (map claimed_offender_count
                    (filter (is_active (bench_positions league)) (roster t')))).
Proof.
  split.
  - eexists; eexists. split; [vm_compute; reflexivity|].
    repeat split; vm_compute; reflexivity.
  - intro Hall.
    specialize (Hall (sample_config true false false) idle_defense_team sample_league
                     (PInt 3) (PInt 2021) sample_calculator idle_defense_metrics false []
                     quiet_world _ _ eq_refl ltac:(vm_compute; reflexivity)).
    vm_compute in Hall. discriminate Hall.
Qed.

(** The discrepancy warning is logged exactly when the rounded reported
    points are not equal, as floats, to the rounded lineup total with the
    home-field advantage added afterwards; the team is returned either way,
    with its reported points as they were. *)
Lemma points_mismatch_warning
    config team league week_counter season metrics_calculator metrics dq_ce
    inactive_players w t' w' :
  add_report_team_stats config team league week_counter season metrics_calculator
                        metrics dq_ce inactive_players w = (Ok t', w') ->
  team_points t' = team_points team
  /\ w' = if points_mismatch (bench_positions league) t'
          then log_warning
                 (MsgTeamPointsMismatch (name t') (py_round2 (team_points t'))
                    (py_round2 (py_sum (map points
                       (filter (is_active (bench_positions league)) (roster t'))))))
                 w
          else w.
Proof.
  intro Hrun.
  destruct (add_report_team_stats_inv _ _ _ _ _ _ _ _ _ _ _ _ Hrun)
    as (_ & Hpts & _ & _ & _ & _ & _ & Hw).
  split; assumption.
Qed.

(** For a team without home-field advantage the warning is logged exactly
    when the reported points and the lineup total differ at 2 decimals. *)
Lemma points_mismatch_warning_without_advantage
    config team league week_counter season metrics_calculator metrics dq_ce
    inactive_players w t' w' :
  home_field_advantage team = 0%float ->
  add_report_team_stats config team league week_counter season metrics_calculator
                        metrics dq_ce inactive_players w = (Ok t', w') ->
  w' = if differ_at_2_decimals (bench_positions league) t'
       then log_warning
              (MsgTeamPointsMismatch (name t') (py_round2 (team_points t'))
                 (py_round2 (py_sum (map points
                    (filter (is_active (bench_positions league)) (roster t'))))))
              w
       else w.
Proof.
  intros Hzero Hrun.
  destruct (add_report_team_stats_inv _ _ _ _ _ _ _ _ _ _ _ _ Hrun)
    as (_ & _ & Hadv & _ & _ & _ & _ & Hw).
  rewrite <- points_mismatch_without_advantage; [exact Hw|].
  rewrite Hadv. exact Hzero.
Qed.

(** C4 (the code departs from it). One starter with 63.01 points, a
    home-field advantage of 1 and 64.01 reported points: the reported points
    and the lineup total plus the advantage agree to 2 decimal places, yet
    the warning is logged, because [63.01 + 1] is not the float [64.01].
    The team is returned, with its reported points unchanged. *)
Theorem spurious_points_mismatch_warning :
  differ_at_2_decimals (bench_positions sample_league) home_field_team = false
  /\ exists t',
       add_report_team_stats (sample_config false false false) home_field_team
         sample_league (PInt 3) (PInt 2021) sample_calculator sample_metrics false []
         quiet_world
       = (Ok t', log_warning (MsgTeamPointsMismatch "Team" 64.01%float 63.01%float)
                             quiet_world)
       /\ team_points t' = 64.01%float.
Proof.
  split; [vm_compute; reflexivity|].
  eexists. split; vm_compute; reflexivity.
Qed.

(** The scenarios of the specification: with [bench_positions = {BN, IR}],
    a starter with 12.5 points and a benched player with 30 points, reported
    points of 12.5 give [bench_points = 30] and no warning; reported points
    of 20 give the warning, and the team is returned all the same. *)
Example bench_scenario_consistent :
  exists t',
    add_report_team_stats (sample_config true true true)
      (sample_team 12.5%float 0%float bench_scenario_roster) sample_league
      (PInt 3) (PInt 2021) sample_calculator sample_metrics false [] quiet_world
    = (Ok t', quiet_world)
    /\ bench_points t' = 30%float.
Proof. eexists. split; vm_compute; reflexivity. Qed.

Example bench_scenario_discrepancy :
  exists t',
    add_report_team_stats (sample_config true true true)
      (sample_team 20%float 0%float bench_scenario_roster) sample_league
      (PInt 3) (PInt 2021) sample_calculator sample_metrics false [] quiet_world
    = (Ok t', log_warning (MsgTeamPointsMismatch "Team" 20%float 12.5%float) quiet_world)
    /\ team_points t' = 20%float.
Proof. eexists. split; vm_compute; reflexivity. Qed.

(** C5. A platform name outside [supported_platforms] makes
    [league_data_factory] log an error and leave through [sys.exit]: no
    adapter is called, nothing is returned. *)
Theorem unsupported_platform_is_fatal
    current_year current_month supported_platforms dao
    week_for_report platform league_id game_id season start_week config
    base_dir data_dir save_data offline w :
  py_in platform supported_platforms = false ->
  league_data_factory current_year current_month supported_platforms dao
    week_for_report platform league_id game_id season start_week config
    base_dir data_dir save_data offline w
  = (Raise (SystemExit msg_run_aborted),
     log_error (MsgPlatformNotSupported platform) w).
Proof.
  intro Hout. unfold league_data_factory. rewrite Hout. reflexivity.
Qed.

Lemma unsupported_platform_is_fatal_witness :
  league_data_factory 2021 10 ["espn"; "fleaflicker"; "sleeper"; "yahoo"] sample_platforms
    (PStr "default") "cbs" "1234" PNone (PInt 2021) (PInt 1)
    (sample_config true true true) "." "data" false false quiet_world
  = (Raise (SystemExit msg_run_aborted),
     log_error (MsgPlatformNotSupported "cbs") quiet_world).
Proof.
  apply (unsupported_platform_is_fatal 2021 10 ["espn"; "fleaflicker"; "sleeper"; "yahoo"]).
  reflexivity.
Defined.

(** C10. A platform name found in [supported_platforms] that is none of
    ["yahoo"], ["fleaflicker"], ["sleeper"] and ["espn"] falls through every
    branch: [league_data_factory] returns [None], with no League, no log
    record and no exit. *)
Theorem unmatched_supported_platform_returns_none
    current_year current_month supported_platforms dao
    week_for_report platform league_id game_id season start_week config
    base_dir data_dir save_data offline w :
  py_in platform supported_platforms = true ->
  platform <> "yahoo" -> platform <> "fleaflicker" ->
  platform <> "sleeper" -> platform <> "espn" ->
  league_data_factory current_year current_month supported_platforms dao
    week_for_report platform league_id game_id season start_week config
    base_dir data_dir save_data offline w
  = (Ok None, w).
Proof.
  intros Hin Hy Hf Hs He. unfold league_data_factory. rewrite Hin.
  apply String.eqb_neq in Hy, Hf, Hs, He. rewrite Hy, Hf, Hs, He. reflexivity.
Qed.

Lemma unmatched_supported_platform_returns_none_witness :
  league_data_factory 2021 10 ["cbs"; "espn"; "fleaflicker"; "sleeper"; "yahoo"]
    sample_platforms (PStr "default") "cbs" "1234" PNone (PInt 2021) (PInt 1)
    (sample_config true true true) "." "data" false false quiet_world
  = (Ok None, quiet_world).
Proof.
  apply (unmatched_supported_platform_returns_none 2021 10
           ["cbs"; "espn"; "fleaflicker"; "sleeper"; "yahoo"]);
    [reflexivity | discriminate | discriminate | discriminate | discriminate].
Defined.

(** C9. In offline mode, when the cached file of the week's game-time
    statuses is absent, [get_player_game_time_statuses] logs an error and
    leaves through [sys.exit]: no document is returned and nothing is
    written, whether or not [save_data] is set. *)
Theorem missing_offline_fixture_is_fatal prettify week league w :
  offline league = true ->
  lookup_file (files w) (player_status_path week league) = None ->
  get_player_game_time_statuses prettify week league w
  = (Raise (SystemExit msg_run_aborted),
     log_error (MsgFileDoesNotExist (player_status_path week league)) w).
Proof.
  intros Hoff Hmiss.
  unfold get_player_game_time_statuses, bind, try_except, read_file.
  rewrite Hoff. cbn [negb app].
  unfold player_status_path in Hmiss. rewrite Hmiss. reflexivity.
Qed.

Lemma missing_offline_fixture_is_fatal_witness :
  get_player_game_time_statuses sample_prettify 3 sample_league quiet_world
  = (Raise (SystemExit msg_run_aborted),
     log_error (MsgFileDoesNotExist
                  ["data"; "2021"; "1234"; "week_3"; "week_3-player_status_data.html"])
               quiet_world).
Proof.
  apply (missing_offline_fixture_is_fatal sample_prettify 3 sample_league quiet_world);
    reflexivity.
Defined.

(** C6 (as amended). For a season that is neither the current year's nor
    last year's before September, [user_week_input_validation] skips the
    validation and ends with [int()] of the request in force, without a
    prompt and whatever the current week is.  A week given that is truthy
    and that [int()] accepts (an [int] other than [0], a [str] holding an
    integer literal) is returned as that integer, values outside
    [[1, NFL_SEASON_LENGTH]] included.  A week given that is falsy ([None],
    the empty string, the integer [0]) is not returned: the configured
    [week_for_report] is, when [int()] accepts it.  When [int()] fails on
    the request in force, as it does for ["default"], the call raises that
    error. *)
Theorem historical_week_returned_as_is
    current_year current_month config week retrieved_current_week season s w :
  py_int season = Ok s ->
  validation_skipped current_year current_month s ->
  let run := user_week_input_validation current_year current_month config week
                                        retrieved_current_week season w in
  (forall z, truthy week = true -> py_int week = Ok z -> run = (Ok z, w))
  /\ (forall z, truthy week = false ->
                py_int (PStr (cfg_week_for_report config)) = Ok z -> run = (Ok z, w))
  /\ (forall e, py_int (requested_week config week) = Raise e -> run = (Raise e, w)).
Proof.
  intros Hs Hskip run.
  assert (Hrun : run = (py_int (requested_week config week), w)).
  { unfold run, user_week_input_validation, bind, lift, ret.
    rewrite Hs, (validation_skipped_gate _ _ _ Hskip). fold (requested_week config week).
    destruct (py_int (requested_week config week)); reflexivity. }
  rewrite Hrun. unfold requested_week. split; [|split].
  - intros z Hgiven Hz. rewrite Hgiven, Hz. reflexivity.
  - intros z Hgiven Hz. rewrite Hgiven, Hz. reflexivity.
  - intros e He. rewrite He. reflexivity.
Qed.

Lemma historical_week_returned_as_is_witness :
  user_week_input_validation 2023 10 week_5_config (PStr "25") (PInt 5) (PInt 2020)
                             quiet_world
  = (Ok 25, quiet_world)
  /\ user_week_input_validation 2023 10 week_5_config (PInt 0) (PInt 5) (PInt 2020)
                                quiet_world
     = (Ok 5, quiet_world).
Proof.
  assert (Hskip : validation_skipped 2023 10 2020)
    by (split; [discriminate | intros [H _]; discriminate H]).
  split.
  - exact (proj1 (historical_week_returned_as_is 2023 10 week_5_config (PStr "25")
                    (PInt 5) (PInt 2020) 2020 quiet_world eq_refl Hskip)
             25 eq_refl eq_refl).
  - exact (proj1 (proj2 (historical_week_returned_as_is 2023 10 week_5_config (PInt 0)
                           (PInt 5) (PInt 2020) 2020 quiet_world eq_refl Hskip))
             5 eq_refl eq_refl).
Defined.

(** C6 as stated fails for the ["default"] sentinel: in 2023, for the 2020
    season, the request ["default"] reaches [int("default")] and the call
    raises [ValueError] instead of returning a week. *)
Lemma historical_default_week_raises :
  validation_skipped 2023 10 2020
  /\ user_week_input_validation 2023 10 (sample_config false false false)
       (PStr "default") (PInt 5) (PInt 2020) quiet_world
     = (Raise (ValueError "invalid literal for int() with base 10: 'default'"), quiet_world)
  /\ ~ (forall current_year current_month config week retrieved_current_week season s w,
          py_int season = Ok s ->
          validation_skipped current_year current_month s ->
          exists z w',
            user_week_input_validation current_year current_month config week
                                       retrieved_current_week season w
            = (Ok z, w')).
Proof.
  assert (Hskip : validation_skipped 2023 10 2020)
    by (split; [discriminate | intros [H _]; discriminate H]).
  split; [exact Hskip|]. split; [reflexivity|].
  intro Hall.
  destruct (Hall 2023 10 (sample_config false false false) (PStr "default") (PInt 5)
                 (PInt 2020) 2020 quiet_world eq_refl Hskip) as (z & w' & Hrun).
  discriminate Hrun.
Qed.

(** C7. Covid-risk enrichment needs both the toggle and a season from 2020
    on.  When the gate is not met (in particular for season 2019 with the
    toggle on) every player leaves [add_report_player_stats] with
    [covid_risk] at its default [0], and [add_report_team_stats] leaves the
    team's [total_covid_risk] as it found it, over a roster whose players
    all have [covid_risk = 0]. *)
Theorem covid_risk_needs_toggle_and_season config season metrics :
  covid_gate_closed config season ->
  (forall player bench_positions w,
     exists p',
       add_report_player_stats config season metrics player bench_positions w = (Ok p', w)
       /\ covid_risk p' = 0)
  /\ (forall team league week_counter metrics_calculator dq_ce inactive_players w t' w',
        add_report_team_stats config team league week_counter season metrics_calculator
                              metrics dq_ce inactive_players w = (Ok t', w') ->
        total_covid_risk t' = total_covid_risk team
        /\ Forall (fun p => covid_risk p = 0) (roster t')).
Proof.
  intro Hgate. split.
  - intros player bench w.
    assert (Hread : season_readable config season).
    { destruct Hgate as [Hoff | [s [Hs _]]]; [left; exact Hoff | right; exists s; exact Hs]. }
    destruct (add_report_player_stats_total config season metrics bench player w Hread)
      as [p' Hp].
    exists p'. split; [exact Hp|].
    exact (add_report_player_stats_covid_closed _ _ _ _ _ _ _ _ Hgate Hp).
  - intros team league week_counter mc dq_ce inactive w t' w' Hrun.
    destruct (add_report_team_stats_inv _ _ _ _ _ _ _ _ _ _ _ _ Hrun)
      as (Hroster & _ & _ & _ & _ & _ & Hcovid & _).
    split; [exact (Hcovid Hgate)|].
    destruct (add_roster_player_stats_inv _ _ _ _ _ _ _ _ Hroster) as [_ Hall].
    clear -Hall Hgate. induction Hall as [|p p' ps ps' Hp _ IH]; constructor.
    + exact (add_report_player_stats_covid_closed _ _ _ _ _ _ _ _ Hgate Hp).
    + exact IH.
Qed.

Lemma covid_risk_needs_toggle_and_season_witness :
  (exists p',
     add_report_player_stats (sample_config false false true) (PInt 2019) sample_metrics
       (sample_player "Quincy" "QB" 12.5%float) ["BN"; "IR"] quiet_world
     = (Ok p', quiet_world)
     /\ covid_risk p' = 0)
  /\ (exists t' w',
        add_report_team_stats (sample_config false false true)
          (sample_team 12.5%float 0%float bench_scenario_roster) sample_league
          (PInt 3) (PInt 2019) sample_calculator sample_metrics false [] quiet_world
        = (Ok t', w')
        /\ total_covid_risk t' = 0
        /\ Forall (fun p => covid_risk p = 0) (roster t')).
Proof.
  destruct (covid_risk_needs_toggle_and_season (sample_config false false true)
              (PInt 2019) sample_metrics) as [Hplayer Hteam].
  - right. exists 2019. split; [reflexivity | lia].
  - split; [apply Hplayer|].
    destruct (add_report_team_stats (sample_config false false true)
                (sample_team 12.5%float 0%float bench_scenario_roster) sample_league
                (PInt 3) (PInt 2019) sample_calculator sample_metrics false [] quiet_world)
      as [[t'|e] w'] eqn:Hrun.
    + exists t', w'. split; [reflexivity|]. exact (Hteam _ _ _ _ _ _ _ _ _ Hrun).
    + vm_compute in Hrun. discriminate.
Defined.

(** C8. [user_week_input_validation] is deterministic and, the prompt
    apart, free of side effects: calls with the same config, requested week,
    retrieved current week and season, in worlds that supply the same
    confirmation answers, end with the same outcome (the same report week or
    the same error) and leave the same answers unread, whatever else differs
    between the worlds; a call changes neither the log, the files nor the
    network; and a second call, made after the first with the same answers
    supplied again, ends as the first did. *)
Theorem user_week_input_validation_deterministic
    current_year current_month config week retrieved_current_week season w1 w2 :
  stdin w1 = stdin w2 ->
  let validate :=
    user_week_input_validation current_year current_month config week
                               retrieved_current_week season in
  fst (validate w1) = fst (validate w2)
  /\ stdin (snd (validate w1)) = stdin (snd (validate w2))
  /\ keeps_store validate
  /\ fst (validate (supply_answers (stdin w1) (snd (validate w1)))) = fst (validate w1).
Proof.
  intros Hsame validate.
  pose proof (user_week_input_validation_answers_only current_year current_month config
                week retrieved_current_week season) as Hdet.
  fold validate in Hdet.
  destruct (Hdet w1 w2 Hsame) as [Hout Hin].
  split; [exact Hout|]. split; [exact Hin|].
  split; [apply user_week_input_validation_keeps_store|].
  apply Hdet. reflexivity.
Qed.

Lemma user_week_input_validation_deterministic_witness :
  let validate :=
    user_week_input_validation 2021 10 (sample_config false false false) (PInt 7)
                               (PInt 5) (PInt 2021) in
  fst (validate (answering_world [])) = Ok 7
  /\ fst (validate (answering_world [(WARNING, MsgCurrentWeekUnavailable)])) = Ok 7
  /\ fst (validate (supply_answers ["y"] (snd (validate (answering_world []))))) = Ok 7.
Proof.
  intro validate.
  destruct (user_week_input_validation_deterministic 2021 10
              (sample_config false false false) (PInt 7) (PInt 5) (PInt 2021)
              (answering_world []) (answering_world [(WARNING, MsgCurrentWeekUnavailable)])
              eq_refl) as (Hsame & _ & _ & Hagain).
  fold validate in Hsame, Hagain.
  assert (Hfirst : fst (validate (answering_world [])) = Ok 7) by reflexivity.
  split; [exact Hfirst|].
  split; [rewrite <- Hsame; exact Hfirst | rewrite <- Hfirst; exact Hagain].
Defined.

(** * Further properties *)

(** ** [str(n)] and [int(s)] *)

Lemma uint_value_acc d p : uint_value d (Zpos p) = Zpos (Pos.of_uint_acc d p).
Proof.
  revert p; induction d; intro p; cbn [uint_value Pos.of_uint_acc]; try reflexivity;
    rewrite <- IHd; f_equal; lia.
Qed.

Lemma uint_value_zero d : uint_value d 0 = Z.of_N (Pos.of_uint d).
Proof.
  induction d; cbn [uint_value Pos.of_uint]; try reflexivity;
    try (change (10 * 0) with 0; exact IHd);
    cbn [Z.mul Z.add Z.of_N]; apply uint_value_acc.
Qed.

Ltac eval_digit :=
  match goal with
  | |- context [digit_of ?c] =>
      let v := eval vm_compute in (digit_of c) in change (digit_of c) with v
  end; cbv iota.

Lemma digits_value_uint d acc :
  digits_value acc true (list_ascii_of_string (NilEmpty.string_of_uint d))
  = Some (uint_value d acc).
Proof.
  revert acc; induction d; intro acc; cbn [NilEmpty.string_of_uint list_ascii_of_string];
    try reflexivity;
    cbn [digits_value]; eval_digit; rewrite IHd; cbn [uint_value];
    first [reflexivity | do 2 f_equal; lia].
Qed.

Lemma digits_value_uint_nonnil d :
  d <> Decimal.Nil ->
  digits_value 0 false (list_ascii_of_string (NilEmpty.string_of_uint d))
  = Some (uint_value d 0).
Proof.
  destruct d; [congruence| ..]; intros _;
    cbn [NilEmpty.string_of_uint list_ascii_of_string digits_value]; eval_digit;
    rewrite digits_value_uint; cbn [uint_value]; first [reflexivity | do 2 f_equal; lia].
Qed.

Lemma uint_chars_no_space d :
  no_space (list_ascii_of_string (NilEmpty.string_of_uint d)).
Proof.
  induction d; cbn [NilEmpty.string_of_uint list_ascii_of_string]; constructor;
    (reflexivity || assumption).
Qed.

Lemma lstrip_no_space l : no_space l -> lstrip l = l.
Proof. destruct 1 as [|c l Hc _]; [reflexivity|]. cbn [lstrip]. rewrite Hc. reflexivity. Qed.

Lemma strip_no_space l : no_space l -> strip l = l.
Proof.
  intro H. unfold strip. rewrite (lstrip_no_space l H).
  rewrite lstrip_no_space; [apply rev_involutive|].
  apply Forall_rev. exact H.
Qed.

(** Printing a non-[Nil] numeral and reading it back. *)
Lemma int_of_string_uint d :
  d <> Decimal.Nil ->
  int_of_string (NilEmpty.string_of_uint d) = Some (Z.of_N (Pos.of_uint d))
  /\ int_of_string (String "-" (NilEmpty.string_of_uint d))
     = Some (- Z.of_N (Pos.of_uint d)).
Proof.
  intro Hd. unfold int_of_string. split.
  - rewrite strip_no_space by apply uint_chars_no_space.
    pose proof (digits_value_uint_nonnil d Hd) as H. rewrite <- uint_value_zero.
    destruct d; try congruence; exact H.
  - cbn [list_ascii_of_string].
    rewrite strip_no_space by (constructor; [reflexivity | apply uint_chars_no_space]).
    rewrite (digits_value_uint_nonnil d Hd), uint_value_zero. reflexivity.
Qed.

Lemma int_of_string_str_int z : int_of_string (py_str_int z) = Some z.
Proof.
  unfold py_str_int. destruct z as [|p|p]; [reflexivity| |].
  - cbn [Z.to_int NilZero.string_of_int].
    pose proof (DecimalPos.Unsigned.to_uint_nonnil p) as Hn.
    unfold NilZero.string_of_uint.
    destruct (int_of_string_uint _ Hn) as [H _].
    rewrite DecimalPos.Unsigned.of_to in H.
    destruct (Pos.to_uint p); [congruence| ..]; exact H.
  - cbn [Z.to_int NilZero.string_of_int].
    pose proof (DecimalPos.Unsigned.to_uint_nonnil p) as Hn.
    unfold NilZero.string_of_uint.
    destruct (int_of_string_uint _ Hn) as [_ H].
    rewrite DecimalPos.Unsigned.of_to in H.
    destruct (Pos.to_uint p); [congruence| ..]; exact H.
Qed.

Lemma py_int_str_int z : py_int (PStr (py_str_int z)) = Ok z.
Proof. cbn [py_int]. rewrite int_of_string_str_int. reflexivity. Qed.

(** ** Week validation for the season in progress *)

Lemma validation_applies_gate current_year current_month s :
  validation_applies current_year current_month s ->
  (current_year =? s) || ((current_year =? s + 1) && (current_month <? 9)) = true.
Proof.
  intros [-> | [-> Hm]].
  - rewrite Z.eqb_refl. reflexivity.
  - rewrite Z.eqb_refl. apply Z.ltb_lt in Hm. rewrite Hm. apply orb_true_r.
Qed.

(** With the validation block running, the call is the guarded block
    followed by the final [int(week_for_report)]. *)
Lemma user_week_input_validation_validated
    current_year current_month config week retrieved_current_week season s w :
  py_int season = Ok s ->
  validation_applies current_year current_month s ->
  user_week_input_validation current_year current_month config week
                             retrieved_current_week season w
  = bind (try_except (validate_week (requested_week config week) retrieved_current_week)
                     is_ValueError (fun _ => raise (ValueError msg_week_choice)))
         (fun week_for_report => lift (py_int week_for_report)) w.
Proof.
  intros Hs Happ. unfold user_week_input_validation, requested_week.
  unfold bind at 1, lift at 1. rewrite Hs, (validation_applies_gate _ _ _ Happ).
  reflexivity.
Qed.

(** X1. For the season in progress the ["default"] request resolves to the
    week before the retrieved current week whenever that week is at least 1:
    no confirmation is asked and the world is unchanged.  The result is not
    capped by [NFL_SEASON_LENGTH]. *)
Theorem default_week_is_week_before_current
    current_year current_month config week retrieved_current_week season s c w :
  py_int season = Ok s ->
  validation_applies current_year current_month s ->
  requested_week config week = PStr "default" ->
  py_int retrieved_current_week = Ok c ->
  1 < c ->
  user_week_input_validation current_year current_month config week
                             retrieved_current_week season w
  = (Ok (c - 1), w).
Proof.
  intros Hs Happ Hreq Hc Hlt.
  rewrite (user_week_input_validation_validated _ _ _ _ _ _ _ _ Hs Happ), Hreq.
  unfold validate_week. change (py_eq_str (PStr "default") "default") with true.
  cbv iota zeta. unfold bind, try_except, lift, ret.
  rewrite Hc. destruct (Z.gtb_spec (c - 1) 0) as [_|Hle]; [|lia].
  apply (f_equal (fun o => (o, w))). apply py_int_str_int.
Qed.

Lemma default_week_is_week_before_current_witness :
  user_week_input_validation 2021 10 (sample_config false false false) PNone
                             (PStr "25") (PInt 2021) quiet_world
  = (Ok 24, quiet_world).
Proof.
  apply (default_week_is_week_before_current 2021 10 (sample_config false false false)
           PNone (PStr "25") (PInt 2021) 2021 25 quiet_world);
    [reflexivity | left; reflexivity | reflexivity | reflexivity | lia].
Defined.

(** X2. For the season in progress, take the request in force: the week
    given when it is truthy, the configured [week_for_report] when the week
    given is falsy ([None], the empty string, the integer [0]).  A request
    in force other than ["default"] on which [int()] raises [ValueError], or
    for which [int()] gives an integer outside [[1, NFL_SEASON_LENGTH]], is
    refused with the [ValueError] naming the accepted choices; no
    confirmation is asked and the current week is not looked at.  What
    counts is the value of [int()]: a float is truncated first, and the week
    [0] is never refused as such, the configured week being validated in
    its place. *)
Theorem week_outside_season_is_refused
    current_year current_month config week retrieved_current_week season s w :
  py_int season = Ok s ->
  validation_applies current_year current_month s ->
  py_eq_str (requested_week config week) "default" = false ->
  (exists m, py_int (requested_week config week) = Raise (ValueError m))
  \/ (exists z, py_int (requested_week config week) = Ok z
                /\ (z < 1 \/ NFL_SEASON_LENGTH < z)) ->
  user_week_input_validation current_year current_month config week
                             retrieved_current_week season w
  = (Raise (ValueError msg_week_choice), w).
Proof.
  intros Hs Happ Hnd Hbad.
  rewrite (user_week_input_validation_validated _ _ _ _ _ _ _ _ Hs Happ).
  unfold validate_week. cbv zeta. unfold bind, try_except, lift, ret, raise. rewrite Hnd.
  destruct Hbad as [[m ->] | [z [-> Hz]]]; [reflexivity|].
  unfold NFL_SEASON_LENGTH in *.
  destruct (Z.ltb_spec 0 z), (Z.leb_spec z 18); cbn [andb]; try reflexivity; lia.
Qed.

Lemma week_outside_season_is_refused_witness :
  user_week_input_validation 2021 10 (sample_config false false false) (PInt 19)
                             (PInt 5) (PInt 2021) quiet_world
  = (Raise (ValueError msg_week_choice), quiet_world).
Proof.
  apply (week_outside_season_is_refused 2021 10 (sample_config false false false)
           (PInt 19) (PInt 5) (PInt 2021) 2021 quiet_world);
    [reflexivity | left; reflexivity | reflexivity |].
  right. exists 19. split; [reflexivity | right; reflexivity].
Defined.

(** X3. For the season in progress a requested week inside the season and
    before the retrieved current week is returned as it is, with no
    confirmation and an unchanged world. *)
Theorem completed_week_is_accepted
    current_year current_month config week retrieved_current_week season s z c w :
  py_int season = Ok s ->
  validation_applies current_year current_month s ->
  py_eq_str (requested_week config week) "default" = false ->
  py_int (requested_week config week) = Ok z ->
  1 <= z <= NFL_SEASON_LENGTH ->
  py_int retrieved_current_week = Ok c ->
  z < c ->
  user_week_input_validation current_year current_month config week
                             retrieved_current_week season w
  = (Ok z, w).
Proof.
  intros Hs Happ Hnd Hz Hrange Hc Hlt.
  rewrite (user_week_input_validation_validated _ _ _ _ _ _ _ _ Hs Happ).
  unfold validate_week. cbv zeta. unfold bind, try_except, lift, ret, raise. rewrite Hnd, Hz.
  unfold NFL_SEASON_LENGTH in *.
  destruct (Z.ltb_spec 0 z); [|lia]. destruct (Z.leb_spec z 18); [|lia].
  cbn [andb]. rewrite Hc. destruct (Z.leb_spec z (c - 1)); [|lia].
  rewrite Hz. reflexivity.
Qed.

Lemma completed_week_is_accepted_witness :
  user_week_input_validation 2021 10 (sample_config false false false) (PStr "4")
                             (PInt 5) (PInt 2021) quiet_world
  = (Ok 4, quiet_world).
Proof.
  apply (completed_week_is_accepted 2021 10 (sample_config false false false)
           (PStr "4") (PInt 5) (PInt 2021) 2021 4 5 quiet_world);
    [reflexivity | left; reflexivity | reflexivity | reflexivity
    | unfold NFL_SEASON_LENGTH; lia | reflexivity | lia].
Defined.

(** X4. For the season in progress a requested week inside the season that
    is not before the retrieved current week is decided by one confirmation
    answer: ["y"] returns the week, every other answer (["n"] included)
    ends in the [ValueError] naming the accepted choices.  One answer is
    read and one prompt is written either way. *)
Theorem incomplete_week_needs_confirmation
    current_year current_month config week retrieved_current_week season s z c w
    answer rest :
  py_int season = Ok s ->
  validation_applies current_year current_month s ->
  py_eq_str (requested_week config week) "default" = false ->
  py_int (requested_week config week) = Ok z ->
  1 <= z <= NFL_SEASON_LENGTH ->
  py_int retrieved_current_week = Ok c ->
  c <= z ->
  stdin w = answer :: rest ->
  user_week_input_validation current_year current_month config week
                             retrieved_current_week season w
  = (if String.eqb answer "y" then Ok z else Raise (ValueError msg_week_choice),
     after_prompt incomplete_week_prompt w)
  /\ stdin (after_prompt incomplete_week_prompt w) = rest.
Proof.
  intros Hs Happ Hnd Hz Hrange Hc Hge Hin.
  rewrite (user_week_input_validation_validated _ _ _ _ _ _ _ _ Hs Happ).
  unfold after_prompt.
  unfold validate_week. cbv zeta. unfold bind, try_except, lift, ret, raise. rewrite Hnd, Hz.
  unfold NFL_SEASON_LENGTH in *.
  destruct (Z.ltb_spec 0 z); [|lia]. destruct (Z.leb_spec z 18); [|lia].
  cbn [andb]. rewrite Hc. destruct (Z.leb_spec z (c - 1)); [lia|].
  unfold input. rewrite Hin. cbn [snd stdin].
  split; [|reflexivity].
  destruct (String.eqb answer "y"); [rewrite Hz; reflexivity|].
  destruct (String.eqb answer "n"); reflexivity.
Qed.

Lemma incomplete_week_needs_confirmation_witness :
  user_week_input_validation 2021 10 (sample_config false false false) (PInt 7)
                             (PInt 5) (PInt 2021) (answering_world [])
  = (Ok 7, after_prompt incomplete_week_prompt (answering_world []))
  /\ stdin (after_prompt incomplete_week_prompt (answering_world [])) = [].
Proof.
  apply (incomplete_week_needs_confirmation 2021 10 (sample_config false false false)
           (PInt 7) (PInt 5) (PInt 2021) 2021 7 5 (answering_world []) "y" []);
    [reflexivity | left; reflexivity | reflexivity | reflexivity
    | unfold NFL_SEASON_LENGTH; lia | reflexivity | lia | reflexivity].
Defined.

(** X5. For the season in progress the ["default"] request made while the
    retrieved current week is 1 or less asks for one confirmation: ["y"]
    returns the retrieved current week itself (0 or a negative number
    included), every other answer ends in the [ValueError] naming the
    accepted choices. *)
Theorem default_before_first_week_needs_confirmation
    current_year current_month config week retrieved_current_week season s c w
    answer rest :
  py_int season = Ok s ->
  validation_applies current_year current_month s ->
  requested_week config week = PStr "default" ->
  py_int retrieved_current_week = Ok c ->
  c <= 1 ->
  stdin w = answer :: rest ->
  user_week_input_validation current_year current_month config week
                             retrieved_current_week season w
  = (if String.eqb answer "y" then Ok c else Raise (ValueError msg_week_choice),
     after_prompt first_week_prompt w).
Proof.
  intros Hs Happ Hreq Hc Hle Hin.
  rewrite (user_week_input_validation_validated _ _ _ _ _ _ _ _ Hs Happ), Hreq.
  unfold after_prompt.
  unfold validate_week. change (py_eq_str (PStr "default") "default") with true.
  cbv iota zeta. unfold bind, try_except, lift, ret, raise.
  rewrite Hc. destruct (Z.gtb_spec (c - 1) 0) as [Hgt|_]; [lia|].
  unfold input. rewrite Hin. cbn [snd].
  destruct (String.eqb answer "y"); [rewrite Hc; reflexivity|].
  destruct (String.eqb answer "n"); reflexivity.
Qed.

Lemma default_before_first_week_needs_confirmation_witness :
  user_week_input_validation 2021 8 (sample_config false false false) (PStr "default")
                             (PInt 0) (PInt 2021) (answering_world [])
  = (Ok 0, after_prompt first_week_prompt (answering_world [])).
Proof.
  apply (default_before_first_week_needs_confirmation 2021 8
           (sample_config false false false) (PStr "default") (PInt 0) (PInt 2021)
           2021 0 (answering_world []) "y" []);
    [reflexivity | left; reflexivity | reflexivity | reflexivity | lia | reflexivity].
Defined.

Ltac validation_cases :=
  repeat first
    [ progress cbv beta iota
    | progress cbn [is_ValueError]
    | match goal with
      | |- context [py_int (PStr (py_str_int ?z))] => rewrite (py_int_str_int z)
      | |- context [match py_int ?v with _ => _ end] => destruct (py_int v) eqn:?
      | |- context [if is_ValueError ?e then _ else _] => is_var e; destruct e
      | |- context [match stdin ?w with _ => _ end] => destruct (stdin w) eqn:?
      | |- context [if ?b then _ else _] => destruct b eqn:?
      end ].

(** X6. For the season in progress, whatever the answers and the retrieved
    current week: when the request in force (the week given when it is
    truthy, the configured [week_for_report] when the week given is falsy:
    [None], the empty string, the integer [0]) is not ["default"] and the
    call returns, the week returned is [int()] of the request in force and
    lies in [[1, NFL_SEASON_LENGTH]].  It is the week given only when that
    is truthy; for a falsy week given it is the configured week. *)
Theorem validated_week_is_in_season
    current_year current_month config week retrieved_current_week season s w z w' :
  py_int season = Ok s ->
  validation_applies current_year current_month s ->
  py_eq_str (requested_week config week) "default" = false ->
  user_week_input_validation current_year current_month config week
                             retrieved_current_week season w
  = (Ok z, w') ->
  py_int (requested_week config week) = Ok z
  /\ 1 <= z <= NFL_SEASON_LENGTH
  /\ (truthy week = true -> py_int week = Ok z)
  /\ (truthy week = false -> py_int (PStr (cfg_week_for_report config)) = Ok z).
Proof.
  intros Hs Happ Hnd Hrun.
  assert (Hweek : py_int (requested_week config week) = Ok z
                  /\ 1 <= z <= NFL_SEASON_LENGTH).
  { revert Hrun.
    rewrite (user_week_input_validation_validated _ _ _ _ _ _ _ _ Hs Happ).
    unfold validate_week. cbv zeta. unfold bind, try_except, lift, ret, raise, input.
    rewrite Hnd. unfold NFL_SEASON_LENGTH.
    destruct (py_int (requested_week config week)) as [z0|e] eqn:Hz;
      [|destruct e; cbn [is_ValueError]; discriminate].
    destruct (Z.ltb_spec 0 z0); [|cbn [andb is_ValueError]; discriminate].
    destruct (Z.leb_spec z0 18); [|cbn [andb is_ValueError]; discriminate].
    cbn [andb].
    validation_cases; intros Hrun; try discriminate; injection Hrun as Hr _;
      rewrite ?Hz in Hr; injection Hr as <-; (split; [reflexivity | lia]). }
  destruct Hweek as [Hz Hrange]. split; [exact Hz|]. split; [exact Hrange|].
  unfold requested_week in Hz.
  split; intro Hgiven; rewrite Hgiven in Hz; exact Hz.
Qed.

Lemma validated_week_is_in_season_witness :
  py_int (PInt 7) = Ok 7 /\ 1 <= 7 <= NFL_SEASON_LENGTH.
Proof.
  destruct (validated_week_is_in_season 2021 10 (sample_config false false false)
              (PInt 7) (PInt 5) (PInt 2021) 2021 (answering_world []) 7
              (after_prompt incomplete_week_prompt (answering_world []))
              eq_refl (or_introl eq_refl) eq_refl eq_refl)
    as (_ & Hrange & Hgiven & _).
  split; [exact (Hgiven eq_refl) | exact Hrange].
Defined.

(** X7. For the season in progress every [ValueError] that leaves the call
    carries the one message naming the accepted choices: the texts raised
    inside the guarded block (not recommended, only y or n, the message of
    [int()]) never reach the caller. *)
Theorem validation_errors_carry_one_message
    current_year current_month config week retrieved_current_week season s w m w' :
  py_int season = Ok s ->
  validation_applies current_year current_month s ->
  user_week_input_validation current_year current_month config week
                             retrieved_current_week season w
  = (Raise (ValueError m), w') ->
  m = msg_week_choice.
Proof.
  intros Hs Happ.
  rewrite (user_week_input_validation_validated _ _ _ _ _ _ _ _ Hs Happ).
  unfold validate_week. cbv zeta. unfold bind, try_except, lift, ret, raise, input.
  validation_cases; intros Hrun; first
    [ discriminate Hrun
    | injection Hrun as Hm _; first [exact (eq_sym Hm) | congruence] ].
Qed.

Lemma validation_errors_carry_one_message_witness :
  exists m w',
    user_week_input_validation 2021 10 (sample_config false false false) (PInt 7)
                               (PInt 5) (PInt 2021) (supply_answers ["n"] quiet_world)
    = (Raise (ValueError m), w')
    /\ m = msg_week_choice.
Proof.
  eexists; eexists. split; [reflexivity|].
  apply (validation_errors_carry_one_message 2021 10 (sample_config false false false)
           (PInt 7) (PInt 5) (PInt 2021) 2021
           (supply_answers ["n"] quiet_world) _
           (after_prompt incomplete_week_prompt (supply_answers ["n"] quiet_world)));
    [reflexivity | left; reflexivity | reflexivity].
Defined.

(** ** The current NFL week *)

Lemma dict_get_lacks_key d key : lacks_key d key -> dict_get d key = PNone.
Proof.
  induction d as [|[k v] d IH]; intro Hno; [reflexivity|].
  cbn [dict_get]. destruct (String.eqb_spec k key) as [->|_].
  - exfalso. apply (Hno v). left. reflexivity.
  - apply IH. intros v' Hin. apply (Hno v'). right. exact Hin.
Qed.

(** X8. The configured [current_week] is what [get_current_nfl_week] returns
    when it runs offline, and also when it runs online and decoding the
    response raises [ValueError] or [KeyError]; in the second case a warning
    is logged.  Offline, no request is made: the result does not depend on
    the network. *)
Theorem configured_week_is_the_fallback config c w :
  py_int (PStr (cfg_current_week config)) = Ok c ->
  get_current_nfl_week config true w
  = (Ok (PInt c), log_debug MsgOfflineCurrentWeek w)
  /\ (forall response e,
        http_get w nfl_state_url [] = Ok response ->
        resp_json response = Raise e ->
        is_KeyError_or_ValueError e = true ->
        get_current_nfl_week config false w
        = (Ok (PInt c),
           log_debug (MsgException e)
             (log_warning MsgCurrentWeekUnavailable
                (log_debug MsgRetrievingCurrentWeek w)))).
Proof.
  intro Hc. split.
  - unfold get_current_nfl_week, bind, lift. rewrite Hc. reflexivity.
  - intros response e Hget Hjson He.
    unfold get_current_nfl_week, bind, lift, try_except, requests_get, logger, ret.
    rewrite Hc. cbn [negb http_get]. rewrite Hget, Hjson, He. reflexivity.
Qed.

Lemma configured_week_is_the_fallback_witness :
  get_current_nfl_week (sample_config false false false) true quiet_world
  = (Ok (PInt 3), log_debug MsgOfflineCurrentWeek quiet_world).
Proof.
  apply (configured_week_is_the_fallback (sample_config false false false) 3 quiet_world).
  reflexivity.
Defined.

(** X9. Online, a response that decodes to an object without the key
    ["week"] makes [get_current_nfl_week] return [None]: the configured
    week is not used and nothing is logged beyond the first debug record.
    Week validation of the ["default"] request for the season in progress
    then fails with the [TypeError] of [int(None)], which its handler does
    not catch. *)
Theorem missing_week_key_gives_none
    current_year current_month config c w response d season s week :
  py_int (PStr (cfg_current_week config)) = Ok c ->
  http_get w nfl_state_url [] = Ok response ->
  resp_json response = Ok d ->
  lacks_key d "week" ->
  py_int season = Ok s ->
  validation_applies current_year current_month s ->
  requested_week config week = PStr "default" ->
  get_current_nfl_week config false w
  = (Ok PNone, log_debug MsgRetrievingCurrentWeek w)
  /\ exists m,
       bind (get_current_nfl_week config false)
            (fun retrieved =>
               user_week_input_validation current_year current_month config week
                                          retrieved season) w
       = (Raise (TypeError m), log_debug MsgRetrievingCurrentWeek w).
Proof.
  intros Hc Hget Hjson Hno Hs Happ Hreq.
  assert (Hrun : get_current_nfl_week config false w
                 = (Ok PNone, log_debug MsgRetrievingCurrentWeek w)).
  { unfold get_current_nfl_week, bind, lift, try_except, requests_get, logger, ret.
    rewrite Hc. cbn [negb http_get]. rewrite Hget, Hjson.
    rewrite (dict_get_lacks_key d "week" Hno). reflexivity. }
  split; [exact Hrun|].
  eexists. unfold bind at 1. rewrite Hrun.
  rewrite (user_week_input_validation_validated _ _ _ _ _ _ _ _ Hs Happ), Hreq.
  unfold validate_week. change (py_eq_str (PStr "default") "default") with true.
  cbv iota zeta. unfold bind, try_except, lift. cbn [py_int is_ValueError].
  reflexivity.
Qed.

Lemma missing_week_key_gives_none_witness :
  get_current_nfl_week (sample_config false false false) false
    (with_http (Ok (mkResponse nfl_state_url "{}" (Ok [("season", PStr "2021")])))
               quiet_world)
  = (Ok PNone,
     log_debug MsgRetrievingCurrentWeek
       (with_http (Ok (mkResponse nfl_state_url "{}" (Ok [("season", PStr "2021")])))
                  quiet_world)).
Proof.
  apply (missing_week_key_gives_none 2021 10 (sample_config false false false) 3
           (with_http (Ok (mkResponse nfl_state_url "{}" (Ok [("season", PStr "2021")])))
                      quiet_world)
           (mkResponse nfl_state_url "{}" (Ok [("season", PStr "2021")]))
           [("season", PStr "2021")] (PInt 2021) 2021 PNone);
    [reflexivity | reflexivity | reflexivity | | reflexivity | left; reflexivity
    | reflexivity].
  intros v [H | []]. discriminate H.
Defined.

(** X10. Online, a request that fails with anything other than [ValueError]
    or [KeyError] (a connection error, say) is not caught by
    [get_current_nfl_week]: the error leaves the call and the configured
    week is not used. *)
Theorem failed_request_is_not_caught config c w e :
  py_int (PStr (cfg_current_week config)) = Ok c ->
  http_get w nfl_state_url [] = Raise e ->
  is_KeyError_or_ValueError e = false ->
  get_current_nfl_week config false w
  = (Raise e, log_debug MsgRetrievingCurrentWeek w).
Proof.
  intros Hc Hget He.
  unfold get_current_nfl_week, bind, lift, try_except, requests_get, logger, ret.
  rewrite Hc. cbn [negb http_get]. rewrite Hget, He. reflexivity.
Qed.

Lemma failed_request_is_not_caught_witness :
  get_current_nfl_week (sample_config false false false) false quiet_world
  = (Raise (ConnectionError "no network"),
     log_debug MsgRetrievingCurrentWeek quiet_world).
Proof.
  apply (failed_request_is_not_caught (sample_config false false false) 3 quiet_world);
    reflexivity.
Defined.

(** X11. A [current_week] setting that is not an integer makes
    [get_current_nfl_week] raise before anything else happens, online as
    well as offline: no request is made and nothing is logged, although an
    online answer would have replaced the setting. *)
Theorem unreadable_configured_week_is_fatal config offline w e :
  py_int (PStr (cfg_current_week config)) = Raise e ->
  get_current_nfl_week config offline w = (Raise e, w).
Proof.
  intro Hc. unfold get_current_nfl_week, bind, lift. rewrite Hc. reflexivity.
Qed.

Lemma unreadable_configured_week_is_fatal_witness :
  get_current_nfl_week (mkConfig "default" "" false false false) false
    (with_http (Ok (mkResponse nfl_state_url "{}" (Ok [("week", PInt 7)]))) quiet_world)
  = (Raise (ValueError "invalid literal for int() with base 10: ''"),
     with_http (Ok (mkResponse nfl_state_url "{}" (Ok [("week", PInt 7)]))) quiet_world).
Proof.
  apply (unreadable_configured_week_is_fatal (mkConfig "default" "" false false false)
           false).
  reflexivity.
Defined.

(** ** The cache of game-time statuses *)

Lemma path_eqb_refl p : path_eqb p p = true.
Proof.
  induction p as [|a p IH]; [reflexivity|].
  cbn [path_eqb]. rewrite String.eqb_refl, IH. reflexivity.
Qed.

Lemma path_eqb_eq p q : path_eqb p q = true -> p = q.
Proof.
  revert q; induction p as [|a p IH]; intros [|b q]; cbn [path_eqb];
    try discriminate; [reflexivity|].
  intro H. apply andb_true_iff in H as [Hab Hpq].
  apply String.eqb_eq in Hab. rewrite Hab, (IH q Hpq). reflexivity.
Qed.

Ltac statuses_cases :=
  repeat first
    [ progress cbv beta iota
    | progress cbn [negb is_FileNotFoundError fst snd files dirs stdin log]
    | match goal with
      | |- context [match http_get ?w ?u ?p with _ => _ end] =>
          destruct (http_get w u p) eqn:?
      | |- context [match lookup_file ?fs ?p with _ => _ end] =>
          destruct (lookup_file fs p) eqn:?
      | |- context [if ?b then _ else _] => destruct b eqn:?
      end ].

(** X12. With [save_data] set, a call of [get_player_game_time_statuses]
    that returns a document leaves its [prettify()] rendering in the week's
    cache file, and an offline call for the same league and week made
    afterwards returns the document parsed from that rendering (not the
    document first returned) and changes nothing. *)
Theorem saved_statuses_are_replayed prettify week league w soup w' :
  save_data league = true ->
  get_player_game_time_statuses prettify week league w = (Ok soup, w') ->
  lookup_file (files w') (player_status_path week league) = Some (prettify soup)
  /\ get_player_game_time_statuses prettify week (replayed league) w'
     = (Ok (BeautifulSoup (prettify soup)), w').
Proof.
  intros Hsave Hrun.
  assert (Hfile : lookup_file (files w') (player_status_path week league)
                  = Some (prettify soup)).
  { revert Hrun.
    unfold get_player_game_time_statuses, bind, try_except, requests_get, read_file,
      logger, sys_exit, raise, ret, path_exists, makedirs, write_file.
    rewrite Hsave. fold (player_status_path week league).
    statuses_cases; intros [= <- <-]; cbn [files lookup_file];
      rewrite path_eqb_refl; reflexivity. }
  split; [exact Hfile|].
  unfold get_player_game_time_statuses, bind, try_except, read_file, ret.
  cbn [replayed offline save_data data_dir season league_id negb app]. cbv zeta.
  cbn [app]. fold (player_status_path week league). rewrite Hfile. reflexivity.
Qed.

Lemma saved_statuses_are_replayed_witness :
  exists w',
    get_player_game_time_statuses sample_prettify 3 saving_league online_world
    = (Ok (BeautifulSoup "<html>injuries</html>"), w')
    /\ lookup_file (files w') (player_status_path 3 saving_league)
       = Some "<html>injuries</html>"
    /\ get_player_game_time_statuses sample_prettify 3 (replayed saving_league) w'
       = (Ok (BeautifulSoup "<html>injuries</html>"), w').
Proof.
  eexists. split; [reflexivity|].
  apply (saved_statuses_are_replayed sample_prettify 3 saving_league online_world
           (BeautifulSoup "<html>injuries</html>"));
    reflexivity.
Defined.

(** X13. [get_player_game_time_statuses] reads no answer from [stdin] and
    touches at most the week's cache file: every other file keeps its
    content, and without [save_data] the files and directories are left
    exactly as they were, whether the call returns or exits. *)
Theorem statuses_touch_one_file prettify week league w r w' :
  get_player_game_time_statuses prettify week league w = (r, w') ->
  stdin w' = stdin w
  /\ (forall p, path_eqb (player_status_path week league) p = false ->
                lookup_file (files w') p = lookup_file (files w) p)
  /\ (save_data league = false -> files w' = files w /\ dirs w' = dirs w).
Proof.
  unfold get_player_game_time_statuses, bind, try_except, requests_get, read_file,
    logger, sys_exit, raise, ret, path_exists, makedirs, write_file.
  cbv zeta. cbn [app]. fold (player_status_path week league).
  statuses_cases; intros [= <- <-]; cbn [files dirs stdin lookup_file];
    (split; [reflexivity|]); (split; [|intro; try discriminate; split; reflexivity]);
    intros p Hp; try rewrite Hp; reflexivity.
Qed.

Lemma statuses_touch_one_file_witness :
  lookup_file
    (files (snd (get_player_game_time_statuses sample_prettify 3 saving_league
                   online_world))) ["data"; "2021"; "1234"; "week_3"; "notes.txt"]
  = lookup_file (files online_world) ["data"; "2021"; "1234"; "week_3"; "notes.txt"].
Proof.
  exact (proj1 (proj2
           (statuses_touch_one_file sample_prettify 3 saving_league online_world
              (fst (get_player_game_time_statuses sample_prettify 3 saving_league
                      online_world))
              (snd (get_player_game_time_statuses sample_prettify 3 saving_league
                      online_world))
              eq_refl))
           ["data"; "2021"; "1234"; "week_3"; "notes.txt"] eq_refl).
Defined.

(** ** The adapter selector *)

(** X14. [league_data_factory] returns a League only for a platform that is
    in [supported_platforms] and is one of the four adapter names; the
    League and the world it leaves are exactly those of that platform's
    adapter, called with [user_week_input_validation] (and, for Fleaflicker
    and Sleeper, [get_current_nfl_week]) as callbacks. *)
Theorem league_comes_from_the_named_adapter
    current_year current_month supported_platforms dao
    week_for_report platform league_id game_id season start_week config
    base_dir data_dir save_data offline w league w' :
  league_data_factory current_year current_month supported_platforms dao
    week_for_report platform league_id game_id season start_week config
    base_dir data_dir save_data offline w
  = (Ok (Some league), w') ->
  py_in platform supported_platforms = true
  /\ ((platform = "yahoo"
       /\ YahooLeagueData dao week_for_report start_week league_id game_id config
            base_dir data_dir (user_week_input_validation current_year current_month)
            save_data offline w = (Ok league, w'))
      \/ (platform = "fleaflicker"
          /\ FleaflickerLeagueData dao week_for_report league_id season start_week
               config data_dir (user_week_input_validation current_year current_month)
               get_current_nfl_week save_data offline w = (Ok league, w'))
      \/ (platform = "sleeper"
          /\ SleeperLeagueData dao week_for_report league_id season start_week
               config data_dir (user_week_input_validation current_year current_month)
               get_current_nfl_week save_data offline w = (Ok league, w'))
      \/ (platform = "espn"
          /\ EspnLeagueData dao week_for_report league_id season start_week config
               base_dir data_dir (user_week_input_validation current_year current_month)
               save_data offline w = (Ok league, w'))).
Proof.
  unfold league_data_factory.
  destruct (py_in platform supported_platforms); [|discriminate].
  intro Hrun. split; [reflexivity|].
  destruct (String.eqb_spec platform "yahoo") as [->|_];
    [|destruct (String.eqb_spec platform "fleaflicker") as [->|_];
      [|destruct (String.eqb_spec platform "sleeper") as [->|_];
        [|destruct (String.eqb_spec platform "espn") as [->|_]; [|discriminate]]]];
    unfold bind, ret in Hrun;
    match type of Hrun with
    | (let (_, _) := ?c in _) = _ => destruct c as [[l|e] w1] eqn:Hcall
    end; try discriminate; injection Hrun as <- <-.
  - left. split; reflexivity.
  - right; left. split; reflexivity.
  - right; right; left. split; reflexivity.
  - right; right; right. split; reflexivity.
Qed.

Lemma league_comes_from_the_named_adapter_witness :
  py_in "sleeper" ["espn"; "fleaflicker"; "sleeper"; "yahoo"] = true.
Proof.
  apply (league_comes_from_the_named_adapter 2021 10
           ["espn"; "fleaflicker"; "sleeper"; "yahoo"] sample_platforms
           (PStr "default") "sleeper" "1234" PNone (PInt 2021) (PInt 1)
           (sample_config true true true) "." "data" false false quiet_world
           sample_league quiet_world).
  reflexivity.
Defined.

(** ** Enrichment: what the players and the team totals depend on *)

Section EnrichmentSources.
Variables (config : Config) (season : pyval) (metrics : Metrics) (bench : list string).

Lemma reset_report_stats_identity p q :
  same_identity p q -> reset_report_stats q = reset_report_stats p.
Proof.
  destruct p, q. unfold same_identity. cbn.
  intros (-> & -> & -> & -> & -> & -> & ->). reflexivity.
Qed.

Lemma add_report_player_stats_reset p w :
  add_report_player_stats config season metrics (reset_report_stats p) bench w
  = add_report_player_stats config season metrics p bench w.
Proof. destruct p. reflexivity. Qed.

Lemma covid_risk_enabled_open w :
  covid_gate_open config season ->
  covid_risk_enabled config season w = (Ok true, w).
Proof.
  intros [Hon [s [Hs Hge]]]. unfold covid_risk_enabled, bind, lift, ret.
  rewrite Hon, Hs. destruct (Z.leb_spec 2020 s); [reflexivity|lia].
Qed.

Lemma add_report_player_stats_enriched p w p' w' :
  add_report_player_stats config season metrics p bench w = (Ok p', w') ->
  enriched_from config season metrics bench p p'.
Proof.
  intro Hrun. split; [exact (proj2 (add_report_player_stats_inv _ _ _ _ _ _ _ _ Hrun))|].
  intro Hact. revert Hrun. unfold is_active in Hact.
  unfold add_report_player_stats, bind, ret.
  cbn [reset_report_stats set_covid_risk set_beef set_bad_boy selected_position].
  rewrite Hact.
  destruct (covid_risk_enabled_run config season w) as [r Hr]. rewrite Hr.
  destruct r as [g|e]; [|discriminate]. intros [= <- <-].
  split; [|split].
  - intros ->. destruct (league_beef_rankings config), g; reflexivity.
  - intros ->. destruct (league_bad_boy_rankings config), g; split; reflexivity.
  - intro Hopen. rewrite (covid_risk_enabled_open w Hopen) in Hr. injection Hr as <-.
    destruct (league_bad_boy_rankings config), (league_beef_rankings config); reflexivity.
Qed.

Lemma enriched_from_active p p' :
  enriched_from config season metrics bench p p' ->
  is_active bench p' = is_active bench p.
Proof.
  intros [(_ & _ & _ & _ & _ & Hsel & _) _]. unfold is_active. rewrite Hsel. reflexivity.
Qed.

(** A field of the enriched active players, read off the players handed in. *)
Lemma enriched_active_map {A} (new : Player -> A) (old : Player -> A) roster ps :
  Forall2 (enriched_from config season metrics bench) roster ps ->
  (forall p p', enriched_from config season metrics bench p p' ->
                is_active bench p = true -> new p' = old p) ->
  map new (filter (is_active bench) ps) = map old (filter (is_active bench) roster).
Proof.
  intros Hall Hfield. induction Hall as [|p p' roster ps Hp _ IH]; [reflexivity|].
  cbn [filter]. rewrite (enriched_from_active p p' Hp).
  destruct (is_active bench p) eqn:Hact; [|exact IH].
  cbn [map]. rewrite IH, (Hfield p p' Hp Hact). reflexivity.
Qed.

Lemma add_roster_player_stats_enriched roster w ps w' :
  add_roster_player_stats config season metrics roster bench w = (Ok ps, w') ->
  Forall2 (enriched_from config season metrics bench) roster ps.
Proof.
  intro Hrun. destruct (add_roster_player_stats_inv _ _ _ _ _ _ _ _ Hrun) as [_ Hall].
  clear Hrun. induction Hall as [|p p' roster ps Hp _ IH]; constructor; [|exact IH].
  exact (add_report_player_stats_enriched _ _ _ _ Hp).
Qed.

(** X15. What [add_report_player_stats] returns depends only on the
    player's identity (names, NFL team, positions, points): enrichment
    values the player already carries are discarded.  Hence enriching a
    player a second time changes nothing. *)
Theorem player_enrichment_ignores_stale_values p q w :
  same_identity p q ->
  add_report_player_stats config season metrics q bench w
  = add_report_player_stats config season metrics p bench w
  /\ (forall p' w',
        add_report_player_stats config season metrics p bench w = (Ok p', w') ->
        add_report_player_stats config season metrics p' bench w' = (Ok p', w')).
Proof.
  intro Hid. split.
  - rewrite <- (add_report_player_stats_reset q), <- (add_report_player_stats_reset p).
    rewrite (reset_report_stats_identity p q Hid). reflexivity.
  - intros p' w' Hrun.
    destruct (add_report_player_stats_inv _ _ _ _ _ _ _ _ Hrun) as [-> Hid'].
    rewrite <- (add_report_player_stats_reset p'), (reset_report_stats_identity p p' Hid').
    rewrite add_report_player_stats_reset. exact Hrun.
Qed.

(** X16. A feature that is switched off leaves its fields at the neutral
    defaults for every player, active players included, whatever the player
    carried before: bad-boy crime, points and offenders without bad-boy
    rankings; weight and TABBU without beef rankings. *)
Theorem disabled_features_leave_defaults p w p' w' :
  add_report_player_stats config season metrics p bench w = (Ok p', w') ->
  (league_bad_boy_rankings config = false ->
   bad_boy_crime p' = "" /\ bad_boy_points p' = 0%N /\ bad_boy_num_offenders p' = 0%N)
  /\ (league_beef_rankings config = false ->
      weight p' = 0%float /\ tabbu p' = 0%float).
Proof.
  unfold add_report_player_stats, bind, ret.
  destruct (negb _).
  - destruct (covid_risk_enabled_run config season w) as [r ->].
    destruct r as [g|e]; [|discriminate]. intros [= <- <-].
    split; intros ->; destruct g;
      try destruct (league_beef_rankings config);
      try destruct (league_bad_boy_rankings config); repeat split.
  - intros [= <- <-]. split; intros _; repeat split.
Qed.
End EnrichmentSources.

Lemma player_enrichment_ignores_stale_values_witness :
  add_report_player_stats (sample_config true true true) (PInt 2021) sample_metrics
    (set_bad_boy (sample_player "Quincy" "QB" 12.5%float) "Theft" 40%N 2%N)
    ["BN"; "IR"] quiet_world
  = add_report_player_stats (sample_config true true true) (PInt 2021) sample_metrics
      (sample_player "Quincy" "QB" 12.5%float) ["BN"; "IR"] quiet_world.
Proof.
  apply (player_enrichment_ignores_stale_values (sample_config true true true)
           (PInt 2021) sample_metrics ["BN"; "IR"]
           (sample_player "Quincy" "QB" 12.5%float)
           (set_bad_boy (sample_player "Quincy" "QB" 12.5%float) "Theft" 40%N 2%N)
           quiet_world).
  repeat split.
Defined.

Lemma disabled_features_leave_defaults_witness :
  exists p',
    add_report_player_stats (sample_config false false true) (PInt 2021) sample_metrics
      (sample_player "Quincy" "QB" 12.5%float) ["BN"; "IR"] quiet_world
    = (Ok p', quiet_world)
    /\ bad_boy_crime p' = "" /\ bad_boy_points p' = 0%N /\ bad_boy_num_offenders p' = 0%N.
Proof.
  eexists. split; [reflexivity|].
  apply (disabled_features_leave_defaults (sample_config false false true) (PInt 2021)
           sample_metrics ["BN"; "IR"] (sample_player "Quincy" "QB" 12.5%float)
           quiet_world _ quiet_world eq_refl).
  reflexivity.
Defined.

Section TeamTotals.
Variables (config : Config) (team : Team) (league : League) (week_counter season : pyval)
          (metrics_calculator : MetricsCalculator) (metrics : Metrics) (dq_ce : bool)
          (inactive_players : list string).

Let bench := bench_positions league.

(** The remaining fields of the team returned by [add_report_team_stats]. *)
Lemma add_report_team_stats_fields w t' w' :
  add_report_team_stats config team league week_counter season metrics_calculator
                        metrics dq_ce inactive_players w = (Ok t', w') ->
  team_id t' = team_id team
  /\ positions_filled_active t'
     = map selected_position (filter (is_active bench) (roster t'))
  /\ (league_beef_rankings config = true ->
      total_weight t' = py_sum (map weight (filter (is_active bench) (roster t')))
      /\ team_tabbu t' = py_sum (map tabbu (filter (is_active bench) (roster t'))))
  /\ (league_beef_rankings config = false ->
      total_weight t' = total_weight team /\ team_tabbu t' = team_tabbu team)
  /\ (league_bad_boy_rankings config = false ->
      team_bad_boy_points t' = team_bad_boy_points team
      /\ worst_offense t' = worst_offense team
      /\ num_offenders t' = num_offenders team
      /\ worst_offense_score t' = worst_offense_score team)
  /\ (covid_gate_open config season ->
      total_covid_risk t'
      = sumZ (map covid_risk (filter (is_active bench) (roster t'))))
  /\ season_readable config season
  /\ (exists week, py_int week_counter = Ok week)
  /\ (exists entry, m_luck metrics (team_id team) = Some entry
                    /\ luck t' = entry_luck entry
                    /\ weekly_overall_record t' = entry_luck_record entry)
  /\ record t' = m_records metrics (team_id team).
Proof.
  unfold add_report_team_stats. fold bench.
  unfold bind at 1.
  destruct (add_roster_player_stats config season metrics (roster team) bench w)
    as [[ps|e] w1]; [|discriminate].
  unfold bind at 1.
  match goal with
  | |- context [if ?c then logger ?l ?m else ret tt] =>
      assert (Hlog : exists w2, (if c then logger l m else ret tt) w1 = (Ok tt, w2))
        by (destruct c; eexists; reflexivity)
  end.
  destruct Hlog as [w2 ->].
  unfold bind at 1.
  destruct (covid_risk_enabled config season w2) as [[g|e] w3] eqn:Hcov; [|discriminate].
  assert (Hread : season_readable config season).
  { revert Hcov. unfold covid_risk_enabled, bind, lift, ret.
    destruct (league_covid_risk_rankings config) eqn:Hon; [|intros _; left; exact Hon].
    destruct (py_int season) as [s|e] eqn:Hs; [intros _; right; exists s; exact Hs | discriminate]. }
  unfold bind at 1, lift.
  destruct (py_int week_counter) as [week|e]; [|discriminate].
  destruct (execute_coaching_efficiency _ _ _ _ _ _ _ _) as [ce op].
  destruct (m_luck metrics (team_id team)) as [entry|]; [|discriminate].
  unfold ret. intros [= <- <-].
  cbn [team_id positions_filled_active roster total_weight team_tabbu team_bad_boy_points
       worst_offense num_offenders worst_offense_score total_covid_risk luck
       weekly_overall_record record].
  split; [reflexivity|]. split; [reflexivity|].
  split; [intros ->; split; reflexivity|].
  split; [intros ->; split; reflexivity|].
  split; [intros ->; repeat split|].
  split.
  { intro Hopen. rewrite (covid_risk_enabled_open _ _ w2 Hopen) in Hcov.
    injection Hcov as <- _. reflexivity. }
  split; [exact Hread|].
  split; [exists week; reflexivity|].
  split; [exists entry; repeat split | reflexivity].
Qed.

(** X17. The team totals are sums of the providers' answers for the active
    players of the roster handed in: with bad-boy rankings,
    [team.bad_boy_points]; with beef rankings, [team.total_weight] and
    [team.tabbu]; with covid-risk rankings and a season from 2020 on,
    [team.total_covid_risk].  Bench players and values the players carried
    before do not enter. *)
Theorem team_totals_come_from_providers w t' w' :
  add_report_team_stats config team league week_counter season metrics_calculator
                        metrics dq_ce inactive_players w = (Ok t', w') ->
  let active := filter (is_active bench) (roster team) in
  (league_bad_boy_rankings config = true ->
   team_bad_boy_points t' = sumN (map (provider_bad_boy_points metrics) active))
  /\ (league_beef_rankings config = true ->
      total_weight t' = py_sum (map (provider_weight metrics) active)
      /\ team_tabbu t' = py_sum (map (provider_tabbu metrics) active))
  /\ (covid_gate_open config season ->
      total_covid_risk t' = sumZ (map (provider_covid_risk metrics) active)).
Proof.
  intros Hrun active.
  destruct (add_report_team_stats_inv _ _ _ _ _ _ _ _ _ _ _ _ Hrun)
    as (Hroster & _ & _ & _ & _ & Hbad & _).
  destruct (add_report_team_stats_fields _ _ _ Hrun)
    as (_ & _ & Hbeef & _ & _ & Hcovid & _).
  pose proof (add_roster_player_stats_enriched _ _ _ _ _ _ _ _ Hroster) as Hall.
  fold bench in Hall, Hbad.
  split; [|split].
  - intro Hon. specialize (Hbad Hon). rewrite bad_boy_totals_spec in Hbad.
    injection Hbad as -> _ _ _. f_equal.
    apply (enriched_active_map _ _ _ _ _ _ _ _ Hall).
    intros p p' [_ Hp] Hact. exact (proj1 (Hp Hact) Hon).
  - intro Hon. destruct (Hbeef Hon) as [-> ->]. split; f_equal;
      apply (enriched_active_map _ _ _ _ _ _ _ _ Hall);
      intros p p' [_ Hp] Hact; apply (proj1 (proj2 (Hp Hact)) Hon).
  - intro Hopen. rewrite (Hcovid Hopen). f_equal.
    apply (enriched_active_map _ _ _ _ _ _ _ _ Hall).
    intros p p' [_ Hp] Hact. exact (proj2 (proj2 (Hp Hact)) Hopen).
Qed.

(** X18. [add_report_team_stats] keeps the roster: the players come back in
    the same order and number, each with its names, NFL team, positions and
    points unchanged; [team_id], reported points and home-field advantage
    are unchanged; and [positions_filled_active] lists the selected
    positions of the active players of the roster handed in, in roster
    order. *)
Theorem team_enrichment_keeps_the_roster w t' w' :
  add_report_team_stats config team league week_counter season metrics_calculator
                        metrics dq_ce inactive_players w = (Ok t', w') ->
  Forall2 same_identity (roster team) (roster t')
  /\ List.length (roster t') = List.length (roster team)
  /\ team_id t' = team_id team
  /\ team_points t' = team_points team
  /\ home_field_advantage t' = home_field_advantage team
  /\ positions_filled_active t'
     = map selected_position (filter (is_active bench) (roster team)).
Proof.
  intro Hrun.
  destruct (add_report_team_stats_inv _ _ _ _ _ _ _ _ _ _ _ _ Hrun)
    as (Hroster & Hpts & Hadv & _).
  destruct (add_report_team_stats_fields _ _ _ Hrun) as (Hid & Hpos & _).
  pose proof (add_roster_player_stats_enriched _ _ _ _ _ _ _ _ Hroster) as Hall.
  fold bench in Hall.
  assert (Hsame : Forall2 same_identity (roster team) (roster t')).
  { clear -Hall. induction Hall as [|p p' r ps [Hp _] _ IH]; constructor; assumption. }
  split; [exact Hsame|].
  split; [symmetry; exact (Forall2_length Hsame)|].
  split; [exact Hid|]. split; [exact Hpts|]. split; [exact Hadv|].
  rewrite Hpos. apply (enriched_active_map _ _ _ _ _ _ _ _ Hall).
  intros p p' [(_ & _ & _ & _ & _ & Hsel & _) _] _. exact Hsel.
Qed.

(** X19. [add_report_team_stats] returns a team exactly when the three
    conversions and lookups it depends on succeed: [int(season)] (read only
    with covid-risk rankings on), [int(week_counter)], and the team's entry
    in the luck table.  Otherwise it raises. *)
Theorem team_enrichment_returns_iff w :
  (exists t' w',
     add_report_team_stats config team league week_counter season metrics_calculator
                           metrics dq_ce inactive_players w = (Ok t', w'))
  <-> (season_readable config season
       /\ (exists week, py_int week_counter = Ok week)
       /\ (exists entry, m_luck metrics (team_id team) = Some entry)).
Proof.
  split.
  - intros (t' & w' & Hrun).
    destruct (add_report_team_stats_fields _ _ _ Hrun)
      as (_ & _ & _ & _ & _ & _ & Hread & Hweek & (entry & Hentry & _) & _).
    split; [exact Hread|]. split; [exact Hweek|]. exists entry. exact Hentry.
  - intros (Hread & (week & Hweek) & (entry & Hentry)).
    exact (add_report_team_stats_returns _ _ _ _ _ _ _ _ _ w week entry Hread Hweek Hentry).
Qed.
End TeamTotals.

Lemma team_totals_come_from_providers_witness :
  exists t' w',
    add_report_team_stats (sample_config true true true)
      (sample_team 18%float 0%float
         (bad_boy_scenario_roster ++ [sample_player "Bench" "BN" 30%float])%list)
      sample_league (PInt 3) (PInt 2021) sample_calculator sample_metrics false []
      quiet_world
    = (Ok t', w')
    /\ team_bad_boy_points t' = 17%N
    /\ total_weight t' = 500%float
    /\ total_covid_risk t' = 6.
Proof.
  destruct (add_report_team_stats (sample_config true true true)
      (sample_team 18%float 0%float
         (bad_boy_scenario_roster ++ [sample_player "Bench" "BN" 30%float])%list)
      sample_league (PInt 3) (PInt 2021) sample_calculator sample_metrics false []
      quiet_world) as [[t'|e] w'] eqn:Hrun.
  - exists t', w'. split; [reflexivity|].
    destruct (team_totals_come_from_providers _ _ _ _ _ _ _ _ _ _ _ _ Hrun)
      as (Hbad & Hbeef & Hcovid).
    rewrite (Hbad eq_refl), (proj1 (Hbeef eq_refl)).
    rewrite Hcovid; [repeat split|].
    split; [reflexivity|]. exists 2021. split; [reflexivity | lia].
  - vm_compute in Hrun. discriminate.
Defined.

Lemma team_enrichment_returns_iff_witness :
  exists t' w',
    add_report_team_stats (sample_config true true true)
      (sample_team 12.5%float 0%float bench_scenario_roster) sample_league
      (PStr " 3 ") (PStr "2021") sample_calculator sample_metrics false [] quiet_world
    = (Ok t', w').
Proof.
  apply (proj2 (team_enrichment_returns_iff (sample_config true true true)
                  (sample_team 12.5%float 0%float bench_scenario_roster) sample_league
                  (PStr " 3 ") (PStr "2021") sample_calculator sample_metrics false []
                  quiet_world)).
  split; [right; exists 2021; reflexivity|].
  split; [exists 3; reflexivity | eexists; reflexivity].
Defined.

Lemma team_enrichment_keeps_the_roster_witness :
  exists t' w',
    add_report_team_stats (sample_config true true true)
      (sample_team 12.5%float 0%float bench_scenario_roster) sample_league
      (PInt 3) (PInt 2021) sample_calculator sample_metrics false [] quiet_world
    = (Ok t', w')
    /\ List.length (roster t') = 2%nat
    /\ positions_filled_active t' = ["QB"].
Proof.
  destruct (add_report_team_stats (sample_config true true true)
      (sample_team 12.5%float 0%float bench_scenario_roster) sample_league
      (PInt 3) (PInt 2021) sample_calculator sample_metrics false [] quiet_world)
    as [[t'|e] w'] eqn:Hrun.
  - exists t', w'. split; [reflexivity|].
    destruct (team_enrichment_keeps_the_roster _ _ _ _ _ _ _ _ _ _ _ _ Hrun)
      as (_ & -> & _ & _ & _ & ->).
    split; reflexivity.
  - vm_compute in Hrun. discriminate.
Defined.

(** ** Bad-boy totals: invariants *)

Lemma highest_points_le_sum ps :
  (highest_points ps <= sumN (map bad_boy_points ps))%N.
Proof.
  induction ps as [|p ps IH]; [cbn; lia|].
  rewrite highest_points_cons. cbn [map]. rewrite sumN_cons. lia.
Qed.

Lemma sum_zero_highest_zero ps :
  sumN (map bad_boy_points ps) = 0%N <-> highest_points ps = 0%N.
Proof.
  induction ps as [|p ps IH]; [cbn; tauto|].
  rewrite highest_points_cons. cbn [map]. rewrite sumN_cons.
  pose proof (highest_points_le_sum ps). split; intro H0.
  - assert (sumN (map bad_boy_points ps) = 0%N) by lia. lia.
  - assert (highest_points ps = 0%N) by lia. apply IH in H1. lia.
Qed.

Lemma offender_count_zero ps :
  highest_points ps = 0%N -> sumN (map offender_count ps) = 0%N.
Proof.
  induction ps as [|p ps IH]; [reflexivity|].
  rewrite highest_points_cons. intro H0. cbn [map]. rewrite sumN_cons.
  rewrite IH by lia. unfold offender_count.
  destruct (N.ltb_spec 0 (bad_boy_points p)); [lia|reflexivity].
Qed.

(** X20. With bad-boy rankings on, the totals of the team returned are
    consistent with each other: the worst offense score never exceeds the
    team's bad-boy points; the worst offense is [None] exactly when the
    team has no bad-boy points; and a team without bad-boy points has no
    offenders. *)
Theorem bad_boy_totals_are_consistent
    config team league week_counter season metrics_calculator metrics dq_ce
    inactive_players w t' w' :
  league_bad_boy_rankings config = true ->
  add_report_team_stats config team league week_counter season metrics_calculator
                        metrics dq_ce inactive_players w = (Ok t', w') ->
  (worst_offense_score t' <= team_bad_boy_points t')%N
  /\ (worst_offense t' = None <-> team_bad_boy_points t' = 0%N)
  /\ (team_bad_boy_points t' = 0%N -> num_offenders t' = 0%N).
Proof.
  intros Hon Hrun.
  destruct (add_report_team_stats_inv _ _ _ _ _ _ _ _ _ _ _ _ Hrun)
    as (_ & _ & _ & _ & _ & Htot & _).
  specialize (Htot Hon). rewrite bad_boy_totals_spec in Htot.
  injection Htot as Hpts Hoff Hnum Hscore.
  set (active := filter (is_active (bench_positions league)) (roster t')) in *.
  rewrite Hpts, Hoff, Hnum, Hscore.
  split; [apply highest_points_le_sum|]. split.
  - rewrite sum_zero_highest_zero.
    destruct (N.ltb_spec 0 (highest_points active)) as [Hpos|Hz].
    + destruct (worst_offender_exists active Hpos) as (p & -> & _).
      cbn [option_map]. split; [discriminate | lia].
    + split; [lia | reflexivity].
  - intro Hz. apply offender_count_zero. apply sum_zero_highest_zero. exact Hz.
Qed.

Lemma bad_boy_totals_are_consistent_witness :
  exists t' w',
    add_report_team_stats (sample_config true false false)
      (sample_team 18%float 0%float bad_boy_scenario_roster) sample_league
      (PInt 3) (PInt 2021) sample_calculator sample_metrics false [] quiet_world
    = (Ok t', w')
    /\ (worst_offense_score t' <= team_bad_boy_points t')%N.
Proof.
  destruct (add_report_team_stats (sample_config true false false)
      (sample_team 18%float 0%float bad_boy_scenario_roster) sample_league
      (PInt 3) (PInt 2021) sample_calculator sample_metrics false [] quiet_world)
    as [[t'|e] w'] eqn:Hrun.
  - exists t', w'. split; [reflexivity|].
    exact (proj1 (bad_boy_totals_are_consistent (sample_config true false false)
                    _ _ _ _ _ _ _ _ _ _ _ eq_refl Hrun)).
  - vm_compute in Hrun. discriminate.
Defined.

(** ** [git_ls_remote] *)

Lemma split_on_nonempty sep s : split_on sep s <> [].
Proof.
  destruct s as [|c r]; cbn [split_on]; [discriminate|].
  destruct (Ascii.eqb c sep); [discriminate|].
  destruct (split_on sep r); discriminate.
Qed.

(** A string without the separator is one piece. *)
Lemma split_on_absent sep s : occurs sep s = false -> split_on sep s = [s].
Proof.
  induction s as [|c r IH]; [reflexivity|].
  cbn [occurs split_on]. intro H. apply orb_false_iff in H as [Hc Hr].
  rewrite Hc, (IH Hr). reflexivity.
Qed.

(** A string with the separator has at least two pieces. *)
Lemma split_on_present sep s :
  occurs sep s = true -> exists a b rest, split_on sep s = a :: b :: rest.
Proof.
  induction s as [|c r IH]; [discriminate|].
  cbn [occurs split_on]. destruct (Ascii.eqb c sep) eqn:Hc.
  - intros _. destruct (split_on sep r) as [|b rest] eqn:Hr.
    + exfalso. exact (split_on_nonempty sep r Hr).
    + exists EmptyString, b, rest. reflexivity.
  - cbn [orb]. intro H. destruct (IH H) as (a & b & rest & ->).
    exists (String c a), b, rest. reflexivity.
Qed.

Lemma split_on_append sep a b :
  occurs sep a = false ->
  split_on sep (a ++ String sep b) = a :: split_on sep b.
Proof.
  induction a as [|c r IH]; cbn [occurs append split_on].
  - intros _. rewrite Ascii.eqb_refl. reflexivity.
  - intro H. apply orb_false_iff in H as [Hc Hr]. rewrite Hc, (IH Hr). reflexivity.
Qed.

(** Splitting what [join] built gives the parts back. *)
Lemma split_on_join sep parts :
  parts <> [] ->
  Forall (fun part => occurs sep part = false) parts ->
  split_on sep (join sep parts) = parts.
Proof.
  induction parts as [|part rest IH]; [congruence|].
  intros _ Hall. inversion Hall as [|? ? Hpart Hrest]; subst.
  destruct rest as [|next rest]; [exact (split_on_absent sep part Hpart)|].
  change (join sep (part :: next :: rest))
    with (part ++ String sep (join sep (next :: rest))).
  rewrite (split_on_append sep part _ Hpart), IH; [reflexivity | discriminate | exact Hrest].
Qed.

Lemma occurs_append c a b : occurs c (a ++ b) = occurs c a || occurs c b.
Proof.
  induction a as [|x a IH]; [reflexivity|].
  cbn [append occurs]. rewrite IH. apply orb_assoc.
Qed.

Lemma ls_remote_line_fields entry :
  occurs tab (fst entry) = false -> occurs tab (snd entry) = false ->
  split_on tab (ls_remote_line entry) = [fst entry; snd entry].
Proof.
  intros Hh Hn. unfold ls_remote_line.
  rewrite (split_on_append tab _ _ Hh), (split_on_absent tab _ Hn). reflexivity.
Qed.

Lemma dict_set_fresh d key value :
  ~ In key (map fst d) -> dict_set d key value = (d ++ [(key, value)])%list.
Proof.
  induction d as [|[k v] d IH]; [reflexivity|].
  cbn [map fst In dict_set app]. intro Hno.
  destruct (String.eqb_spec k key) as [->|_]; [exfalso; apply Hno; left; reflexivity|].
  rewrite IH; [reflexivity|]. intro Hin. apply Hno. right. exact Hin.
Qed.

Lemma git_ls_remote_loop_entries entries acc :
  Forall (fun entry => plain (fst entry) /\ plain (snd entry)) entries ->
  NoDup (map fst acc ++ map snd entries) ->
  git_ls_remote_loop (map ls_remote_line entries) acc
  = Some (acc ++ map (fun entry => (snd entry, fst entry)) entries)%list.
Proof.
  revert acc; induction entries as [|[hash name] entries IH]; intros acc Hall Hnd.
  - cbn. rewrite app_nil_r. reflexivity.
  - inversion Hall as [|? ? [[Hh _] [Hn _]] Hrest]; subst. cbn [fst snd] in *.
    cbn [map git_ls_remote_loop].
    rewrite (ls_remote_line_fields (hash, name) Hh Hn). cbn [fst snd].
    rewrite dict_set_fresh.
    + rewrite IH; [rewrite <- app_assoc; reflexivity | exact Hrest |].
      rewrite map_app. cbn [map fst app]. rewrite <- app_assoc. exact Hnd.
    + cbn [map snd] in Hnd. apply NoDup_remove_2 in Hnd.
      intro Hin. apply Hnd. apply in_or_app. left. exact Hin.
Qed.

(** X21. [git_ls_remote] reads back what [git ls-remote] prints: for a
    non-empty list of (hash, ref) entries free of tabs and newlines, with
    distinct refs, printed one [hash<tab>ref] line per entry, the
    dictionary returned maps each ref to its hash, in the order of the
    lines. *)
Theorem git_ls_remote_reads_the_listing entries :
  entries <> [] ->
  Forall (fun entry => plain (fst entry) /\ plain (snd entry)) entries ->
  NoDup (map snd entries) ->
  git_ls_remote (join newline (map ls_remote_line entries))
  = Some (map (fun entry => (snd entry, fst entry)) entries).
Proof.
  intros Hne Hall Hnd. unfold git_ls_remote.
  rewrite split_on_join.
  - exact (git_ls_remote_loop_entries entries [] Hall Hnd).
  - destruct entries; [congruence | discriminate].
  - apply Forall_map. revert Hall. apply Forall_impl.
    intros [hash name] [[_ Hh] [_ Hn]]. unfold ls_remote_line. cbn [fst snd] in *.
    rewrite occurs_append. cbn [occurs]. rewrite Hh, Hn. reflexivity.
Qed.

Lemma git_ls_remote_reads_the_listing_witness :
  git_ls_remote
    (join newline
       (map ls_remote_line
          [("3f2a", "HEAD"); ("3f2a", "refs/heads/main"); ("9c1d", "refs/tags/v1.0.0")]))
  = Some [("HEAD", "3f2a"); ("refs/heads/main", "3f2a"); ("refs/tags/v1.0.0", "9c1d")].
Proof.
  apply (git_ls_remote_reads_the_listing
           [("3f2a", "HEAD"); ("3f2a", "refs/heads/main"); ("9c1d", "refs/tags/v1.0.0")]).
  - discriminate.
  - repeat constructor.
  - repeat constructor; cbn; intuition discriminate.
Defined.

Lemma git_ls_remote_loop_fails lines acc :
  git_ls_remote_loop lines acc = None
  <-> exists line, In line lines /\ occurs tab line = false.
Proof.
  revert acc; induction lines as [|line lines IH]; intro acc; cbn [git_ls_remote_loop In].
  - split; [discriminate | intros (line & [] & _)].
  - destruct (occurs tab line) eqn:Htab.
    + destruct (split_on_present tab line Htab) as (a & b & rest & ->).
      rewrite IH. split.
      * intros (l & Hin & Hl). exists l. split; [right; exact Hin | exact Hl].
      * intros (l & [<- | Hin] & Hl); [congruence|]. exists l. split; assumption.
    + rewrite (split_on_absent tab line Htab). split; [|reflexivity].
      intros _. exists line. split; [left; reflexivity | exact Htab].
Qed.

Lemma split_on_trailing sep body :
  exists piece pieces,
    split_on sep (body ++ String sep EmptyString)
    = (piece :: pieces ++ [EmptyString])%list.
Proof.
  induction body as [|c r (piece & pieces & IH)]; cbn [append split_on].
  - rewrite Ascii.eqb_refl. exists EmptyString, []. reflexivity.
  - rewrite IH. destruct (Ascii.eqb c sep).
    + exists EmptyString, (piece :: pieces). reflexivity.
    + exists (String c piece), pieces. reflexivity.
Qed.

(** X22. [git_ls_remote] fails (with the [IndexError] of
    [hash_ref_list[1]]) exactly when some line of the command's output has
    no tab; this is the case of an empty output and of an output that ends
    with a newline. *)
Theorem git_ls_remote_fails_on_a_line_without_tab output :
  (git_ls_remote output = None
   <-> exists line, In line (split_on newline output) /\ occurs tab line = false)
  /\ (output = EmptyString -> git_ls_remote output = None)
  /\ (forall body, output = body ++ String newline EmptyString ->
                   git_ls_remote output = None).
Proof.
  split; [apply git_ls_remote_loop_fails|]. split.
  - intros ->. reflexivity.
  - intros body ->. apply git_ls_remote_loop_fails. exists EmptyString.
    split; [|reflexivity].
    destruct (split_on_trailing newline body) as (piece & pieces & ->).
    right. apply in_or_app. right. left. reflexivity.
Qed.

Lemma git_ls_remote_fails_on_a_line_without_tab_witness :
  git_ls_remote (ls_remote_line ("3f2a", "HEAD") ++ String newline EmptyString) = None.
Proof.
  exact (proj2 (proj2 (git_ls_remote_fails_on_a_line_without_tab
                         (ls_remote_line ("3f2a", "HEAD") ++ String newline EmptyString)))
           (ls_remote_line ("3f2a", "HEAD")) eq_refl).
Defined.

(** ** The configuration dialogue: enough fuel *)

Lemma agree_steady {A} k (c : Setup A) : steady c -> agree k c c.
Proof.
  intros Hc h _. destruct (Hc h) as [Hf Hs].
  split; [reflexivity|]. split; [exact Hf|]. rewrite Hs. apply Nat.le_refl.
Qed.

Lemma agree_mono {A} j k (c c' : Setup A) : (j <= k)%nat -> agree k c c' -> agree j c c'.
Proof. intros Hjk H h Hh. apply H. lia. Qed.

Lemma agree_sym {A} k (c c' : Setup A) : agree k c c' -> agree k c' c.
Proof.
  intros H h Hh. destruct (H h Hh) as (Heq & Hf & Hs). rewrite <- Heq.
  split; [reflexivity|]. split; assumption.
Qed.

Lemma agree_trans {A} k (c c' c'' : Setup A) :
  agree k c c' -> agree k c' c'' -> agree k c c''.
Proof.
  intros H1 H2 h Hh. destruct (H1 h Hh) as (Heq & Hf & Hs), (H2 h Hh) as (Heq' & _).
  split; [congruence|]. split; assumption.
Qed.

Lemma agree_bind {A B} k (c c' : Setup A) (f f' : A -> Setup B) :
  agree k c c' -> (forall a, agree k (f a) (f' a)) ->
  agree k (sbind c f) (sbind c' f').
Proof.
  intros Hc Hf h Hh. unfold sbind. destruct (Hc h Hh) as (Heq & Hfuel & Hs).
  rewrite <- Heq. destruct (c h) as [[a|e] h1]; cbn [fst snd] in *.
  - destruct (Hf a h1 ltac:(lia)) as (Heq1 & Hfuel1 & Hs1).
    split; [exact Heq1|]. split; [exact Hfuel1 | lia].
  - split; [reflexivity|]. split; [|exact Hs].
    intros [= ->]. apply Hfuel. reflexivity.
Qed.

Lemma agree_input {A} k prompt (f f' : string -> Setup A) :
  (forall a, match k with O => True | S j => agree j (f a) (f' a) end) ->
  agree k (sbind (sinput prompt) f) (sbind (sinput prompt) f').
Proof.
  intros Hf h Hh. unfold sbind, sinput.
  destruct (h_stdin h) as [|a rest] eqn:Hin; cbn [fst snd h_stdin].
  - split; [reflexivity|]. split; [discriminate | apply Nat.le_refl].
  - destruct k as [|j]; [cbn in Hh; lia|]. specialize (Hf a).
    match goal with
    | |- f a ?h1 = _ /\ _ => destruct (Hf h1) as (Heq & Hfuel & Hs)
    end; [cbn in *; lia|].
    cbn [h_stdin] in Hs. split; [exact Heq|]. split; [exact Hfuel | cbn; lia].
Qed.

Lemma agree_try {A} k (c c' h h' : Setup A) :
  agree k c c' -> agree k h h' ->
  agree k (stry_ValueError c h) (stry_ValueError c' h').
Proof.
  intros Hc Hh host Hk. unfold stry_ValueError. destruct (Hc host Hk) as (Heq & Hfuel & Hs).
  rewrite <- Heq. destruct (c host) as [[a|[[]| | | | |]] h1]; cbn [fst snd] in *;
    try (split; [reflexivity|]; split; [exact Hfuel | exact Hs]).
  destruct (Hh h1 ltac:(lia)) as (Heq1 & Hfuel1 & Hs1).
  split; [exact Heq1|]. split; [exact Hfuel1 | lia].
Qed.

Lemma steady_sret {A} (a : A) : steady (sret a).
Proof. intro h. split; [discriminate | reflexivity]. Qed.

Lemma steady_slog lvl m : steady (slog lvl m).
Proof. intro h. split; [discriminate | reflexivity]. Qed.

Lemma steady_sexit {A} msg : steady (@sexit A msg).
Proof. intro h. split; [discriminate | reflexivity]. Qed.

Lemma steady_sfail {A} f : f <> OutOfFuel -> steady (@sfail A f).
Proof. intros Hf h. split; [cbn; congruence | reflexivity]. Qed.

Lemma steady_sint s : steady (sint s).
Proof. intro h. unfold sint. destruct (py_int (PStr s)); split; (discriminate || reflexivity). Qed.

Lemma steady_copyfile src dst : steady (copyfile src dst).
Proof.
  intro h. unfold copyfile. destruct (lookup_ini (h_files h) src);
    [destruct (path_eqb src dst)|]; split; (discriminate || reflexivity).
Qed.

Lemma steady_config_read p : steady (config_read p).
Proof.
  intro h. unfold config_read. destruct (lookup_ini (h_files h) p);
    split; (discriminate || reflexivity).
Qed.

Lemma steady_read_parser p : steady (read_parser p).
Proof.
  intro h. unfold read_parser. destruct (lookup_ini (h_files h) p);
    split; (discriminate || reflexivity).
Qed.

Lemma steady_write_config p : steady (write_config p).
Proof. intro h. split; [discriminate | reflexivity]. Qed.

Lemma steady_new_config : steady new_config.
Proof. intro h. split; [discriminate | reflexivity]. Qed.

Lemma steady_the_config : steady the_config.
Proof. intro h. split; [discriminate | reflexivity]. Qed.

Lemma steady_is_file p : steady (is_file p).
Proof. intro h. split; [discriminate | reflexivity]. Qed.

Lemma steady_os_access p : steady (os_access p).
Proof. intro h. split; [discriminate | reflexivity]. Qed.

Lemma steady_config_set refuses section key value :
  steady (config_set refuses section key value).
Proof.
  intro h. unfold config_set. destruct (before_set refuses value);
    [|destruct (section_get (h_config h) section)]; split; (discriminate || reflexivity).
Qed.

Lemma steady_warn_select_platform supported : steady (warn_select_platform supported).
Proof.
  intro h. unfold warn_select_platform. destruct supported;
    split; (discriminate || reflexivity).
Qed.

Create HintDb setup.
#[local] Hint Resolve steady_sret steady_slog steady_sexit steady_sint steady_copyfile
  steady_config_read steady_read_parser steady_write_config steady_new_config
  steady_the_config steady_is_file steady_os_access
  steady_config_set steady_warn_select_platform : setup.

(** Goes through a computation built from the operations above, leaving
    the calls of [again] to the hypotheses. *)
Ltac agree_steps :=
  repeat first
    [ apply agree_steady; solve [auto with setup]
    | apply agree_steady; apply steady_sfail; discriminate
    | apply agree_input; intro;
      match goal with
      | |- match ?k with O => _ | S _ => _ end => destruct k; [exact I|]
      end
    | apply agree_bind; [|intro]
    | apply agree_try
    | match goal with
      | |- agree _ (if ?b then _ else _) (if ?b then _ else _) => destruct b
      | |- agree _ (match ?l with [] => _ | _ :: _ => _ end)
                   (match ?l with [] => _ | _ :: _ => _ end) => destruct l
      | H : forall j, (j < _)%nat -> _ |- agree _ _ _ => apply H; lia
      end ].

Section ConfigFuel.
Variables (current_year : Z) (supported_platforms : list string) (root_directory : path)
          (refuses : string -> option string) (expands : Ini -> string -> bool).

Let body := create_config_body current_year supported_platforms root_directory
                               refuses.
Let create := create_config_fuel current_year supported_platforms root_directory
                                 refuses.

Lemma create_config_body_agree k (again again' : create_config_call) :
  (forall j, (j < k)%nat -> forall p a b c d,
      agree j (again p a b c d) (again' p a b c d)) ->
  forall p a b c d,
    agree k (body again p a b c d) (body again' p a b c d).
Proof.
  intros Hagain p a b c d. unfold body, create_config_body. cbv zeta.
  agree_steps.
Qed.

(** With more fuel than answers waiting, more fuel changes nothing. *)
Lemma create_config_fuel_agree k :
  forall extra p a b c d,
    agree k (create (S k) p a b c d) (create (S k + extra) p a b c d).
Proof.
  induction k as [k IH] using (well_founded_induction Wf_nat.lt_wf).
  intros extra p a b c d. cbn [Nat.add].
  unfold create. cbn [create_config_fuel]. apply create_config_body_agree.
  intros j Hj p' a' b' c' d'.
  replace k with (S j + (k - S j))%nat at 1 by lia.
  replace (k + extra)%nat with (S j + (k - S j + extra))%nat by lia.
  apply agree_trans with (c' := create (S j) p' a' b' c' d').
  - apply agree_sym. apply (IH j Hj).
  - apply (IH j Hj).
Qed.

(** [create_config_from_template] never runs out of fuel, reads answers
    without adding any, and is the body applied to itself. *)
Lemma create_config_from_template_fuel p a b c d h fuel :
  (List.length (h_stdin h) < fuel)%nat ->
  create_config_from_template current_year supported_platforms root_directory
    refuses p a b c d h
  = create fuel p a b c d h
  /\ fst (create fuel p a b c d h) <> Failed OutOfFuel
  /\ (List.length (h_stdin (snd (create fuel p a b c d h)))
      <= List.length (h_stdin h))%nat.
Proof.
  intro Hfuel. unfold create_config_from_template. fold create.
  set (n := List.length (h_stdin h)) in *.
  destruct (create_config_fuel_agree n (fuel - S n) p a b c d h (Nat.le_refl _))
    as (Heq & Hf & Hs).
  replace (S n + (fuel - S n))%nat with fuel in Heq by lia.
  rewrite <- Heq. split; [reflexivity|]. split; assumption.
Qed.

Lemma create_config_from_template_agree k p a b c d :
  agree k (create_config_from_template current_year supported_platforms root_directory
             refuses p a b c d)
          (create_config_from_template current_year supported_platforms root_directory
             refuses p a b c d).
Proof.
  intros h _. split; [reflexivity|].
  destruct (create_config_from_template_fuel p a b c d h
              (S (List.length (h_stdin h))) (Nat.lt_succ_diag_r _)) as (Heq & Hf & Hs).
  rewrite Heq. split; assumption.
Qed.

Let check_body := get_valid_config_body current_year supported_platforms root_directory
                                        refuses expands.
Let check := get_valid_config_fuel current_year supported_platforms root_directory
                                   refuses expands.

Lemma get_valid_config_body_agree k (again again' : string -> Setup (option Ini)) :
  (forall j, (j < k)%nat -> forall f, agree j (again f) (again' f)) ->
  forall f, agree k (check_body again f) (check_body again' f).
Proof.
  intros Hagain f. unfold check_body, get_valid_config_body. cbv zeta.
  repeat first
    [ apply create_config_from_template_agree
    | progress agree_steps ].
Qed.

Lemma get_valid_config_fuel_agree k :
  forall extra f, agree k (check (S k) f) (check (S k + extra) f).
Proof.
  induction k as [k IH] using (well_founded_induction Wf_nat.lt_wf).
  intros extra f. cbn [Nat.add].
  unfold check. cbn [get_valid_config_fuel]. apply get_valid_config_body_agree.
  intros j Hj f'.
  replace k with (S j + (k - S j))%nat at 1 by lia.
  replace (k + extra)%nat with (S j + (k - S j + extra))%nat by lia.
  apply agree_trans with (c' := check (S j) f').
  - apply agree_sym. apply (IH j Hj).
  - apply (IH j Hj).
Qed.

Lemma get_valid_config_fuel_enough f h fuel :
  (List.length (h_stdin h) < fuel)%nat ->
  get_valid_config current_year supported_platforms root_directory refuses
    expands f h
  = check fuel f h
  /\ fst (check fuel f h) <> Failed OutOfFuel.
Proof.
  intro Hfuel. unfold get_valid_config. fold check.
  set (n := List.length (h_stdin h)) in *.
  destruct (get_valid_config_fuel_agree n (fuel - S n) f h (Nat.le_refl _))
    as (Heq & Hf & _).
  replace (S n + (fuel - S n))%nat with fuel in Heq by lia.
  rewrite <- Heq. split; [reflexivity | exact Hf].
Qed.
End ConfigFuel.


(** ** The configuration dialogue: what it writes *)

Lemma ensures_weaken {A} (P P' : Host -> Prop) (Q Q' : A -> Host -> Prop) (E E' : Host -> Prop)
    (c : Setup A) :
  ensures P' c Q' E' ->
  (forall h, P h -> P' h) -> (forall a h, Q' a h -> Q a h) -> (forall h, E' h -> E h) ->
  ensures P c Q E.
Proof.
  intros Hc HP HQ HE h Hh. specialize (Hc h (HP h Hh)).
  destruct (c h) as [[a|[[]| | | | |]] h1]; auto.
Qed.

Lemma ensures_bind {A B} (P : Host -> Prop) (R : A -> Host -> Prop) (Q : B -> Host -> Prop)
    (E : Host -> Prop) (c : Setup A) (f : A -> Setup B) :
  ensures P c R E -> (forall a, ensures (R a) (f a) Q E) -> ensures P (sbind c f) Q E.
Proof.
  intros Hc Hf h Hh. unfold sbind. specialize (Hc h Hh).
  destruct (c h) as [[a|[[]| | | | |]] h1]; auto. apply (Hf a h1 Hc).
Qed.

Lemma ensures_try {A} (P E' : Host -> Prop) (Q : A -> Host -> Prop) (E : Host -> Prop)
    (c handler : Setup A) :
  ensures P c Q E' -> ensures E' handler Q E -> ensures P (stry_ValueError c handler) Q E.
Proof.
  intros Hc Hh h HP. unfold stry_ValueError. specialize (Hc h HP).
  destruct (c h) as [[a|[[]| | | | |]] h1]; auto. apply (Hh h1 Hc).
Qed.

Lemma ensures_sret {A} (P : Host -> Prop) (Q : A -> Host -> Prop) E (a : A) :
  (forall h, P h -> Q a h) -> ensures P (sret a) Q E.
Proof. intros HQ h HP. apply HQ, HP. Qed.

Lemma ensures_pure {A} (fact : Prop) (P : Host -> Prop) (Q : A -> Host -> Prop) E
    (c : Setup A) :
  (fact -> ensures P c Q E) -> ensures (fun h => fact /\ P h) c Q E.
Proof. intros Hc h [Hfact HP]. apply (Hc Hfact h HP). Qed.

Lemma ensures_trivial {A} (P : Host -> Prop) (Q : A -> Host -> Prop) (E : Host -> Prop)
    (c : Setup A) :
  (forall a h, Q a h) -> (forall h, E h) -> ensures P c Q E.
Proof. intros HQ HE h _. destruct (c h) as [[a|[[]| | | | |]] h1]; auto. Qed.

(** What depends on the answers waiting only, is kept by what leaves them
    alone. *)
Lemma ensures_start {A} (S : list string -> Prop) (E : Host -> Prop) (c : Setup A) :
  steady c -> mute c ->
  ensures (fun h => S (h_stdin h)) c (fun _ h => S (h_stdin h)) E.
Proof.
  intros Hs Hm h HS. destruct (Hs h) as [_ Hin]. specialize (Hm h).
  destruct (c h) as [[a|[[]| | | | |]] h1]; cbn [fst snd] in *; auto.
  - rewrite Hin. exact HS.
  - exfalso. apply (Hm msg). reflexivity.
Qed.

Lemma ensures_input (line : string) (E : Host -> Prop) prompt :
  ensures (fun h => exists rest, h_stdin h = line :: rest) (sinput prompt)
          (fun answer _ => answer = line) E.
Proof. intros h [rest Hin]. unfold sinput. rewrite Hin. reflexivity. Qed.

Lemma mute_slog lvl m : mute (slog lvl m).
Proof. intros h msg. discriminate. Qed.

Lemma mute_copyfile src dst : mute (copyfile src dst).
Proof.
  intros h msg. unfold copyfile. destruct (lookup_ini (h_files h) src);
    [destruct (path_eqb src dst)|]; discriminate.
Qed.

Lemma mute_config_read p : mute (config_read p).
Proof. intros h msg. unfold config_read. destruct (lookup_ini (h_files h) p); discriminate. Qed.

Lemma still_sret {A} (a : A) : still (sret a).
Proof. intro h. reflexivity. Qed.

Lemma still_slog lvl m : still (slog lvl m).
Proof. intro h. reflexivity. Qed.

Lemma still_sinput prompt : still (sinput prompt).
Proof. intro h. unfold sinput. destruct (h_stdin h); reflexivity. Qed.

Lemma still_sint s : still (sint s).
Proof. intro h. unfold sint. destruct (py_int (PStr s)); reflexivity. Qed.

Lemma still_warn_select_platform supported : still (warn_select_platform supported).
Proof. intro h. unfold warn_select_platform. destruct supported; reflexivity. Qed.

Create HintDb still.
#[local] Hint Resolve still_sret still_slog still_sinput still_sint
  still_warn_select_platform : still.

Lemma option_get_set options key value key' :
  option_get (option_set options key value) key'
  = if String.eqb key key' then Some value else option_get options key'.
Proof.
  induction options as [|[k v] options IH]; cbn [option_set option_get].
  - reflexivity.
  - destruct (String.eqb_spec k key) as [->|Hk]; cbn [option_get].
    + destruct (String.eqb key key'); reflexivity.
    + rewrite IH. destruct (String.eqb_spec key key') as [Heq|_]; [|reflexivity].
      subst key'. destruct (String.eqb_spec k key); [contradiction|reflexivity].
Qed.

Lemma section_get_update config section new section' :
  section_get (section_update config section new) section'
  = if String.eqb section section'
    then Some (fold_left (fun o kv => option_set o (fst kv) (snd kv)) new
                 match section_get config section with Some o => o | None => [] end)
    else section_get config section'.
Proof.
  induction config as [|[s options] config IH]; cbn [section_update section_get].
  - destruct (String.eqb section section'); reflexivity.
  - destruct (String.eqb_spec s section) as [->|Hs]; cbn [section_get].
    + destruct (String.eqb section section'); reflexivity.
    + rewrite IH. destruct (String.eqb_spec section section') as [Heq|_]; [|reflexivity].
      subst section'. destruct (String.eqb_spec s section); [contradiction|reflexivity].
Qed.

(** Reading a value back after [config.set] in the same section. *)
Lemma ini_get_set config section key value key' :
  ini_get (section_update config section [(key, value)]) section key'
  = if String.eqb key key' then Some value else ini_get config section key'.
Proof.
  unfold ini_get. rewrite section_get_update, String.eqb_refl. cbn [fold_left fst snd].
  rewrite option_get_set. destruct (section_get config section); [reflexivity|].
  destruct (String.eqb key key'); reflexivity.
Qed.

Section PlatformKept.
Variables (current_year : Z) (supported_platforms : list string) (root_directory : path)
          (refuses : string -> option string).
Variable platform : string.
Hypothesis platform_given : platform <> "".

Let body := create_config_body current_year supported_platforms root_directory
                               refuses.
Let create := create_config_fuel current_year supported_platforms root_directory
                                 refuses.
Let kept := has_platform platform.

Lemma kept_still {A} (c : Setup A) : still c -> ensures kept c (fun _ => kept) kept.
Proof.
  intros Hc h Hh. specialize (Hc h). unfold kept, has_platform in *.
  destruct (c h) as [[a|[[]| | | | |]] h1]; cbn [fst snd] in *; auto;
    rewrite Hc; exact Hh.
Qed.

Lemma kept_config_set key value :
  key <> "platform" ->
  ensures kept (config_set refuses "Settings" key value) (fun _ => kept) kept.
Proof.
  intros Hkey h Hh. unfold config_set.
  destruct (before_set refuses value); [exact Hh|].
  destruct (section_get (h_config h) "Settings"); [|exact I].
  unfold kept, has_platform in *. cbn [h_config]. rewrite ini_get_set.
  destruct (String.eqb_spec key "platform"); [contradiction | exact Hh].
Qed.

Lemma platform_config_set :
  ensures (fun _ => True) (config_set refuses "Settings" "platform" platform)
          (fun _ h => before_set refuses platform = None /\ kept h)
          (fun _ => before_set refuses platform <> None).
Proof.
  intros h _. unfold config_set.
  destruct (before_set refuses platform); [discriminate|].
  destruct (section_get (h_config h) "Settings"); [|exact I].
  split; [reflexivity|]. unfold kept, has_platform. cbn [h_config].
  rewrite ini_get_set. reflexivity.
Qed.

Lemma kept_written p :
  ensures kept (sbind (write_config p) (fun _ => the_config))
          (fun config h => platform_kept platform p config h /\ kept h) kept.
Proof.
  intros h Hh. unfold sbind, write_config, the_config. cbn [h_config h_files].
  split; [|exact Hh]. split; [exact Hh|].
  cbn [h_files lookup_ini]. rewrite path_eqb_refl. reflexivity.
Qed.

(** Goes through steps that keep the platform. *)
Ltac keeps Hagain :=
  repeat first
    [ apply kept_still; solve [auto with still]
    | apply kept_config_set; discriminate
    | apply Hagain
    | apply (ensures_try kept kept)
    | apply (ensures_bind kept (fun _ => kept)); [|intro]
    | match goal with
      | |- ensures _ (if ?b then _ else _) _ _ => destruct b
      end ].

(** A call keeps the platform it is given, or the one it reads first, as
    long as its calls of itself with that platform do. *)
Lemma create_config_body_platform (again : create_config_call) (given_platform : option string) :
  (unset given_platform = false ->
   given_platform = Some platform /\ before_set refuses platform = None) ->
  (before_set refuses platform = None -> forall p l s w,
      ensures kept (again p (Some platform) l s w) (fun _ => kept) kept) ->
  forall p league_id season current_week,
    ensures (fun h => unset given_platform = true ->
                      exists rest, h_stdin h = platform :: rest)
            (body again p given_platform league_id season current_week)
            (fun config h => platform_kept platform p config h /\ kept h)
            (fun h => unset given_platform = false -> kept h).
Proof.
  intros Hgiven Hagain p league_id season current_week.
  unfold body, create_config_body. cbv zeta.
  set (waiting := fun stdin : list string =>
                    unset given_platform = true -> exists rest, stdin = platform :: rest).
  apply (ensures_bind _ (fun _ h => waiting (h_stdin h)));
    [apply (ensures_start waiting); [apply steady_slog | apply mute_slog] | intros _].
  apply (ensures_bind _ (fun _ h => waiting (h_stdin h)));
    [apply (ensures_start waiting); [apply steady_copyfile | apply mute_copyfile] | intros _].
  apply (ensures_bind _ (fun _ h => waiting (h_stdin h)));
    [apply (ensures_start waiting); [apply steady_config_read | apply mute_config_read]
    | intros _].
  apply (ensures_bind _ (fun answer _ => answer = platform /\ True)).
  { destruct (unset given_platform) eqn:Hunset.
    - apply (ensures_bind _ (fun _ h => waiting (h_stdin h)));
        [apply (ensures_start waiting); [apply steady_slog | apply mute_slog] | intros _].
      apply (ensures_bind _ (fun answer _ => answer = platform /\ True)).
      + apply (ensures_weaken _ (fun h => exists rest, h_stdin h = platform :: rest)
                 _ (fun answer _ => answer = platform) _ (fun _ => True)).
        * apply ensures_input.
        * intros h Hh. apply Hh. reflexivity.
        * intros answer _ ->. split; [reflexivity | exact I].
        * discriminate.
      + intros answer. apply ensures_pure. intros ->.
        apply (ensures_bind _ (fun _ _ => True));
          [apply ensures_trivial; [intros; exact I | discriminate] | intros _].
        apply (ensures_bind _ (fun _ _ => True));
          [apply ensures_trivial; [intros; exact I | discriminate] | intros _].
        apply ensures_sret. intros _ _. split; [reflexivity | exact I].
    - destruct (Hgiven eq_refl) as [-> _]. apply ensures_sret.
      intros _ _. split; [reflexivity | exact I]. }
  intros answer. apply ensures_pure. intros ->.
  apply (ensures_bind _ (fun _ h => before_set refuses platform = None /\ kept h)).
  { apply (ensures_weaken _ (fun _ => True) _
             (fun _ h => before_set refuses platform = None /\ kept h) _
             (fun _ => before_set refuses platform <> None)).
    - apply platform_config_set.
    - intros; exact I.
    - intros _ h Hh. exact Hh.
    - intros h Hrefused Hunset. destruct (Hgiven Hunset) as [_ Haccepted]. congruence. }
  intros _. apply ensures_pure. intros Haccepted. specialize (Hagain Haccepted).
  apply (ensures_weaken _ kept _
           (fun config h => platform_kept platform p config h /\ kept h) _ kept);
    [|intros h Hh; exact Hh | intros config h Hh; exact Hh | intros h Hh _; exact Hh].
  do 6 (apply (ensures_bind kept (fun _ => kept)); [solve [keeps Hagain] | intro]).
  apply kept_written.
Qed.

Lemma create_config_fuel_platform fuel :
  before_set refuses platform = None ->
  forall p l s w, ensures kept (create fuel p (Some platform) l s w) (fun _ => kept) kept.
Proof.
  intros Haccepted. induction fuel as [|fuel IH]; intros p l s w.
  - intros h _. exact I.
  - unfold create. cbn [create_config_fuel].
    assert (Hunset : unset (Some platform) = false).
    { cbn. destruct (String.eqb_spec platform ""); [contradiction | reflexivity]. }
    apply (ensures_weaken _ (fun h => unset (Some platform) = true ->
                                      exists rest, h_stdin h = platform :: rest)
             _ (fun config h => platform_kept platform p config h /\ kept h) _
             (fun h => unset (Some platform) = false -> kept h)).
    + apply create_config_body_platform.
      * intros _. split; [reflexivity | exact Haccepted].
      * intros _. exact IH.
    + intros h _ Habsurd. congruence.
    + intros config h [_ Hkept]. exact Hkept.
    + intros h Hh. apply Hh, Hunset.
Qed.

(** The platform read first by a call is the platform of the configuration
    it returns, which is what it wrote last. *)
Lemma create_config_from_template_platform p given_platform league_id season current_week
    h rest config h' :
  unset given_platform = true ->
  h_stdin h = platform :: rest ->
  create_config_from_template current_year supported_platforms root_directory
    refuses p given_platform league_id season current_week h = (Done config, h') ->
  platform_kept platform p config h'.
Proof.
  intros Hunset Hin Hrun. unfold create_config_from_template in Hrun.
  cbn [create_config_fuel] in Hrun.
  pose proof (create_config_body_platform
                (create_config_fuel current_year supported_platforms root_directory
                   refuses (List.length (h_stdin h)))
                given_platform) as Hbody.
  specialize (Hbody ltac:(intro; congruence)
                    (create_config_fuel_platform (List.length (h_stdin h)))
                    p league_id season current_week h
                    ltac:(intros _; exists rest; exact Hin)).
  unfold body in Hbody. rewrite Hrun in Hbody. apply Hbody.
Qed.
End PlatformKept.

(** ** The configuration: sections and keys *)

Lemma py_in_In x xs : py_in x xs = true <-> In x xs.
Proof.
  unfold py_in. rewrite existsb_exists. split.
  - intros (y & Hy & Heq). apply String.eqb_eq in Heq. subst. exact Hy.
  - intros Hx. exists x. split; [exact Hx | apply String.eqb_refl].
Qed.

Lemma section_get_In config section :
  section_get config section <> None <-> In section (sections config).
Proof.
  induction config as [|[s options] config IH]; cbn [section_get sections map fst].
  - split; [congruence | intros []].
  - destruct (String.eqb_spec s section) as [->|Hs].
    + split; [intros _; left; reflexivity | discriminate].
    + fold (sections config). rewrite IH. split; [intros H; right; exact H|].
      intros [H|H]; [contradiction | exact H].
Qed.

Lemma option_get_In options key :
  option_get options key <> None <-> In key (map fst options).
Proof.
  induction options as [|[k v] options IH]; cbn [option_get map fst].
  - split; [congruence | intros []].
  - destruct (String.eqb_spec k key) as [->|Hk].
    + split; [intros _; left; reflexivity | discriminate].
    + rewrite IH. split; [intros H; right; exact H|].
      intros [H|H]; [contradiction | exact H].
Qed.

Lemma ini_get_In config section key :
  ini_get config section key <> None <-> In key (option_keys config section).
Proof.
  unfold ini_get, option_keys. destruct (section_get config section).
  - apply option_get_In.
  - split; [congruence | intros []].
Qed.

Lemma ini_get_section config section key :
  ini_get config section key <> None -> In section (sections config).
Proof.
  intros H. apply section_get_In. unfold ini_get in H.
  destruct (section_get config section); congruence.
Qed.

Lemma filter_nil {A} (f : A -> bool) xs :
  filter f xs = [] <-> forall x, In x xs -> f x = false.
Proof.
  induction xs as [|x xs IH]; cbn [filter].
  - split; [intros _ x [] | reflexivity].
  - destruct (f x) eqn:Hx.
    + split; [discriminate|]. intros H. specialize (H x (or_introl eq_refl)). congruence.
    + rewrite IH. split.
      * intros H y [<-|Hy]; [exact Hx | apply H, Hy].
      * intros H y Hy. apply H. right. exact Hy.
Qed.

Lemma missing_sections_nil config_template config :
  missing_sections config_template config = []
  <-> forall section, In section (sections config_template) -> In section (sections config).
Proof.
  unfold missing_sections. rewrite filter_nil. split.
  - intros H section Hs. specialize (H section Hs). apply py_in_In.
    destruct (py_in section (sections config)); [reflexivity | discriminate].
  - intros H section Hs. apply H, py_in_In in Hs. rewrite Hs. reflexivity.
Qed.

Lemma missing_keys_nil config_template config :
  missing_keys config_template config = []
  <-> forall section, In section (sections config_template) ->
                      In section (sections config) ->
        forall key, In key (option_keys config_template section) ->
                    In key (option_keys config section).
Proof.
  unfold missing_keys. rewrite filter_nil. split.
  - intros H section Ht Hc key Hkey.
    specialize (H (section, filter (fun k => negb (py_in k (option_keys config section)))
                              (option_keys config_template section))).
    cbn [snd] in H.
    assert (Hnil : filter (fun k => negb (py_in k (option_keys config section)))
                     (option_keys config_template section) = []).
    { match type of H with
      | _ -> match ?l with [] => _ | _ :: _ => _ end = _ => destruct l eqn:Hl
      end; [reflexivity|].
      exfalso. enough (true = false) by discriminate. apply H.
      apply in_map_iff. exists section. split; [rewrite Hl; reflexivity|].
      apply filter_In. split; [exact Ht | apply py_in_In, Hc]. }
    rewrite filter_nil in Hnil. specialize (Hnil key Hkey). apply py_in_In.
    destruct (py_in key (option_keys config section)); [reflexivity | discriminate].
  - intros H entry Hentry. apply in_map_iff in Hentry as (section & <- & Hs).
    apply filter_In in Hs as [Ht Hc]. apply py_in_In in Hc. cbn [snd].
    assert (Hnil : filter (fun k => negb (py_in k (option_keys config section)))
                     (option_keys config_template section) = []).
    { apply filter_nil. intros key Hkey. apply (H section Ht Hc), py_in_In in Hkey.
      rewrite Hkey. reflexivity. }
    rewrite Hnil. reflexivity.
Qed.

Lemma complete_iff config_template config :
  complete config_template config
  <-> missing_sections config_template config = []
      /\ missing_keys config_template config = [].
Proof.
  rewrite missing_sections_nil, missing_keys_nil. unfold complete. split.
  - intros [Hs Hk]. split; [exact Hs|]. intros section _ _ key Hkey.
    apply ini_get_In, Hk, ini_get_In, Hkey.
  - intros [Hs Hk]. split; [exact Hs|]. intros section key Hkey.
    apply ini_get_In. apply Hk.
    + apply (ini_get_section _ _ key), Hkey.
    + apply Hs, (ini_get_section _ _ key), Hkey.
    + apply ini_get_In, Hkey.
Qed.

Lemma section_update_twice config section new new' :
  section_update (section_update config section new) section new'
  = section_update config section (new ++ new').
Proof.
  induction config as [|[s options] config IH]; cbn [section_update].
  - rewrite String.eqb_refl, fold_left_app. reflexivity.
  - destruct (String.eqb_spec s section) as [->|Hs]; cbn [section_update].
    + rewrite String.eqb_refl, fold_left_app. reflexivity.
    + destruct (String.eqb_spec s section); [contradiction|]. rewrite IH. reflexivity.
Qed.

Lemma section_get_update_same config section new :
  section_get (section_update config section new) section <> None.
Proof. rewrite section_get_update, String.eqb_refl. discriminate. Qed.

Lemma section_get_merge config file section :
  In section (sections config) \/ In section (sections file) ->
  section_get (ini_merge config file) section <> None.
Proof.
  unfold ini_merge. revert config.
  induction file as [|[s options] file IH]; intros config; cbn [fold_left fst snd sections map].
  - intros [H|[]]. apply section_get_In, H.
  - intros H. apply IH. fold (sections file). destruct H as [H|[<-|H]].
    + left. apply section_get_In. rewrite section_get_update.
      destruct (String.eqb s section); [discriminate | apply section_get_In, H].
    + left. apply section_get_In, section_get_update_same.
    + right. exact H.
Qed.

(** ** The configuration dialogue: the properties *)

(** X23. Four acceptable answers, each a value that [config.set] takes (none
    that the parser's interpolation refuses): a supported platform, a league
    id, a season that is an integer not after the current year and, for
    ESPN, not before 2019, a week that is an integer from 0 to
    [NFL_SEASON_LENGTH].  They end the dialogue without a warning:
    [create_config_from_template] copies the template, asks its four
    questions once each, and returns what it wrote to the configuration
    file, which is the template read over [config] with the four answers as
    [platform], [league_id], [season] and [current_week] of the section
    [Settings].  Week 0 is accepted although the warning for a refused week
    speaks of weeks from 1 on. *)
Theorem valid_answers_are_written
    (current_year : Z) (supported_platforms : list string) (root_directory : path)
    (refuses : string -> option string)
    (p : path) (h : Host) (template : Ini)
    (platform league_id season current_week : string) (rest : list string)
    (year week : Z) :
  lookup_ini (h_files h) (root_directory ++ [config_template_ini])%list = Some template ->
  path_eqb (root_directory ++ [config_template_ini])%list p = false ->
  In "Settings" (sections template) ->
  h_stdin h = platform :: league_id :: season :: current_week :: rest ->
  py_in platform supported_platforms = true ->
  py_int (PStr season) = Ok year ->
  year <= current_year ->
  (2019 <= year \/ platform <> "espn") ->
  py_int (PStr current_week) = Ok week ->
  0 <= week <= NFL_SEASON_LENGTH ->
  Forall (fun value => before_set refuses value = None)
         [platform; league_id; season; current_week] ->
  let config := with_settings (ini_merge (h_config h) template)
                              platform league_id season current_week in
  create_config_from_template current_year supported_platforms root_directory
    refuses p None None None None h
  = (Done config,
     mkHost rest
       (current_week_prompt :: season_prompt :: league_id_prompt
        :: platform_prompt supported_platforms :: h_prompts h)
       ((DEBUG, MsgRetrievedWeek current_week) :: (DEBUG, MsgRetrievedSeason season)
        :: (DEBUG, MsgRetrievedLeagueId league_id)
        :: (DEBUG, MsgRetrievedPlatform platform) :: (DEBUG, MsgGetting)
        :: (DEBUG, MsgCreatingConfig) :: h_log h)
       ((p, config) :: (p, template) :: h_files h)
       (h_readable h) config).
Proof.
  intros Htemplate Hother Hsettings Hin Hplatform Hyear Hpast Hespn Hweek Hrange Haccepts.
  inversion_clear Haccepts as [|? ? Ha1 Htaken].
  inversion_clear Htaken as [|? ? Ha2 Htaken'].
  inversion_clear Htaken' as [|? ? Ha3 Htaken].
  inversion_clear Htaken as [|? ? Ha4 _].
  intro config. unfold create_config_from_template. cbn [create_config_fuel].
  unfold create_config_body. cbv zeta. cbn [unset].
  unfold sbind at 1. unfold slog at 1.
  unfold sbind at 1. unfold copyfile. cbn [h_files h_stdin h_prompts h_log h_readable h_config].
  rewrite Htemplate, Hother.
  unfold sbind at 1. unfold config_read.
  cbn [h_files h_stdin h_prompts h_log h_readable h_config lookup_ini].
  rewrite path_eqb_refl.
  unfold sbind at 1. unfold sbind at 1. unfold slog at 1.
  unfold sbind at 1. unfold sinput at 1.
  cbn [h_files h_stdin h_prompts h_log h_readable h_config]. rewrite Hin.
  rewrite Hplatform. cbn [negb].
  unfold sbind at 1. unfold sret at 1.
  unfold sbind at 1. unfold slog at 1. unfold sret at 1.
  unfold sbind at 1. unfold config_set at 1.
  cbn [h_files h_stdin h_prompts h_log h_readable h_config].
  rewrite Ha1.
  destruct (section_get (ini_merge (h_config h) template) "Settings") eqn:Hsection;
    [|exfalso; revert Hsection; apply section_get_merge; right; exact Hsettings].
  unfold sbind at 1. unfold sbind at 1. unfold sinput at 1.
  cbn [h_files h_stdin h_prompts h_log h_readable h_config].
  unfold sbind at 1. unfold slog at 1. unfold sret at 1.
  unfold sbind at 1. unfold config_set at 1.
  cbn [h_files h_stdin h_prompts h_log h_readable h_config].
  rewrite Ha2, section_get_update, String.eqb_refl.
  unfold sbind at 1. unfold sbind at 1. unfold sinput at 1.
  cbn [h_files h_stdin h_prompts h_log h_readable h_config].
  unfold sbind at 1. unfold stry_ValueError at 1. unfold sbind at 1. unfold sint at 1.
  rewrite Hyear. unfold sret at 1.
  destruct (Z.gtb_spec year current_year) as [|_]; [lia|].
  unfold sbind at 1. unfold sint at 1. rewrite Hyear. unfold sret at 1.
  assert (Hsupported : (year <? 2019) && String.eqb platform "espn" = false).
  { destruct Hespn as [Hrecent|Hplat].
    - destruct (Z.ltb_spec year 2019); [lia | reflexivity].
    - destruct (String.eqb_spec platform "espn"); [contradiction | apply andb_false_r]. }
  rewrite Hsupported. unfold sret at 1.
  unfold sbind at 1. unfold slog at 1. unfold sret at 1.
  unfold sbind at 1. unfold config_set at 1.
  cbn [h_files h_stdin h_prompts h_log h_readable h_config].
  rewrite Ha3, section_get_update, String.eqb_refl.
  unfold sbind at 1. unfold sbind at 1. unfold sinput at 1.
  cbn [h_files h_stdin h_prompts h_log h_readable h_config].
  unfold sbind at 1. unfold stry_ValueError at 1. unfold sbind at 1. unfold sint at 1.
  rewrite Hweek. unfold sret at 1.
  unfold sbind at 1.
  destruct (Z.ltb_spec week 0) as [|_]; [lia|].
  unfold sbind at 1. unfold sint at 1. rewrite Hweek. unfold sret at 1 2.
  destruct (Z.gtb_spec week NFL_SEASON_LENGTH) as [|_]; [lia|]. unfold sret at 1.
  unfold sbind at 1. unfold slog at 1. unfold sret at 1.
  unfold sbind at 1. unfold config_set at 1.
  cbn [h_files h_stdin h_prompts h_log h_readable h_config].
  rewrite Ha4, section_get_update, String.eqb_refl.
  unfold sbind, write_config, the_config.
  cbn [h_files h_stdin h_prompts h_log h_readable h_config].
  rewrite !section_update_twice. reflexivity.
Qed.

Lemma valid_answers_are_written_witness :
  fst (create_config_from_template 2021 sample_supported sample_root (fun _ => None)
         ["app"; "config.ini"] None None None None
         (sample_console ["yahoo"; "123"; "2021"; "0"] fresh_install))
  = Done (with_settings sample_template "yahoo" "123" "2021" "0").
Proof.
  rewrite (valid_answers_are_written 2021 sample_supported sample_root (fun _ => None)
             ["app"; "config.ini"]
             (sample_console ["yahoo"; "123"; "2021"; "0"] fresh_install)
             sample_template "yahoo" "123" "2021" "0" [] 2021 0);
    [reflexivity | reflexivity | reflexivity | left; reflexivity | reflexivity
    | reflexivity | reflexivity | lia | left; lia | reflexivity
    | unfold NFL_SEASON_LENGTH; lia | repeat constructor ].
Defined.

(** X24. The first answer to the platform question, when it is not empty,
    is the platform of the configuration that [create_config_from_template]
    returns, supported or not: after the warning for an unsupported
    platform the dialogue is run again by a call of itself, but the platform
    that call settled on is then overwritten with the first answer.  What is
    returned is what the configuration file holds. *)
Theorem first_platform_answer_is_kept
    (current_year : Z) (supported_platforms : list string) (root_directory : path)
    (refuses : string -> option string)
    (p : path) (league_id season current_week : option string)
    (h h' : Host) (platform : string) (rest : list string) (config : Ini) :
  h_stdin h = platform :: rest ->
  platform <> "" ->
  create_config_from_template current_year supported_platforms root_directory
    refuses p None league_id season current_week h = (Done config, h') ->
  ini_get config "Settings" "platform" = Some platform
  /\ lookup_ini (h_files h') p = Some config.
Proof.
  intros Hin Hgiven Hrun.
  exact (create_config_from_template_platform current_year supported_platforms
           root_directory refuses platform Hgiven p None league_id season
           current_week h rest config h' eq_refl Hin Hrun).
Qed.

Lemma first_platform_answer_is_kept_witness :
  fst (create_config_from_template 2021 sample_supported sample_root (fun _ => None)
         ["app"; "config.ini"] None None None None
         (sample_console ["foo"; "yahoo"; "123"; "2021"; "3"; "456"; "2020"; "5"]
            fresh_install))
  = Done (with_settings sample_template "foo" "456" "2020" "5")
  /\ ini_get (with_settings sample_template "foo" "456" "2020" "5") "Settings" "platform"
     = Some "foo".
Proof.
  split; [vm_compute; reflexivity|].
  apply (first_platform_answer_is_kept 2021 sample_supported sample_root (fun _ => None)
           ["app"; "config.ini"] None None None
           (sample_console ["foo"; "yahoo"; "123"; "2021"; "3"; "456"; "2020"; "5"]
              fresh_install)
           (snd (create_config_from_template 2021 sample_supported sample_root
                   (fun _ => None) ["app"; "config.ini"] None None None None
                   (sample_console ["foo"; "yahoo"; "123"; "2021"; "3"; "456"; "2020"; "5"]
                      fresh_install)))
           "foo" ["yahoo"; "123"; "2021"; "3"; "456"; "2020"; "5"]);
    [reflexivity | discriminate | vm_compute; reflexivity].
Defined.

(** X25. [create_config_from_template] calls itself only after reading an
    answer: on a console with finitely many answers waiting the calls nest
    no deeper than there are answers, so the dialogue ends (with a
    configuration or an error, [EOFError] at the latest), and it leaves no
    more answers than it found. *)
Theorem config_dialogue_ends
    (current_year : Z) (supported_platforms : list string) (root_directory : path)
    (refuses : string -> option string)
    (p : path) (platform league_id season current_week : option string)
    (h : Host) (fuel : nat) :
  (List.length (h_stdin h) < fuel)%nat ->
  let run := create_config_from_template current_year supported_platforms
               root_directory refuses p platform league_id season current_week h in
  run = create_config_fuel current_year supported_platforms root_directory
          refuses fuel p platform league_id season current_week h
  /\ fst run <> Failed OutOfFuel
  /\ (List.length (h_stdin (snd run)) <= List.length (h_stdin h))%nat.
Proof.
  intros Hfuel run.
  destruct (create_config_from_template_fuel current_year supported_platforms
              root_directory refuses p platform league_id season current_week
              h fuel Hfuel) as (Heq & Hended & Hread).
  unfold run. rewrite Heq. repeat split; assumption.
Qed.

Lemma config_dialogue_ends_witness :
  create_config_from_template 2021 sample_supported sample_root (fun _ => None)
    ["app"; "config.ini"] None None None None
    (sample_console ["yahoo"; "123"; "twenty"] fresh_install)
  = create_config_fuel 2021 sample_supported sample_root (fun _ => None) 7
      ["app"; "config.ini"] None None None None
      (sample_console ["yahoo"; "123"; "twenty"] fresh_install).
Proof.
  apply (config_dialogue_ends 2021 sample_supported sample_root (fun _ => None)
           ["app"; "config.ini"] None None None None
           (sample_console ["yahoo"; "123"; "twenty"] fresh_install) 7).
  cbn. lia.
Defined.

(** X26. A readable configuration file whose values can be expanded is
    accepted exactly when it has every section of the template and, in each
    of them, every key of the template: then [get_valid_config] returns what
    the file holds, otherwise it exits with [...run aborted.].  Either way
    it asks nothing and writes no file.  A template that is not there asks
    for nothing. *)
Theorem readable_config_is_accepted_iff_complete
    (current_year : Z) (supported_platforms : list string) (root_directory : path)
    (refuses : string -> option string) (expands : Ini -> string -> bool)
    (config_file : string) (h : Host) (file : Ini) :
  lookup_ini (h_files h) (root_directory ++ [config_file])%list = Some file ->
  h_readable h (root_directory ++ [config_file])%list = true ->
  let config_template := parsed_at h (root_directory ++ [config_template_ini])%list in
  let config := ini_merge [] file in
  items_expand expands config_template config = true ->
  let run := get_valid_config current_year supported_platforms root_directory
               refuses expands config_file h in
  (complete config_template config -> fst run = Done (Some config))
  /\ (~ complete config_template config ->
      fst run = Failed (Raised (SystemExit msg_run_aborted)))
  /\ h_stdin (snd run) = h_stdin h
  /\ h_prompts (snd run) = h_prompts h
  /\ h_files (snd run) = h_files h.
Proof.
  intros Hfile Hreadable config_template config Hexpand run.
  assert (Ht : config_template
               = match lookup_ini (h_files h) (root_directory ++ [config_template_ini])%list
                 with Some t => parsed t | None => [] end) by reflexivity.
  clearbody config_template.
  eassert (Hrun : run = _).
  { unfold run, get_valid_config. cbn [get_valid_config_fuel].
    unfold get_valid_config_body. cbv zeta.
    unfold sbind at 1 2. unfold new_config, is_file. cbn [h_files]. rewrite Hfile.
    unfold sbind at 1. unfold os_access. cbn [h_readable]. rewrite Hreadable.
    unfold sbind at 1. unfold slog at 1.
    unfold sbind at 1. unfold read_parser.
    cbn [h_files h_stdin h_prompts h_log h_readable h_config].
    match goal with
    | |- context [match lookup_ini (h_files h) ?p with
                  | Some t => (Done (parsed t), ?h1) | None => (Done [], ?h1) end] =>
        replace (match lookup_ini (h_files h) p with
                 | Some t => (Done (parsed t), h1) | None => (Done [], h1) end)
          with (Done config_template, h1)
          by (rewrite Ht; destruct (lookup_ini (h_files h) p); reflexivity)
    end.
    unfold sbind at 1. unfold config_read.
    cbn [h_files h_stdin h_prompts h_log h_readable h_config]. rewrite Hfile.
    unfold sbind at 1. unfold the_config.
    cbn [h_files h_stdin h_prompts h_log h_readable h_config].
    fold config. rewrite Hexpand. reflexivity. }
  rewrite Hrun. clear Hrun.
  pose proof (complete_iff config_template config) as Hcomplete.
  destruct (missing_sections config_template config) as [|section others];
    [destruct (missing_keys config_template config) as [|entry others']|];
    unfold sbind, slog, sexit, sfail, sret;
    cbn [fst snd h_files h_stdin h_prompts h_log h_readable h_config];
    (split; [|split; [|repeat split]]);
    try reflexivity;
    try (intros Hc; apply Hcomplete in Hc as [? ?]; discriminate);
    try (intros Hc; exfalso; apply Hc, Hcomplete; split; reflexivity).
Qed.

Lemma readable_config_is_accepted_iff_complete_witness :
  fst (get_valid_config 2021 sample_supported sample_root (fun _ => None) (fun _ _ => true)
         "config.ini"
         (sample_console []
            (configured_install (with_settings sample_template "yahoo" "123" "2021" "3"))))
  = Done (Some (with_settings sample_template "yahoo" "123" "2021" "3")).
Proof.
  apply (proj1 (readable_config_is_accepted_iff_complete 2021 sample_supported sample_root
                  (fun _ => None) (fun _ _ => true) "config.ini"
                  (sample_console []
                     (configured_install
                        (with_settings sample_template "yahoo" "123" "2021" "3")))
                  (with_settings sample_template "yahoo" "123" "2021" "3")
                  eq_refl eq_refl eq_refl)).
  apply complete_iff. split; reflexivity.
Defined.

(** X27. Without a configuration file, an answer other than [y] or [n] to
    the offer of creating one makes [get_valid_config] call itself and drop
    what that call returns: whenever the first call returns, it returns
    [None], also when the call made on its behalf created and returned a
    configuration. *)
Theorem other_answer_gives_none
    (current_year : Z) (supported_platforms : list string) (root_directory : path)
    (refuses : string -> option string) (expands : Ini -> string -> bool)
    (config_file answer : string) (rest : list string) (h h' : Host)
    (returned : option Ini) :
  lookup_ini (h_files h) (root_directory ++ [config_file])%list = None ->
  h_stdin h = answer :: rest ->
  answer <> "y" -> answer <> "n" ->
  get_valid_config current_year supported_platforms root_directory refuses expands
    config_file h = (Done returned, h') ->
  returned = None.
Proof.
  intros Hfile Hin Hy Hn. unfold get_valid_config. cbn [get_valid_config_fuel].
  unfold get_valid_config_body. cbv zeta.
  unfold sbind at 1 2. unfold new_config, is_file. cbn [h_files]. rewrite Hfile.
  unfold sbind at 1. unfold slog at 1. unfold sbind at 1. unfold sinput. cbn [h_stdin].
  rewrite Hin.
  destruct (String.eqb_spec answer "y") as [|_]; [contradiction|].
  destruct (String.eqb_spec answer "n") as [|_]; [contradiction|].
  unfold sbind, slog, sret.
  match goal with
  | |- context [get_valid_config_fuel ?a ?b ?c ?d ?e ?n ?f ?host] =>
      destruct (get_valid_config_fuel a b c d e n f host) as [[r|e'] h1]
  end; intros [= <- _] || discriminate. reflexivity.
Qed.

Lemma other_answer_gives_none_witness :
  fst (get_valid_config 2021 sample_supported sample_root (fun _ => None) (fun _ _ => true)
         "config.ini"
         (sample_console ["maybe"; "y"; "yahoo"; "123"; "2021"; "3"] fresh_install))
  = Done None.
Proof.
  destruct (get_valid_config 2021 sample_supported sample_root (fun _ => None)
              (fun _ _ => true) "config.ini"
              (sample_console ["maybe"; "y"; "yahoo"; "123"; "2021"; "3"] fresh_install))
    as [[returned|f] h'] eqn:Hrun.
  - cbn [fst]. f_equal.
    apply (other_answer_gives_none 2021 sample_supported sample_root (fun _ => None)
             (fun _ _ => true) "config.ini" "maybe" ["y"; "yahoo"; "123"; "2021"; "3"]
             (sample_console ["maybe"; "y"; "yahoo"; "123"; "2021"; "3"] fresh_install)
             h' returned);
      [reflexivity | reflexivity | discriminate | discriminate | exact Hrun].
  - vm_compute in Hrun. discriminate.
Defined.

(** X28. [get_valid_config] exits with [...run aborted.], after logging
    an error, when the configuration file is there but cannot be read, and
    when it is not there and the offer of creating one is answered [n]; no
    file is written or changed. *)
Theorem unusable_config_is_fatal
    (current_year : Z) (supported_platforms : list string) (root_directory : path)
    (refuses : string -> option string) (expands : Ini -> string -> bool)
    (config_file : string) (h : Host) :
  let config_file_path := (root_directory ++ [config_file])%list in
  (lookup_ini (h_files h) config_file_path <> None
   /\ h_readable h config_file_path = false)
  \/ (lookup_ini (h_files h) config_file_path = None
      /\ exists rest, h_stdin h = "n" :: rest) ->
  let run := get_valid_config current_year supported_platforms root_directory
               refuses expands config_file h in
  fst run = Failed (Raised (SystemExit msg_run_aborted))
  /\ h_files (snd run) = h_files h
  /\ exists m, hd_error (h_log (snd run)) = Some (ERROR, m).
Proof.
  intros config_file_path Hcase run. unfold config_file_path in *.
  unfold run, get_valid_config. cbn [get_valid_config_fuel].
  unfold get_valid_config_body. cbv zeta.
  unfold sbind, new_config, is_file, os_access, slog, sinput, sexit, sfail.
  cbn [h_files h_stdin h_prompts h_log h_readable h_config].
  destruct Hcase as [[Hfile Hreadable]|[Hfile [rest Hin]]].
  - destruct (lookup_ini (h_files h) (root_directory ++ [config_file])%list); [|congruence].
    cbn [h_files h_stdin h_prompts h_log h_readable h_config]. rewrite Hreadable. cbn. repeat split. eexists. reflexivity.
  - rewrite Hfile. cbn [h_files h_stdin h_prompts h_log h_readable h_config].
    rewrite Hin. cbn. repeat split. eexists. reflexivity.
Qed.

Lemma unusable_config_is_fatal_witness :
  fst (get_valid_config 2021 sample_supported sample_root (fun _ => None) (fun _ _ => true)
         "config.ini" (sample_console ["n"] fresh_install))
  = Failed (Raised (SystemExit msg_run_aborted)).
Proof.
  apply (unusable_config_is_fatal 2021 sample_supported sample_root (fun _ => None)
           (fun _ _ => true) "config.ini" (sample_console ["n"] fresh_install)).
  right. split; [reflexivity | exists []; reflexivity].
Defined.

(** X29. [get_valid_config] calls itself only after reading an answer, so
    on a console with finitely many answers waiting it ends as well. *)
Theorem config_check_ends
    (current_year : Z) (supported_platforms : list string) (root_directory : path)
    (refuses : string -> option string) (expands : Ini -> string -> bool)
    (config_file : string) (h : Host) (fuel : nat) :
  (List.length (h_stdin h) < fuel)%nat ->
  let run := get_valid_config current_year supported_platforms root_directory
               refuses expands config_file h in
  run = get_valid_config_fuel current_year supported_platforms root_directory
          refuses expands fuel config_file h
  /\ fst run <> Failed OutOfFuel.
Proof.
  intros Hfuel run.
  destruct (get_valid_config_fuel_enough current_year supported_platforms
              root_directory refuses expands config_file h fuel Hfuel)
    as (Heq & Hended).
  unfold run. rewrite Heq. split; [reflexivity | exact Hended].
Qed.

Lemma config_check_ends_witness :
  get_valid_config 2021 sample_supported sample_root (fun _ => None) (fun _ _ => true)
    "config.ini" (sample_console ["maybe"; "perhaps"] fresh_install)
  = get_valid_config_fuel 2021 sample_supported sample_root (fun _ => None)
      (fun _ _ => true) 5 "config.ini"
      (sample_console ["maybe"; "perhaps"] fresh_install).
Proof.
  apply (config_check_ends 2021 sample_supported sample_root (fun _ => None)
           (fun _ _ => true) "config.ini"
           (sample_console ["maybe"; "perhaps"] fresh_install) 5).
  cbn. lia.
Defined.
